(** * Charge dispatch, webhook reconciliation and the transaction ledger

    A shallow embedding of the Go payment backend: the [PaymentHandler] of
    [handlers] (charge creation, the per-method processors, the ledger upsert
    with its balance credit, the webhook that accepts event- and charge-shaped
    envelopes) and the [net/http] [WebhookHandler].

    Conventions.
    - [int64] and [int] are [Z], [uint] is [N]; no statement below depends on
      wrap-around, and the only arithmetic on amounts is the comparison
      [Amount <= 0] and the conversion to major units.
    - [float64] values are exact rationals ([Q]); rounding is not modelled.
    - Go's [error] is the message it carries; [nil] is [None].
    - [map[string]interface{}] is [option (gmap string Value)], [None] being
      the nil map.
    - The remote gateway, the clock and the failures of the storage layer are
      the environment [Env] of one request; the database, the operations issued
      to the gateway and the log lines form the state [World] that the handlers
      thread. *)

From Stdlib Require Import ZArith QArith String Ascii List Bool Lia.
From Stdlib Require Import Decimal DecimalString DecimalN Sorted.
From stdpp Require Import gmap strings.
Import ListNotations.

Local Open Scope string_scope.
Local Open Scope Z_scope.

(** ** Results of fallible calls *)

Inductive result (A : Type) : Type :=
| Ok (a : A)
| Err (msg : string).
Arguments Ok {A} a.
Arguments Err {A} msg.

#[local] Set Warnings "-register-all".

(** ** Loosely typed values: what an [interface{}] holds after JSON decoding
    ([nil], [bool], [float64], [string], arrays, objects), plus Go's [int]
    for maps built in process. *)

Inductive Value : Type :=
| VNil
| VBool (b : bool)
| VFloat64 (q : Q)
| VString (s : string)
| VInt (z : Z)
| VArray (l : list Value)
| VObject (fields : list (string * Value)).

(** [%T] of a value. *)
Definition typeName (v : Value) : string :=
  match v with
  | VNil => "<nil>"
  | VBool _ => "bool"
  | VFloat64 _ => "float64"
  | VString _ => "string"
  | VInt _ => "int"
  | VArray _ => "[]interface {}"
  | VObject _ => "map[string]interface {}"
  end.

(** A Go map; [None] is the nil map. *)
Abbreviation GoMap := (option (gmap string Value)).

(** [m[k]] with the comma-ok flag folded into the option; reading a nil map
    finds nothing. *)
Definition mapGet (m : GoMap) (k : string) : option Value :=
  match m with
  | None => None
  | Some g => g !! k
  end.

(** [m[k]] without the flag: the zero value of [interface{}] when absent. *)
Definition mapIndex (m : GoMap) (k : string) : Value :=
  match mapGet m k with
  | Some v => v
  | None => VNil
  end.

(** ** strconv and fmt *)

Module strconv.

(** [fmt.Sprintf("%d", n)] for an unsigned [n]. *)
Definition FormatUint (n : N) : string :=
  NilEmpty.string_of_uint (N.to_uint n).

(** Digits only, at least one; [None] is a syntax error. *)
Definition digits (s : string) : option N :=
  match s with
  | EmptyString => None
  | _ => option_map N.of_uint (NilEmpty.uint_of_string s)
  end.

(** [strconv.ParseUint(s, 10, bitSize)]: [None] stands for either error
    (syntax or range). *)
Definition ParseUint (s : string) (bitSize : N) : option N :=
  match digits s with
  | Some n => if (n <? 2 ^ bitSize)%N then Some n else None
  | None => None
  end.

(** [strconv.Atoi]: an optional sign, then digits, within [int] (64 bits). *)
Definition Atoi (s : string) : option Z :=
  let signed (neg : bool) (rest : string) :=
    match digits rest with
    | Some n =>
        let z := if neg then - Z.of_N n else Z.of_N n in
        if (- 2 ^ 63 <=? z) && (z <? 2 ^ 63) then Some z else None
    | None => None
    end in
  match s with
  | String "+" rest => signed false rest
  | String "-" rest => signed true rest
  | _ => signed false s
  end.

(** [strconv.Itoa]. *)
Definition Itoa (z : Z) : string :=
  match z with
  | Zneg p => "-" ++ FormatUint (Npos p)
  | _ => FormatUint (Z.to_N z)
  end.

End strconv.

(** [int(v)] for a [float64]: truncation toward zero. *)
Definition intOfFloat64 (q : Q) : Z := Z.quot (Qnum q) (Zpos (Qden q)).

(** [uint(v)] for a [float64]: truncation; Go leaves the result of an
    out-of-range conversion to the platform, here it wraps to 64 bits. *)
Definition uintOfFloat64 (q : Q) : N := Z.to_N (intOfFloat64 q mod 2 ^ 64).

(** [uint(v)] for an [int]: two's complement reinterpretation. *)
Definition uintOfInt (z : Z) : N := Z.to_N (z mod 2 ^ 64).

(** ** encoding/json, as far as the handlers use it

    Bodies are taken after lexing: [None] is a body that is not JSON at all.
    What is modelled is the decoding of a JSON tree into a struct whose fields
    are strings: keys match a field name up to ASCII case, later keys win, a
    [null] leaves the field alone, and a value of any other type makes
    [Unmarshal] return an error (after decoding the rest). *)

Module json.

Definition lower (a : ascii) : ascii :=
  let n := nat_of_ascii a in
  if (Nat.leb 65 n && Nat.leb n 90)%bool then ascii_of_nat (n + 32) else a.

Fixpoint equalFold (s t : string) : bool :=
  match s, t with
  | EmptyString, EmptyString => true
  | String a s', String b t' => Ascii.eqb (lower a) (lower b) && equalFold s' t'
  | _, _ => false
  end.

(** One string field, decoded from the members of an object in order. The
    flag records an [UnmarshalTypeError]. *)
Fixpoint stringField (name : string) (fields : list (string * Value))
    (cur : string) (bad : bool) : string * bool :=
  match fields with
  | [] => (cur, bad)
  | (k, v) :: rest =>
      if equalFold k name then
        match v with
        | VString s => stringField name rest s bad
        | VNil => stringField name rest cur bad
        | _ => stringField name rest cur true
        end
      else stringField name rest cur bad
  end.

(** [json.Marshal] of a decoded value: the tree itself; it cannot fail on a
    value that came out of a decoder, the error branch of the callers is
    kept all the same. *)
Definition Marshal (v : Value) : result Value := Ok v.

End json.

(** [struct { ID string `json:"id"` }] *)
Record IDOnly : Type := { IDOnly_ID : string }.

(** [struct { ID string `json:"id"`; Object string `json:"object"` }]
    (the fields are declared in either order in the source). *)
Record IDObject : Type := { IDObject_ID : string; IDObject_Object : string }.

(** [json.Unmarshal(body, &envelope)] into [IDOnly]. *)
Definition unmarshalIDOnly (body : option Value) : result IDOnly :=
  match body with
  | None => Err "invalid character"
  | Some VNil => Ok {| IDOnly_ID := "" |}
  | Some (VObject fields) =>
      let '(id, bad) := json.stringField "id" fields "" false in
      if bad then Err "json: cannot unmarshal into Go struct field"
      else Ok {| IDOnly_ID := id |}
  | Some _ => Err "json: cannot unmarshal into Go value"
  end.

(** [json.Unmarshal(body, &envelope)] into [IDObject]. *)
Definition unmarshalIDObject (body : option Value) : result IDObject :=
  match body with
  | None => Err "invalid character"
  | Some VNil => Ok {| IDObject_ID := ""; IDObject_Object := "" |}
  | Some (VObject fields) =>
      let '(id, bad1) := json.stringField "id" fields "" false in
      let '(obj, bad2) := json.stringField "object" fields "" false in
      if (bad1 || bad2)%bool then Err "json: cannot unmarshal into Go struct field"
      else Ok {| IDObject_ID := id; IDObject_Object := obj |}
  | Some _ => Err "json: cannot unmarshal into Go value"
  end.

(** ** The gateway's objects (omise-go), the fields the handlers read *)

Module Source.
Record t : Type := { ID : string; Type_ : string }.
End Source.

Module Token.
Record t : Type := { ID : string }.
End Token.

Module Charge.
Record t : Type := {
  ID : string;
  Amount : Z;
  Currency : string;
  Status : string;
  FailureCode : option string;
  FailureMessage : option string;
  Source : option Source.t;
  Metadata : GoMap
}.
End Charge.

Module Event.
Record t : Type := { Key : string; Data : Value }.
End Event.

Module operations.
Record CreateToken : Type := {
  Name : string;
  Number : string;
  ExpirationMonth : Z;
  ExpirationYear : Z;
  SecurityCode : string
}.
Record CreateSource : Type := {
  src_Type : string;
  src_Amount : Z;
  src_Currency : string
}.
Record CreateCharge : Type := {
  Amount : Z;
  Currency : string;
  Card : string;
  Source : string;
  ReturnURI : string;
  Description : string;
  Metadata : GoMap
}.
(** An operation handed to [Client.Do]. *)
Inductive Operation : Type :=
| OpRetrieveEvent (EventID : string)
| OpRetrieveCharge (ChargeID : string)
| OpCreateToken (op : CreateToken)
| OpCreateSource (op : CreateSource)
| OpCreateCharge (op : CreateCharge).
End operations.

(** ** models *)

Module PaymentRequest.
Record t : Type := {
  Amount : Z;
  Currency : string;
  PaymentType : string;
  Token : string;
  ReturnURI : string;
  Description : string;
  Metadata : GoMap;
  Card : GoMap;
  Bank : string;
  UserID : option N
}.
End PaymentRequest.

Module Transaction.
(** [RawPayload] is [json.Marshal(charge)], an opaque blob that is stored
    and never read back: it is kept as the snapshot it encodes. [DeletedAt]
    belongs to the persistence layer and is never set here. *)
Record t : Type := {
  ID : N;
  CreatedAt : Z;
  UpdatedAt : Z;
  DeletedAt : option Z;
  UserID : option N;
  ChargeID : string;
  AmountSatang : Z;
  Currency : string;
  Channel : string;
  Status : string;
  FailureCode : option string;
  FailureMessage : option string;
  RawPayload : Charge.t;
  Meta : GoMap
}.
End Transaction.

Module User.
(** Modelled from the spec: [models.User] is not among the sources; of the
    user subsystem the core touches the single balance field, addressed by
    the primary key. *)
Record t : Type := { ID : N; Balance : Q }.
End User.

(** ** Storage: the two tables behind [gorm.DB] *)

Record DB : Type := {
  transactions : list Transaction.t;
  users : list User.t;
  next_id : N
}.

Definition hasCharge (cid : string) (r : Transaction.t) : bool :=
  String.eqb (Transaction.ChargeID r) cid.

(** The [DO UPDATE SET] of the conflict clause: the ten assigned columns are
    taken from the proposed row, the others ([id], [created_at], [deleted_at],
    [charge_id]) stay. *)
Definition assignColumns (new old : Transaction.t) : Transaction.t :=
  {| Transaction.ID := Transaction.ID old;
     Transaction.CreatedAt := Transaction.CreatedAt old;
     Transaction.UpdatedAt := Transaction.UpdatedAt new;
     Transaction.DeletedAt := Transaction.DeletedAt old;
     Transaction.UserID := Transaction.UserID new;
     Transaction.ChargeID := Transaction.ChargeID old;
     Transaction.AmountSatang := Transaction.AmountSatang new;
     Transaction.Currency := Transaction.Currency new;
     Transaction.Channel := Transaction.Channel new;
     Transaction.Status := Transaction.Status new;
     Transaction.FailureCode := Transaction.FailureCode new;
     Transaction.FailureMessage := Transaction.FailureMessage new;
     Transaction.RawPayload := Transaction.RawPayload new;
     Transaction.Meta := Transaction.Meta new |}.

(** What [Create] fills in before the insert: the timestamps, and the
    surrogate key drawn from the table's counter. *)
Definition stamp (now : Z) (id : N) (t : Transaction.t) : Transaction.t :=
  {| Transaction.ID := id;
     Transaction.CreatedAt := now;
     Transaction.UpdatedAt := now;
     Transaction.DeletedAt := Transaction.DeletedAt t;
     Transaction.UserID := Transaction.UserID t;
     Transaction.ChargeID := Transaction.ChargeID t;
     Transaction.AmountSatang := Transaction.AmountSatang t;
     Transaction.Currency := Transaction.Currency t;
     Transaction.Channel := Transaction.Channel t;
     Transaction.Status := Transaction.Status t;
     Transaction.FailureCode := Transaction.FailureCode t;
     Transaction.FailureMessage := Transaction.FailureMessage t;
     Transaction.RawPayload := Transaction.RawPayload t;
     Transaction.Meta := Transaction.Meta t |}.

(** [INSERT ... ON CONFLICT (charge_id) DO UPDATE SET ...], one atomic
    statement: a row with the same charge id is rewritten in place, otherwise
    the row is appended. *)
Definition insertOnConflict (now : Z) (t : Transaction.t) (d : DB) : DB :=
  let cid := Transaction.ChargeID t in
  let row := stamp now (next_id d) t in
  if existsb (hasCharge cid) (transactions d) then
    {| transactions :=
         map (fun r => if hasCharge cid r then assignColumns row r else r)
             (transactions d);
       users := users d;
       next_id := next_id d |}
  else
    {| transactions := transactions d ++ [row];
       users := users d;
       next_id := N.succ (next_id d) |}.

(** [UPDATE users SET balance = balance + ? WHERE id = ?]; a statement that
    matches no row is not an error. *)
Definition addBalance (uid : N) (amount : Q) (d : DB) : DB :=
  {| transactions := transactions d;
     users :=
       map (fun u =>
              if N.eqb (User.ID u) uid
              then {| User.ID := User.ID u; User.Balance := User.Balance u + amount |}
              else u)
           (users d);
     next_id := next_id d |}.

(** ** Environment and state of one request *)

(** The remote gateway: what [Client.Do] answers to each operation. *)
Record Gateway : Type := {
  onRetrieveEvent : string -> result Event.t;
  onRetrieveCharge : string -> result Charge.t;
  onCreateToken : operations.CreateToken -> result Token.t;
  onCreateSource : operations.CreateSource -> result Source.t;
  onCreateCharge : operations.CreateCharge -> result Charge.t
}.

Record Env : Type := {
  gateway : Gateway;
  now : Z;
  (** the error of the conflict-resolving insert, if it fails *)
  createErr : option string;
  (** the error of the balance update, if it fails *)
  updateErr : option string
}.

Record World : Type := {
  db : DB;
  (** operations issued to the gateway, oldest first *)
  calls : list operations.Operation;
  (** lines written with [log.Printf], oldest first *)
  logs : list string
}.

(** Computations that thread the state. *)
Definition M (A : Type) : Type := World -> A * World.

Definition ret {A} (a : A) : M A := fun w => (a, w).
Definition bind {A B} (m : M A) (k : A -> M B) : M B :=
  fun w => let '(a, w') := m w in k a w'.

Declare Scope m_scope.
Delimit Scope m_scope with M.
Bind Scope m_scope with M.
Notation "x <- m ;; k" := (bind m (fun x => k))
  (at level 100, m at next level, k at level 200, right associativity) : m_scope.
Notation "m ;; k" := (bind m (fun _ => k))
  (at level 100, k at level 200, right associativity) : m_scope.
Local Open Scope m_scope.

Definition logPrintf (line : string) : M unit :=
  fun w => (tt, {| db := db w; calls := calls w; logs := logs w ++ [line] |}).

Definition issue (op : operations.Operation) : M unit :=
  fun w => (tt, {| db := db w; calls := calls w ++ [op]; logs := logs w |}).

Definition modifyDB (f : DB -> DB) : M unit :=
  fun w => (tt, {| db := f (db w); calls := calls w; logs := logs w |}).

(** HTTP responses. *)
Inductive Payload : Type :=
| NoBody
| ErrorJSON (msg : string)
| ChargeJSON (ch : Charge.t)
| Text (msg : string).

Record Response : Type := { StatusCode : Z; Body : Payload }.

Definition respond (code : Z) (b : Payload) : Response :=
  {| StatusCode := code; Body := b |}.

(** [Client.Do], one function per operation type: the operation is recorded,
    the gateway's answer returned. *)
Module Client.
Section WithEnv.
Variable env : Env.

Definition RetrieveEvent (id : string) : M (result Event.t) :=
  issue (operations.OpRetrieveEvent id) ;;
  ret (onRetrieveEvent (gateway env) id).

Definition RetrieveCharge (id : string) : M (result Charge.t) :=
  issue (operations.OpRetrieveCharge id) ;;
  ret (onRetrieveCharge (gateway env) id).

Definition CreateToken (op : operations.CreateToken) : M (result Token.t) :=
  issue (operations.OpCreateToken op) ;;
  ret (onCreateToken (gateway env) op).

Definition CreateSource (op : operations.CreateSource) : M (result Source.t) :=
  issue (operations.OpCreateSource op) ;;
  ret (onCreateSource (gateway env) op).

Definition CreateCharge (op : operations.CreateCharge) : M (result Charge.t) :=
  issue (operations.OpCreateCharge op) ;;
  ret (onCreateCharge (gateway env) op).
End WithEnv.
End Client.

(** ** Helpers of the payment handler *)

Definition extractUserIDFromCharge (charge : option Charge.t) (userID : option N)
  : option N :=
  match userID, charge with
  | Some _, _ => userID
  | None, None => userID
  | None, Some ch =>
      match Charge.Metadata ch with
      | None => userID
      | Some _ =>
          match mapGet (Charge.Metadata ch) "user_id" with
          | Some (VString vv) =>
              match strconv.ParseUint vv 32 with
              | Some n => Some n
              | None => userID
              end
          | Some (VFloat64 vv) => Some (uintOfFloat64 vv)
          | Some (VInt vv) => Some (uintOfInt vv)
          | _ => userID
          end
      end
  end.

Definition determineChannel (charge : option Charge.t) : string :=
  match charge with
  | None => "card"
  | Some ch =>
      match Charge.Source ch with
      | Some src => if String.eqb (Source.Type_ src) "" then "card" else Source.Type_ src
      | None => "card"
      end
  end.

(** The request as the handler sees it through [fiber.Ctx]: the outcome of
    [BodyParser], the [X-User-ID] header and the [user_id] query parameter. *)
Record Ctx : Type := {
  BodyParser : result PaymentRequest.t;
  HeaderXUserID : string;
  QueryUserID : string
}.

Definition getUserIDFromRequest (c : Ctx) (req : PaymentRequest.t) : option N :=
  match PaymentRequest.UserID req with
  | Some u => Some u
  | None =>
      match (if String.eqb (HeaderXUserID c) "" then None
             else strconv.ParseUint (HeaderXUserID c) 32) with
      | Some u => Some u
      | None =>
          if String.eqb (QueryUserID c) "" then None
          else strconv.ParseUint (QueryUserID c) 32
      end
  end.

(** The block at the head of each processor: the request's metadata, with
    the user id written under ["user_id"] when the request carries one (the
    map is made first if it is nil). In Go the write goes through to the
    request's own map when there is one; the request is a copy that is not
    read again. *)
Definition attachUserID (req : PaymentRequest.t) : GoMap :=
  match PaymentRequest.UserID req with
  | Some uid =>
      let metadata :=
        match PaymentRequest.Metadata req with
        | None => ∅
        | Some g => g
        end in
      Some (<["user_id" := VString (strconv.FormatUint uid)]> metadata)
  | None => PaymentRequest.Metadata req
  end.

(** The type switches of the tokenization fallback. *)
Definition cardInt (field : string) (v : Value) : result Z :=
  match v with
  | VFloat64 f => Ok (intOfFloat64 f)
  | VString s =>
      match strconv.Atoi s with
      | Some n => Ok n
      | None => Err ("invalid " ++ field ++ ": " ++ s)
      end
  | _ => Err ("unexpected type for " ++ field ++ ": " ++ typeName v)
  end.

Definition cardCode (v : Value) : result string :=
  match v with
  | VString s => Ok s
  | VFloat64 f => Ok (strconv.Itoa (intOfFloat64 f))
  | _ => Err ("unexpected type for security_code: " ++ typeName v)
  end.

(** [x, _ := m[k].(string)] *)
Definition asString (v : Value) : string :=
  match v with
  | VString s => s
  | _ => ""
  end.

(** ** handlers.PaymentHandler

    Log lines keep the message and the identifiers; the rendering of the
    remaining arguments ([amount=%d], [source=%v]) is left out. *)

Module PaymentHandler.
Section WithEnv.
Variable env : Env.

Definition createCharge (op : operations.CreateCharge) : M (result Charge.t) :=
  r <- Client.CreateCharge env op ;;
  match r with
  | Err err => ret (Err err)
  | Ok ch => ret (Ok ch)
  end.

Definition processCreditCard (req : PaymentRequest.t) : M (result Charge.t) :=
  let metadata := attachUserID req in
  if negb (String.eqb (PaymentRequest.Token req) "") then
    createCharge
      {| operations.Amount := PaymentRequest.Amount req;
         operations.Currency := PaymentRequest.Currency req;
         operations.Card := PaymentRequest.Token req;
         operations.Source := "";
         operations.ReturnURI := PaymentRequest.ReturnURI req;
         operations.Description := PaymentRequest.Description req;
         operations.Metadata := metadata |}
  else
    match PaymentRequest.Card req with
    | None =>
        ret (Err "missing token; either provide token or card for tokenization")
    | Some _ =>
        let card := PaymentRequest.Card req in
        let name := asString (mapIndex card "name") in
        let number := asString (mapIndex card "number") in
        match cardInt "expiration_month" (mapIndex card "expiration_month") with
        | Err e => ret (Err e)
        | Ok expMonth =>
        match cardInt "expiration_year" (mapIndex card "expiration_year") with
        | Err e => ret (Err e)
        | Ok expYear =>
        match cardCode (mapIndex card "security_code") with
        | Err e => ret (Err e)
        | Ok securityCode =>
            r <- Client.CreateToken env
                   {| operations.Name := name;
                      operations.Number := number;
                      operations.ExpirationMonth := expMonth;
                      operations.ExpirationYear := expYear;
                      operations.SecurityCode := securityCode |} ;;
            match r with
            | Err err => ret (Err ("failed to create token: " ++ err))
            | Ok token =>
                createCharge
                  {| operations.Amount := PaymentRequest.Amount req;
                     operations.Currency := PaymentRequest.Currency req;
                     operations.Card := Token.ID token;
                     operations.Source := "";
                     operations.ReturnURI := PaymentRequest.ReturnURI req;
                     operations.Description := PaymentRequest.Description req;
                     operations.Metadata := metadata |}
            end
        end end end
    end.

Definition processPromptPay (req : PaymentRequest.t) : M (result Charge.t) :=
  let metadata := attachUserID req in
  r <- Client.CreateSource env
         {| operations.src_Type := "promptpay";
            operations.src_Amount := PaymentRequest.Amount req;
            operations.src_Currency := PaymentRequest.Currency req |} ;;
  match r with
  | Err err => ret (Err ("failed to create promptpay source: " ++ err))
  | Ok src =>
      createCharge
        {| operations.Amount := PaymentRequest.Amount req;
           operations.Currency := PaymentRequest.Currency req;
           operations.Card := "";
           operations.Source := Source.ID src;
           operations.ReturnURI := "";
           operations.Description := PaymentRequest.Description req;
           operations.Metadata := metadata |}
  end.

(** The first message lists the bank codes between quotation marks in
    the source; they are written bare here. *)
Definition processInternetBanking (req : PaymentRequest.t) : M (result Charge.t) :=
  if String.eqb (PaymentRequest.Bank req) "" then
    ret (Err "bank is required for internet_banking (e.g. bay, bbl, scb)")
  else if String.eqb (PaymentRequest.ReturnURI req) "" then
    ret (Err "return_uri is required for internet_banking")
  else
    let metadata := attachUserID req in
    r <- Client.CreateSource env
           {| operations.src_Type := "internet_banking_" ++ PaymentRequest.Bank req;
              operations.src_Amount := PaymentRequest.Amount req;
              operations.src_Currency := PaymentRequest.Currency req |} ;;
    match r with
    | Err err => ret (Err ("failed to create internet banking source: " ++ err))
    | Ok src =>
        createCharge
          {| operations.Amount := PaymentRequest.Amount req;
             operations.Currency := PaymentRequest.Currency req;
             operations.Card := "";
             operations.Source := Source.ID src;
             operations.ReturnURI := PaymentRequest.ReturnURI req;
             operations.Description := PaymentRequest.Description req;
             operations.Metadata := metadata |}
    end.

(** The row proposed by an upsert, before [Create] stamps it. *)
Definition transactionOf (ch : Charge.t) (userID : option N) : Transaction.t :=
  {| Transaction.ID := 0%N;
     Transaction.CreatedAt := 0;
     Transaction.UpdatedAt := 0;
     Transaction.DeletedAt := None;
     Transaction.UserID := userID;
     Transaction.ChargeID := Charge.ID ch;
     Transaction.AmountSatang := Charge.Amount ch;
     Transaction.Currency := Charge.Currency ch;
     Transaction.Channel := determineChannel (Some ch);
     Transaction.Status := Charge.Status ch;
     Transaction.FailureCode := Charge.FailureCode ch;
     Transaction.FailureMessage := Charge.FailureMessage ch;
     Transaction.RawPayload := ch;
     Transaction.Meta := Charge.Metadata ch |}.

Definition upsertTransactionFromCharge (charge : option Charge.t)
    (userID : option N) : M (option string) :=
  match charge with
  | None => ret (Some "nil charge")
  | Some ch =>
      let userID := extractUserIDFromCharge charge userID in
      let transaction := transactionOf ch userID in
      match createErr env with
      | Some err => ret (Some err)
      | None =>
          modifyDB (insertOnConflict (now env) transaction) ;;
          match String.eqb (Charge.Status ch) "successful", userID with
          | true, Some uid =>
              let amountTHB := (inject_Z (Charge.Amount ch) / 100)%Q in
              match updateErr env with
              | Some err =>
                  logPrintf ("Failed to update user balance: " ++ err)
              | None => modifyDB (addBalance uid amountTHB)
              end
          | _, _ => ret tt
          end ;;
          ret None
      end
  end.

(** The [switch req.PaymentType]: the processor of a supported method,
    [None] for the [default] case. *)
Definition dispatch (req : PaymentRequest.t) : option (M (result Charge.t)) :=
  if String.eqb (PaymentRequest.PaymentType req) "credit_card" then
    Some (processCreditCard req)
  else if String.eqb (PaymentRequest.PaymentType req) "promptpay" then
    Some (processPromptPay req)
  else if String.eqb (PaymentRequest.PaymentType req) "internet_banking" then
    Some (processInternetBanking req)
  else None.

Definition CreateCharge (c : Ctx) : M Response :=
  match BodyParser c with
  | Err err => ret (respond 400 (ErrorJSON ("Invalid request: " ++ err)))
  | Ok req =>
      if (PaymentRequest.Amount req <=? 0)
         || String.eqb (PaymentRequest.Currency req) "" then
        ret (respond 400 (ErrorJSON "amount and currency are required"))
      else
        let userID := getUserIDFromRequest c req in
        match dispatch req with
        | None =>
            ret (respond 400
                   (ErrorJSON ("unsupported paymentType: "
                               ++ PaymentRequest.PaymentType req)))
        | Some process =>
            r <- process ;;
            match r with
            | Err err => ret (respond 500 (ErrorJSON err))
            | Ok charge =>
                e <- upsertTransactionFromCharge (Some charge) userID ;;
                match e with
                | Some err => logPrintf ("Failed to save transaction: " ++ err)
                | None => ret tt
                end ;;
                ret (respond 200 (ChargeJSON charge))
            end
        end
  end.

(** Retrieve the charge to verify its status independently, then upsert. *)
Definition reconcile (chargeID : string) : M Response :=
  r <- Client.RetrieveCharge env chargeID ;;
  match r with
  | Err err =>
      logPrintf ("webhook: retrieve charge failed charge=" ++ chargeID
                 ++ " err=" ++ err) ;;
      ret (respond 500 NoBody)
  | Ok ch =>
      e <- upsertTransactionFromCharge (Some ch) None ;;
      match e with
      | Some err =>
          logPrintf ("webhook: upsert failed charge=" ++ Charge.ID ch
                     ++ " err=" ++ err) ;;
          ret (respond 500 NoBody)
      | None =>
          logPrintf ("webhook: processed charge=" ++ Charge.ID ch
                     ++ " status=" ++ Charge.Status ch) ;;
          ret (respond 200 NoBody)
      end
  end.

(** The webhook that accepts an event payload or a charge payload. *)
Definition HandleWebhook (body : option Value) : M Response :=
  match unmarshalIDObject body with
  | Err _ =>
      ret (respond 400 (ErrorJSON "invalid payload: missing object or id"))
  | Ok envelope =>
      if String.eqb (IDObject_ID envelope) "" then
        ret (respond 400 (ErrorJSON "invalid payload: missing object or id"))
      else if String.eqb (IDObject_Object envelope) "event" then
        r <- Client.RetrieveEvent env (IDObject_ID envelope) ;;
        match r with
        | Err err =>
            logPrintf ("webhook: verify event failed id=" ++ IDObject_ID envelope
                       ++ " err=" ++ err) ;;
            ret (respond 500 NoBody)
        | Ok ev =>
            match json.Marshal (Event.Data ev) with
            | Err err =>
                logPrintf ("webhook: marshal ev.Data failed id="
                           ++ IDObject_ID envelope ++ " err=" ++ err) ;;
                ret (respond 500 NoBody)
            | Ok raw =>
                match unmarshalIDObject (Some raw) with
                | Err _ => ret (respond 200 NoBody)
                | Ok embedded =>
                    if negb (String.eqb (IDObject_Object embedded) "charge")
                       || String.eqb (IDObject_ID embedded) "" then
                      ret (respond 200 NoBody)
                    else reconcile (IDObject_ID embedded)
                end
            end
        end
      else if String.eqb (IDObject_Object envelope) "charge" then
        reconcile (IDObject_ID envelope)
      else ret (respond 200 NoBody)
  end.

End WithEnv.
End PaymentHandler.

(** ** handlers.WebhookHandler (net/http)

    The handler holds the gateway client and a [dbHandler], an interface with
    the single method [UpsertTransactionFromCharge]. A handler that returns
    without writing a header answers 200. *)

Record Request : Type := {
  Method : string;
  (** [io.ReadAll(r.Body)], then the bytes as JSON *)
  ReadAll : result (option Value)
}.

Module WebhookHandler.

(** The event keys of the [switch ev.Key]. *)
Definition chargeEventKeys : list string :=
  ["charge.complete"; "charge.capture"; "charge.failed"; "charge.expired";
   "charge.reversed"].

Definition isChargeEventKey (key : string) : bool :=
  existsb (String.eqb key) chargeEventKeys.

Section WithEnv.
Variable env : Env.
Variable dbHandler : Charge.t -> M (option string).

Definition HandleWebhook (r : Request) : M Response :=
  if negb (String.eqb (Method r) "POST") then
    ret (respond 405 (Text "method not allowed"))
  else
    match ReadAll r with
    | Err _ => ret (respond 400 (Text "failed to read body"))
    | Ok body =>
        match unmarshalIDOnly body with
        | Err _ => ret (respond 400 (Text "invalid payload: missing event id"))
        | Ok envelope =>
            if String.eqb (IDOnly_ID envelope) "" then
              ret (respond 400 (Text "invalid payload: missing event id"))
            else
              e <- Client.RetrieveEvent env (IDOnly_ID envelope) ;;
              match e with
              | Err err =>
                  logPrintf ("Webhook: event verification failed for id="
                             ++ IDOnly_ID envelope ++ ": " ++ err) ;;
                  ret (respond 400 (Text "event verification failed"))
              | Ok ev =>
                  if isChargeEventKey (Event.Key ev) then
                    match json.Marshal (Event.Data ev) with
                    | Err err =>
                        logPrintf ("Webhook: marshal ev.Data failed: " ++ err) ;;
                        ret (respond 200 NoBody)
                    | Ok raw =>
                        match unmarshalIDObject (Some raw) with
                        | Err _ =>
                            logPrintf ("Webhook: unexpected event data for key="
                                       ++ Event.Key ev) ;;
                            ret (respond 200 NoBody)
                        | Ok data =>
                            if negb (String.eqb (IDObject_Object data) "charge")
                               || String.eqb (IDObject_ID data) "" then
                              logPrintf ("Webhook: unexpected event data for key="
                                         ++ Event.Key ev) ;;
                              ret (respond 200 NoBody)
                            else
                              c <- Client.RetrieveCharge env (IDObject_ID data) ;;
                              match c with
                              | Err err =>
                                  logPrintf ("Webhook: retrieve charge "
                                             ++ IDObject_ID data ++ " failed: "
                                             ++ err) ;;
                                  ret (respond 200 NoBody)
                              | Ok ch =>
                                  u <- dbHandler ch ;;
                                  match u with
                                  | Some err =>
                                      logPrintf ("Failed to upsert transaction: "
                                                 ++ err)
                                  | None => ret tt
                                  end ;;
                                  logPrintf ("Webhook: charge " ++ Charge.ID ch
                                             ++ " status=" ++ Charge.Status ch) ;;
                                  ret (respond 200 NoBody)
                              end
                        end
                    end
                  else ret (respond 200 NoBody)
              end
        end
    end.

End WithEnv.
End WebhookHandler.

(** Modelled from the spec: no implementation of the [dbHandler] interface
    is among the sources. The verified charge is handed to the ledger's
    upsert, with no user id known beforehand. *)
Definition paymentUpserter (env : Env) (ch : Charge.t) : M (option string) :=
  PaymentHandler.upsertTransactionFromCharge env (Some ch) None.

(** ** package main: the standalone [/charge] server

    Its [PaymentRequest] has no user id; the processors are the ones above
    without the metadata block, and nothing is persisted. *)

Module main.

Record PaymentRequest : Type := {
  Amount : Z;
  Currency : string;
  PaymentType : string;
  Token : string;
  ReturnURI : string;
  Description : string;
  Metadata : GoMap;
  Card : GoMap;
  Bank : string
}.

Section WithEnv.
Variable env : Env.

Definition createCharge (op : operations.CreateCharge) : M (result Charge.t) :=
  r <- Client.CreateCharge env op ;;
  match r with
  | Err err => ret (Err err)
  | Ok ch => ret (Ok ch)
  end.

Definition chargeOp (req : PaymentRequest) (card source returnURI : string)
  : operations.CreateCharge :=
  {| operations.Amount := Amount req;
     operations.Currency := Currency req;
     operations.Card := card;
     operations.Source := source;
     operations.ReturnURI := returnURI;
     operations.Description := Description req;
     operations.Metadata := Metadata req |}.

Definition processCreditCard (req : PaymentRequest) : M (result Charge.t) :=
  if negb (String.eqb (Token req) "") then
    createCharge (chargeOp req (Token req) "" (ReturnURI req))
  else
    match Card req with
    | None =>
        ret (Err "missing token; either provide token or card for test-only tokenization")
    | Some _ =>
        let name := asString (mapIndex (Card req) "name") in
        let number := asString (mapIndex (Card req) "number") in
        match cardInt "expiration_month" (mapIndex (Card req) "expiration_month") with
        | Err e => ret (Err e)
        | Ok expMonth =>
        match cardInt "expiration_year" (mapIndex (Card req) "expiration_year") with
        | Err e => ret (Err e)
        | Ok expYear =>
        match cardCode (mapIndex (Card req) "security_code") with
        | Err e => ret (Err e)
        | Ok securityCode =>
            r <- Client.CreateToken env
                   {| operations.Name := name;
                      operations.Number := number;
                      operations.ExpirationMonth := expMonth;
                      operations.ExpirationYear := expYear;
                      operations.SecurityCode := securityCode |} ;;
            match r with
            | Err err => ret (Err ("failed to create token: " ++ err))
            | Ok token =>
                createCharge (chargeOp req (Token.ID token) "" (ReturnURI req))
            end
        end end end
    end.

Definition processPromptPay (req : PaymentRequest) : M (result Charge.t) :=
  r <- Client.CreateSource env
         {| operations.src_Type := "promptpay";
            operations.src_Amount := Amount req;
            operations.src_Currency := Currency req |} ;;
  match r with
  | Err err => ret (Err ("failed to create promptpay source: " ++ err))
  | Ok src => createCharge (chargeOp req "" (Source.ID src) "")
  end.

Definition processInternetBanking (req : PaymentRequest) : M (result Charge.t) :=
  if String.eqb (Bank req) "" then
    ret (Err "bank is required for internet_banking (e.g. bay, bbl, scb)")
  else if String.eqb (ReturnURI req) "" then
    ret (Err "return_uri is required for internet_banking")
  else
    r <- Client.CreateSource env
           {| operations.src_Type := "internet_banking_" ++ Bank req;
              operations.src_Amount := Amount req;
              operations.src_Currency := Currency req |} ;;
    match r with
    | Err err => ret (Err ("failed to create internet banking source: " ++ err))
    | Ok src => createCharge (chargeOp req "" (Source.ID src) (ReturnURI req))
    end.

Definition dispatch (req : PaymentRequest) : option (M (result Charge.t)) :=
  if String.eqb (PaymentType req) "credit_card" then Some (processCreditCard req)
  else if String.eqb (PaymentType req) "promptpay" then Some (processPromptPay req)
  else if String.eqb (PaymentType req) "internet_banking" then
    Some (processInternetBanking req)
  else None.

(** The handler registered on [/charge]; [decoded] is the outcome of
    [json.NewDecoder(r.Body).Decode(&req)]. *)
Definition chargeHandler (method : string) (decoded : result PaymentRequest)
  : M Response :=
  if String.eqb method "OPTIONS" then ret (respond 200 NoBody)
  else if negb (String.eqb method "POST") then
    ret (respond 405 (Text "Method not allowed"))
  else
    match decoded with
    | Err err => ret (respond 400 (ErrorJSON ("Invalid request: " ++ err)))
    | Ok req =>
        if (Amount req <=? 0) || String.eqb (Currency req) "" then
          ret (respond 400 (ErrorJSON "amount and currency are required"))
        else
          match dispatch req with
          | None =>
              ret (respond 400
                     (ErrorJSON ("unsupported paymentType: " ++ PaymentType req)))
          | Some process =>
              r <- process ;;
              match r with
              | Err perr => ret (respond 500 (ErrorJSON perr))
              | Ok charge => ret (respond 200 (ChargeJSON charge))
              end
          end
    end.

End WithEnv.
End main.

(** ** Vocabulary of the statements *)

Definition chargeIDs (d : DB) : list string :=
  map Transaction.ChargeID (transactions d).

(** The ledger rows keyed by a charge id. *)
Definition rowsOf (cid : string) (d : DB) : list Transaction.t :=
  List.filter (hasCharge cid) (transactions d).

(** The updatable fields of a row equal a charge snapshot. *)
Definition mirrors (ch : Charge.t) (r : Transaction.t) : Prop :=
  Transaction.Status r = Charge.Status ch /\
  Transaction.FailureCode r = Charge.FailureCode ch /\
  Transaction.FailureMessage r = Charge.FailureMessage ch /\
  Transaction.AmountSatang r = Charge.Amount ch /\
  Transaction.Currency r = Charge.Currency ch /\
  Transaction.Channel r = determineChannel (Some ch) /\
  Transaction.RawPayload r = ch /\
  Transaction.Meta r = Charge.Metadata ch.

(** Exactly one ledger row is keyed by the charge's id, and it mirrors the
    snapshot. *)
Definition oneRow (ch : Charge.t) (w : World) : Prop :=
  exists r, rowsOf (Charge.ID ch) (db w) = [r] /\ mirrors ch r.

(** One observation of a charge: the environment it is made in, the snapshot
    and the user id known beforehand. *)
Record Observation : Type := {
  obsEnv : Env;
  obsCharge : Charge.t;
  obsUser : option N
}.

Definition observe (o : Observation) (w : World) : World :=
  snd (PaymentHandler.upsertTransactionFromCharge
         (obsEnv o) (Some (obsCharge o)) (obsUser o) w).

(** A sequence of upserts, oldest first. *)
Definition upsertAll (os : list Observation) (w : World) : World :=
  fold_left (fun w o => observe o w) os w.

(** The same snapshot, once per environment. *)
Definition repeated (ch : Charge.t) (uid : option N) (envs : list Env)
  : list Observation :=
  map (fun e => {| obsEnv := e; obsCharge := ch; obsUser := uid |}) envs.

Definition balanceOf (uid : N) (d : DB) : option Q :=
  option_map User.Balance (find (fun u => N.eqb (User.ID u) uid) (users d)).

(** The operations a computation adds to the trace. *)
Definition issued {A} (m : M A) (w : World) : list operations.Operation :=
  skipn (length (calls w)) (calls (snd (m w))).

(** The charge operation carries the user id under the fixed key. *)
Definition carriesUserID (uid : N) (op : operations.CreateCharge) : Prop :=
  mapGet (operations.Metadata op) "user_id" = Some (VString (strconv.FormatUint uid)).

Definition isRetrieveCharge (op : operations.Operation) : bool :=
  match op with
  | operations.OpRetrieveCharge _ => true
  | _ => false
  end.

(** What a processor may leave in the trace, and what it returns with it:
    nothing or operations other than a charge (then an error), or a charge
    operation that carries the user id, last, whose answer is the result. *)
Definition attaches (env : Env) (uid : N) (process : M (result Charge.t))
    (w : World) : Prop :=
  (exists msg, fst (process w) = Err msg /\
     forall op, ~ In (operations.OpCreateCharge op) (issued process w)) \/
  (exists pre op,
     issued process w = (pre ++ [operations.OpCreateCharge op])%list /\
     (forall op', ~ In (operations.OpCreateCharge op') pre) /\
     carriesUserID uid op /\
     fst (process w) = onCreateCharge (gateway env) op).

(** The check on the data of a verified event: it does not decode, or its
    object is not a charge, or it has no id. *)
Definition notChargeShaped (data : Value) : bool :=
  match unmarshalIDObject (Some data) with
  | Err _ => true
  | Ok d => negb (String.eqb (IDObject_Object d) "charge") || String.eqb (IDObject_ID d) ""
  end.

(** The row the ledger holds for a charge that the gateway returned: the
    write of the row built from that charge and from nothing else. *)
Definition writtenFrom (env : Env) (ch : Charge.t) (before after : DB) : Prop :=
  transactions after
  = transactions
      (insertOnConflict (now env)
         (PaymentHandler.transactionOf ch (extractUserIDFromCharge (Some ch) None))
         before).

(** A webhook that takes event-shaped envelopes ignores every verified event
    whose key is outside the allow-list or whose data is not charge-shaped:
    it answers 200, writes nothing and retrieves no charge. *)
Definition ignoresOtherEvents (handle : Env -> option Value -> M Response) : Prop :=
  forall (env : Env) (body : option Value) (id : string) (ev : Event.t) (w : World),
    unmarshalIDObject body = Ok {| IDObject_ID := id; IDObject_Object := "event" |} ->
    id <> "" ->
    onRetrieveEvent (gateway env) id = Ok ev ->
    WebhookHandler.isChargeEventKey (Event.Key ev) = false
    \/ notChargeShaped (Event.Data ev) = true ->
    fst (handle env body w) = respond 200 NoBody /\
    db (snd (handle env body w)) = db w /\
    existsb isRetrieveCharge (issued (handle env body) w) = false.

(** The gateway refuses the operation. *)
Definition refused (env : Env) (op : operations.Operation) : bool :=
  let failed {A} (r : result A) := match r with Ok _ => false | Err _ => true end in
  match op with
  | operations.OpRetrieveEvent id => failed (onRetrieveEvent (gateway env) id)
  | operations.OpRetrieveCharge id => failed (onRetrieveCharge (gateway env) id)
  | operations.OpCreateToken op => failed (onCreateToken (gateway env) op)
  | operations.OpCreateSource op => failed (onCreateSource (gateway env) op)
  | operations.OpCreateCharge op => failed (onCreateCharge (gateway env) op)
  end.

(** The members of a body that the envelope structs can read: those whose
    key is [id] or [object] up to case. *)
Definition isIDKey (kv : string * Value) : bool := json.equalFold (fst kv) "id".
Definition isObjectKey (kv : string * Value) : bool := json.equalFold (fst kv) "object".
Definition idFields (fields : list (string * Value)) : list (string * Value) :=
  List.filter isIDKey fields.
Definition objectFields (fields : list (string * Value)) : list (string * Value) :=
  List.filter isObjectKey fields.

(** ** Sample data for the concrete runs *)

Module Sample.

Definition user1 : User.t := {| User.ID := 1%N; User.Balance := 0%Q |}.

Definition chrg1 (status : string) : Charge.t :=
  {| Charge.ID := "chrg_1";
     Charge.Amount := 5000;
     Charge.Currency := "THB";
     Charge.Status := status;
     Charge.FailureCode := None;
     Charge.FailureMessage := None;
     Charge.Source := Some {| Source.ID := "src_1"; Source.Type_ := "promptpay" |};
     Charge.Metadata := Some {[ "user_id" := VString "1" ]} |}.

Definition chargeData : Value :=
  VObject [("object", VString "charge"); ("id", VString "chrg_1")].

(** A gateway that knows the event [evt_1] (under the given key) about the
    charge [chrg_1] (in the given state, or failing to be retrieved), and
    creates tokens, sources and pending charges. *)
Definition gw (key : string) (charge : result Charge.t) : Gateway :=
  {| onRetrieveEvent := fun id =>
       if String.eqb id "evt_1"
       then Ok {| Event.Key := key; Event.Data := chargeData |}
       else Err "event not found";
     onRetrieveCharge := fun id =>
       if String.eqb id "chrg_1" then charge else Err "charge not found";
     onCreateToken := fun _ => Ok {| Token.ID := "tokn_1" |};
     onCreateSource := fun op =>
       Ok {| Source.ID := "src_1"; Source.Type_ := operations.src_Type op |};
     onCreateCharge := fun op =>
       Ok {| Charge.ID := "chrg_1";
             Charge.Amount := operations.Amount op;
             Charge.Currency := operations.Currency op;
             Charge.Status := "pending";
             Charge.FailureCode := None;
             Charge.FailureMessage := None;
             Charge.Source := None;
             Charge.Metadata := operations.Metadata op |} |}.

Definition env (g : Gateway) (ce ue : option string) : Env :=
  {| gateway := g; now := 1000; createErr := ce; updateErr := ue |}.

(** The settled charge, every storage write succeeding. *)
Definition settled : Env := env (gw "charge.complete" (Ok (chrg1 "successful"))) None None.

(** An empty ledger and one user with a zero balance. *)
Definition w0 : World :=
  {| db := {| transactions := []; users := [user1]; next_id := 1%N |};
     calls := [];
     logs := [] |}.

(** The ledger after [chrg_1] was first seen pending. *)
Definition wPending : World :=
  observe {| obsEnv := settled; obsCharge := chrg1 "pending"; obsUser := None |} w0.

Definition eventBody (extra : list (string * Value)) : option Value :=
  Some (VObject ([("id", VString "evt_1"); ("object", VString "event")] ++ extra)).

Definition chargeBody : option Value :=
  Some (VObject [("id", VString "chrg_1"); ("object", VString "charge")]).

Definition post (body : option Value) : Request :=
  {| Method := "POST"; ReadAll := Ok body |}.

Definition request (type bank returnURI : string) (uid : option N)
  : PaymentRequest.t :=
  {| PaymentRequest.Amount := 10000;
     PaymentRequest.Currency := "THB";
     PaymentRequest.PaymentType := type;
     PaymentRequest.Token := "tokn_test";
     PaymentRequest.ReturnURI := returnURI;
     PaymentRequest.Description := "";
     PaymentRequest.Metadata := None;
     PaymentRequest.Card := None;
     PaymentRequest.Bank := bank;
     PaymentRequest.UserID := uid |}.

Definition ctx (req : PaymentRequest.t) : Ctx :=
  {| BodyParser := Ok req; HeaderXUserID := ""; QueryUserID := "" |}.

Definition standalone (type bank returnURI : string) : main.PaymentRequest :=
  {| main.Amount := 10000;
     main.Currency := "THB";
     main.PaymentType := type;
     main.Token := "tokn_test";
     main.ReturnURI := returnURI;
     main.Description := "";
     main.Metadata := None;
     main.Card := None;
     main.Bank := bank |}.

End Sample.

(** * The rest of the handlers *)

(** ** The webhook of the single-file payment handler

    The file that holds [CreateCharge], the processors and the upsert has a
    [HandleWebhook] of its own: an envelope with an id only, the event-key
    switch, and 200 for whatever happens after the event is verified. [body]
    is what [BodyParser] reads; [None] when it cannot read the body. *)

Module SingleFile.
Section WithEnv.
Variable env : Env.

Definition HandleWebhook (body : option Value) : M Response :=
  match unmarshalIDOnly body with
  | Err _ => ret (respond 400 (ErrorJSON "invalid payload: missing event id"))
  | Ok envelope =>
      if String.eqb (IDOnly_ID envelope) "" then
        ret (respond 400 (ErrorJSON "invalid payload: missing event id"))
      else
        e <- Client.RetrieveEvent env (IDOnly_ID envelope) ;;
        match e with
        | Err err =>
            logPrintf ("Webhook: event verification failed for id="
                       ++ IDOnly_ID envelope ++ ": " ++ err) ;;
            ret (respond 400 (ErrorJSON "event verification failed"))
        | Ok ev =>
            if WebhookHandler.isChargeEventKey (Event.Key ev) then
              match json.Marshal (Event.Data ev) with
              | Err err =>
                  logPrintf ("Webhook: marshal ev.Data failed: " ++ err) ;;
                  ret (respond 200 NoBody)
              | Ok raw =>
                  match unmarshalIDObject (Some raw) with
                  | Err _ =>
                      logPrintf ("Webhook: unexpected event data for key="
                                 ++ Event.Key ev) ;;
                      ret (respond 200 NoBody)
                  | Ok data =>
                      if negb (String.eqb (IDObject_Object data) "charge")
                         || String.eqb (IDObject_ID data) "" then
                        logPrintf ("Webhook: unexpected event data for key="
                                   ++ Event.Key ev) ;;
                        ret (respond 200 NoBody)
                      else
                        c <- Client.RetrieveCharge env (IDObject_ID data) ;;
                        match c with
                        | Err err =>
                            logPrintf ("Webhook: retrieve charge " ++ IDObject_ID data
                                       ++ " failed: " ++ err) ;;
                            ret (respond 200 NoBody)
                        | Ok ch =>
                            u <- PaymentHandler.upsertTransactionFromCharge env
                                   (Some ch) None ;;
                            match u with
                            | Some err =>
                                logPrintf ("Webhook: failed to upsert transaction: "
                                           ++ err)
                            | None => ret tt
                            end ;;
                            logPrintf ("Webhook: processed charge " ++ Charge.ID ch
                                       ++ " status=" ++ Charge.Status ch) ;;
                            ret (respond 200 NoBody)
                        end
                  end
              end
            else ret (respond 200 NoBody)
        end
  end.

End WithEnv.
End SingleFile.

(** ** handlers.WebhookHandler (fiber)

    The handler with the [Upserter] interface: no switch on the event key,
    and 500 when the event data cannot be marshalled, the charge cannot be
    retrieved or the upsert fails. *)

Module WebhookHandlerFiber.
Section WithEnv.
Variable env : Env.
Variable Upserter : Charge.t -> M (option string).

Definition HandleWebhook (method : string) (body : option Value) : M Response :=
  if negb (String.eqb method "POST") then
    ret (respond 405 (ErrorJSON "method not allowed"))
  else
    match unmarshalIDOnly body with
    | Err _ => ret (respond 400 (ErrorJSON "invalid payload: missing event id"))
    | Ok envelope =>
        if String.eqb (IDOnly_ID envelope) "" then
          ret (respond 400 (ErrorJSON "invalid payload: missing event id"))
        else
          e <- Client.RetrieveEvent env (IDOnly_ID envelope) ;;
          match e with
          | Err err =>
              logPrintf ("webhook verify failed id=" ++ IDOnly_ID envelope
                         ++ " err=" ++ err) ;;
              ret (respond 400 (ErrorJSON "event verification failed"))
          | Ok ev =>
              match json.Marshal (Event.Data ev) with
              | Err err =>
                  logPrintf ("webhook marshal ev.Data failed id="
                             ++ IDOnly_ID envelope ++ " err=" ++ err) ;;
                  ret (respond 500 NoBody)
              | Ok raw =>
                  match unmarshalIDObject (Some raw) with
                  | Err _ => ret (respond 200 NoBody)
                  | Ok data =>
                      if negb (String.eqb (IDObject_Object data) "charge")
                         || String.eqb (IDObject_ID data) "" then
                        ret (respond 200 NoBody)
                      else
                        c <- Client.RetrieveCharge env (IDObject_ID data) ;;
                        match c with
                        | Err err =>
                            logPrintf ("webhook retrieve charge failed charge="
                                       ++ IDObject_ID data ++ " err=" ++ err) ;;
                            ret (respond 500 NoBody)
                        | Ok ch =>
                            u <- Upserter ch ;;
                            match u with
                            | Some err =>
                                logPrintf ("webhook upsert failed charge="
                                           ++ Charge.ID ch ++ " err=" ++ err) ;;
                                ret (respond 500 NoBody)
                            | None =>
                                logPrintf ("webhook processed event="
                                           ++ IDOnly_ID envelope ++ " key="
                                           ++ Event.Key ev ++ " charge="
                                           ++ Charge.ID ch ++ " status="
                                           ++ Charge.Status ch) ;;
                                ret (respond 200 NoBody)
                            end
                        end
                  end
              end
          end
    end.

End WithEnv.
End WebhookHandlerFiber.

(** ** The ledger queries: [ListTransactions] and [GetTransaction]

    Reads do not change the database, so the two handlers are functions of
    it. What the storage layer decides is in [Storage]: whether a statement
    fails, and how it reads the text parameter that [user_id = ?] compares
    with an integer column. Rows with [deleted_at] set are invisible to every
    read (the model declares [gorm.DeletedAt]). The [User] that [Preload]
    attaches is not serialised ([json:"-"]) and is left out. *)

Record Storage : Type := {
  asInteger : string -> result Z;
  countErr : option string;
  findErr : option string;
  firstByIDErr : option string;
  firstByChargeErr : option string
}.

Inductive QueryPayload : Type :=
| QError (msg : string)
| QTransaction (tx : Transaction.t)
| QPage (rows : list Transaction.t) (total limit offset : Z).

Record QueryResponse : Type := { QStatus : Z; QBody : QueryPayload }.

Module PaymentHandlerDB.

(** The query string of [ListTransactions]; an absent parameter reads as
    the empty string. *)
Record ListQuery : Type := {
  user_id : string;
  status : string;
  channel : string;
  limit : string;
  offset : string
}.

(** [limit, offset := 50, 0], each replaced when its parameter parses to an
    acceptable number. *)
Definition parseLimitOffset (limitStr offsetStr : string) : Z * Z :=
  let limit :=
    if String.eqb limitStr "" then 50
    else match strconv.Atoi limitStr with
         | Some l => if 0 <? l then l else 50
         | None => 50
         end in
  let offset :=
    if String.eqb offsetStr "" then 0
    else match strconv.Atoi offsetStr with
         | Some o => if 0 <=? o then o else 0
         | None => 0
         end in
  (limit, offset).

Definition live (r : Transaction.t) : bool :=
  match Transaction.DeletedAt r with
  | None => true
  | Some _ => false
  end.

(** The [Where] clauses, each added when its parameter is not empty. *)
Definition selects (user : option Z) (q : ListQuery) (r : Transaction.t) : bool :=
  live r
  && match user with
     | None => true
     | Some z =>
         match Transaction.UserID r with
         | Some u => Z.eqb (Z.of_N u) z
         | None => false
         end
     end
  && (String.eqb (status q) "" || String.eqb (Transaction.Status r) (status q))
  && (String.eqb (channel q) "" || String.eqb (Transaction.Channel r) (channel q)).

(** [ORDER BY created_at DESC]; rows of equal [created_at] come in an order
    the storage layer chooses, here the order of the table. *)
Fixpoint insertNewest (r : Transaction.t) (l : list Transaction.t)
  : list Transaction.t :=
  match l with
  | [] => [r]
  | x :: l' =>
      if Transaction.CreatedAt x <=? Transaction.CreatedAt r
      then r :: x :: l'
      else x :: insertNewest r l'
  end.

Definition newestFirst (l : list Transaction.t) : list Transaction.t :=
  fold_right insertNewest [] l.

(** The row of least primary key, as [First] orders. *)
Definition firstByID (rows : list Transaction.t) : option Transaction.t :=
  fold_left
    (fun acc r =>
       match acc with
       | None => Some r
       | Some a => if (Transaction.ID r <? Transaction.ID a)%N then Some r else Some a
       end)
    rows None.

Section WithStorage.
Variable st : Storage.

Definition ListTransactions (q : ListQuery) (d : DB) : QueryResponse :=
  let '(lim, off) := parseLimitOffset (limit q) (offset q) in
  let user :=
    if String.eqb (user_id q) "" then Ok None
    else match asInteger st (user_id q) with
         | Ok z => Ok (Some z)
         | Err e => Err e
         end in
  let counted :=
    match countErr st, user with
    | Some e, _ => Err e
    | None, Err e => Err e
    | None, Ok u => Ok u
    end in
  match counted with
  | Err e =>
      {| QStatus := 500; QBody := QError ("Failed to count transactions: " ++ e) |}
  | Ok u =>
      let matching := List.filter (selects u q) (transactions d) in
      let totalCount := Z.of_nat (length matching) in
      match findErr st with
      | Some e =>
          {| QStatus := 500;
             QBody := QError ("Failed to retrieve transactions: " ++ e) |}
      | None =>
          let page :=
            firstn (Z.to_nat lim) (skipn (Z.to_nat off) (newestFirst matching)) in
          {| QStatus := 200; QBody := QPage page totalCount lim off |}
      end
  end.

Definition GetTransaction (id : string) (d : DB) : QueryResponse :=
  if String.eqb id "" then
    {| QStatus := 400; QBody := QError "id is required" |}
  else
    let byCharge :=
      match firstByChargeErr st with
      | Some e =>
          {| QStatus := 500;
             QBody := QError ("Failed to retrieve transaction: " ++ e) |}
      | None =>
          match firstByID (List.filter (fun r => live r && hasCharge id r)
                             (transactions d)) with
          | Some tx => {| QStatus := 200; QBody := QTransaction tx |}
          | None => {| QStatus := 404; QBody := QError "Transaction not found" |}
          end
      end in
    match strconv.ParseUint id 64 with
    | Some n =>
        match firstByIDErr st with
        | Some e =>
            {| QStatus := 500;
               QBody := QError ("Failed to retrieve transaction: " ++ e) |}
        | None =>
            match firstByID (List.filter
                               (fun r => live r && N.eqb (Transaction.ID r) n)
                               (transactions d)) with
            | Some tx => {| QStatus := 200; QBody := QTransaction tx |}
            | None => byCharge
            end
        end
    | None => byCharge
    end.

End WithStorage.
End PaymentHandlerDB.

(** ** Vocabulary of the further statements *)

(** The state after the operations [ops] were sent to the gateway and
    nothing else happened. *)
Definition addCalls (w : World) (ops : list operations.Operation) : World :=
  {| db := db w; calls := (calls w ++ ops)%list; logs := logs w |}.

(** The source a promptpay request asks for. *)
Definition promptPaySource (req : PaymentRequest.t) : operations.CreateSource :=
  {| operations.src_Type := "promptpay";
     operations.src_Amount := PaymentRequest.Amount req;
     operations.src_Currency := PaymentRequest.Currency req |}.

(** The source an internet_banking request asks for. *)
Definition bankingSource (req : PaymentRequest.t) : operations.CreateSource :=
  {| operations.src_Type := "internet_banking_" ++ PaymentRequest.Bank req;
     operations.src_Amount := PaymentRequest.Amount req;
     operations.src_Currency := PaymentRequest.Currency req |}.

(** The charge operation of a request, from a card token or a source id. *)
Definition chargeFrom (req : PaymentRequest.t) (card source returnURI : string)
  : operations.CreateCharge :=
  {| operations.Amount := PaymentRequest.Amount req;
     operations.Currency := PaymentRequest.Currency req;
     operations.Card := card;
     operations.Source := source;
     operations.ReturnURI := returnURI;
     operations.Description := PaymentRequest.Description req;
     operations.Metadata := attachUserID req |}.

(** The token operation of the tokenization fallback, once the card fields
    are read. *)
Definition tokenFrom (req : PaymentRequest.t) (month year : Z) (code : string)
  : operations.CreateToken :=
  {| operations.Name := asString (mapIndex (PaymentRequest.Card req) "name");
     operations.Number := asString (mapIndex (PaymentRequest.Card req) "number");
     operations.ExpirationMonth := month;
     operations.ExpirationYear := year;
     operations.SecurityCode := code |}.

(** The card fields of the fallback, read in the order of the source: month,
    year, security code; the first one that cannot be read is the error. *)
Definition cardFields (req : PaymentRequest.t) : result (Z * Z * string) :=
  match cardInt "expiration_month" (mapIndex (PaymentRequest.Card req) "expiration_month") with
  | Err e => Err e
  | Ok month =>
      match cardInt "expiration_year" (mapIndex (PaymentRequest.Card req) "expiration_year") with
      | Err e => Err e
      | Ok year =>
          match cardCode (mapIndex (PaymentRequest.Card req) "security_code") with
          | Err e => Err e
          | Ok code => Ok (month, year, code)
          end
      end
  end.

(** A request of the standalone server, read as a request of the handler
    that carries no user id. *)
Definition withoutUser (req : main.PaymentRequest) : PaymentRequest.t :=
  {| PaymentRequest.Amount := main.Amount req;
     PaymentRequest.Currency := main.Currency req;
     PaymentRequest.PaymentType := main.PaymentType req;
     PaymentRequest.Token := main.Token req;
     PaymentRequest.ReturnURI := main.ReturnURI req;
     PaymentRequest.Description := main.Description req;
     PaymentRequest.Metadata := main.Metadata req;
     PaymentRequest.Card := main.Card req;
     PaymentRequest.Bank := main.Bank req;
     PaymentRequest.UserID := None |}.

(** An operation that creates something at the gateway. *)
Definition isCreate (op : operations.Operation) : bool :=
  match op with
  | operations.OpCreateToken _ | operations.OpCreateSource _
  | operations.OpCreateCharge _ => true
  | _ => false
  end.

(** Newest first. *)
Definition newerOrEqual (a b : Transaction.t) : Prop :=
  Transaction.CreatedAt b <= Transaction.CreatedAt a.

(** ** A ledger with several rows, for the concrete runs of the queries *)

Module Examples.

(** A storage layer that never fails and reads an integer parameter as
    [strconv.Atoi] does. *)
Definition storage : Storage :=
  {| asInteger := fun s =>
       match strconv.Atoi s with
       | Some z => Ok z
       | None => Err "invalid input syntax for type bigint"
       end;
     countErr := None;
     findErr := None;
     firstByIDErr := None;
     firstByChargeErr := None |}.

Definition charge (id status user : string) (amount : Z) : Charge.t :=
  {| Charge.ID := id;
     Charge.Amount := amount;
     Charge.Currency := "THB";
     Charge.Status := status;
     Charge.FailureCode := None;
     Charge.FailureMessage := None;
     Charge.Source := None;
     Charge.Metadata := Some {[ "user_id" := VString user ]} |}.

Definition seen (time : Z) (ch : Charge.t) : Observation :=
  {| obsEnv := {| gateway := gateway Sample.settled; now := time;
                  createErr := None; updateErr := None |};
     obsCharge := ch;
     obsUser := None |}.

(** Three charges of user 1 and one of user 2, first seen at different
    times; the surrogate keys are 1 to 4 in the order of the upserts. *)
Definition ledger : DB :=
  db (upsertAll [seen 1000 (charge "chrg_a" "successful" "1" 100);
                 seen 3000 (charge "chrg_b" "failed" "1" 200);
                 seen 2000 (charge "chrg_c" "successful" "2" 300);
                 seen 4000 (charge "3" "successful" "1" 400)]
        Sample.w0).

Definition query (user status limit offset : string) : PaymentHandlerDB.ListQuery :=
  {| PaymentHandlerDB.user_id := user;
     PaymentHandlerDB.status := status;
     PaymentHandlerDB.channel := "";
     PaymentHandlerDB.limit := limit;
     PaymentHandlerDB.offset := offset |}.

End Examples.

(** The columns of a row that the conflict clause does not assign: primary
    key, charge id, creation time and deletion mark. *)
Definition identityOf (r : Transaction.t) : N * string * Z * option Z :=
  (Transaction.ID r, Transaction.ChargeID r, Transaction.CreatedAt r,
   Transaction.DeletedAt r).

(** The processor hands the charge operation [op] to the gateway after the
    operations [pre], as the last thing it sends, and returns the gateway's
    answer to it. *)
Definition submits (env : Env) (process : M (result Charge.t)) (w : World)
    (pre : list operations.Operation) (op : operations.CreateCharge) : Prop :=
  issued process w = (pre ++ [operations.OpCreateCharge op])%list /\
  fst (process w) = onCreateCharge (gateway env) op.

(** The amounts whose hundredth is a [float64]: the quotient
    [float64(amount) / 100.0] is then computed without rounding. The amount
    converts exactly when its magnitude is at most 2^53, and a hundredth of
    it is a binary fraction exactly when it is a multiple of 25. *)
Definition hundredthIsExact (amount : Z) : bool :=
  (amount mod 25 =? 0) && (Z.abs amount <=? 2 ^ 53).

(** * Properties *)

(** ** The library functions on small inputs *)

Example ParseUint_examples :
  strconv.ParseUint "42" 32 = Some 42%N /\
  strconv.ParseUint "007" 32 = Some 7%N /\
  strconv.ParseUint "" 32 = None /\
  strconv.ParseUint "+1" 32 = None /\
  strconv.ParseUint "12a" 32 = None /\
  strconv.ParseUint "4294967295" 32 = Some 4294967295%N /\
  strconv.ParseUint "4294967296" 32 = None.
Proof. repeat split. Qed.

Example Atoi_Itoa_examples :
  strconv.Atoi "12" = Some 12 /\ strconv.Atoi "-3" = Some (-3) /\
  strconv.Atoi "+" = None /\ strconv.Atoi "1.5" = None /\
  strconv.Itoa (-120) = "-120" /\ strconv.Itoa 0 = "0" /\
  strconv.FormatUint 2024 = "2024".
Proof. repeat split. Qed.

Example unmarshal_examples :
  unmarshalIDObject (Some (VObject [("ID", VString "evt_1"); ("object", VString "event")]))
  = Ok {| IDObject_ID := "evt_1"; IDObject_Object := "event" |} /\
  unmarshalIDOnly (Some (VObject [("id", VString "a"); ("id", VString "b");
                                  ("id", VNil); ("status", VFloat64 (1 # 1))]))
  = Ok {| IDOnly_ID := "b" |} /\
  unmarshalIDOnly (Some (VObject [("id", VFloat64 (7 # 1))]))
  = Err "json: cannot unmarshal into Go struct field" /\
  unmarshalIDOnly (Some VNil) = Ok {| IDOnly_ID := "" |} /\
  unmarshalIDOnly (Some (VArray [])) = Err "json: cannot unmarshal into Go value".
Proof. repeat split. Qed.

(** The scenario of the ledger: [chrg_1] is stored pending, then a webhook
    reports it settled. *)
Example pending_then_settled :
  let w := snd (PaymentHandler.HandleWebhook Sample.settled (Sample.eventBody [])
                  Sample.wPending) in
  map (fun r => (Transaction.ChargeID r, Transaction.Status r, Transaction.AmountSatang r,
                 Transaction.Channel r, Transaction.UserID r))
      (transactions (db w))
  = [("chrg_1", "successful", 5000, "promptpay", Some 1%N)] /\
  calls w = [operations.OpRetrieveEvent "evt_1"; operations.OpRetrieveCharge "chrg_1"].
Proof. split; reflexivity. Qed.

(** ** The conflict-resolving insert *)

Section Ledger.

Lemma hasCharge_iff cid r : hasCharge cid r = true <-> Transaction.ChargeID r = cid.
Proof. unfold hasCharge. apply String.eqb_eq. Qed.

Lemma existsb_hasCharge cid rows :
  existsb (hasCharge cid) rows = true <-> In cid (map Transaction.ChargeID rows).
Proof.
  rewrite existsb_exists, in_map_iff. split.
  - intros (r & Hin & Hr). exists r. split; [now apply hasCharge_iff | exact Hin].
  - intros (r & Hr & Hin). exists r. split; [exact Hin | now apply hasCharge_iff].
Qed.

Lemma filter_absent cid rows :
  existsb (hasCharge cid) rows = false -> List.filter (hasCharge cid) rows = [].
Proof.
  induction rows as [|r rows IH]; simpl; [reflexivity|].
  destruct (hasCharge cid r); simpl; [discriminate | exact IH].
Qed.

(** Under the unique index a charge id selects at most one row. *)
Lemma filter_unique cid rows :
  List.NoDup (map Transaction.ChargeID rows) ->
  existsb (hasCharge cid) rows = true ->
  exists r, List.filter (hasCharge cid) rows = [r].
Proof.
  induction rows as [|r rows IH]; simpl; [discriminate|].
  intros Hnd Hex. inversion Hnd as [|? ? Hnotin Hnd']; subst.
  destruct (hasCharge cid r) eqn:Hr.
  - exists r. f_equal. apply filter_absent.
    destruct (existsb (hasCharge cid) rows) eqn:Hrest; [|reflexivity].
    exfalso. apply Hnotin. apply hasCharge_iff in Hr. rewrite Hr.
    now apply existsb_hasCharge.
  - simpl in Hex. now apply IH.
Qed.

Lemma stamp_ChargeID t' id t :
  Transaction.ChargeID (stamp t' id t) = Transaction.ChargeID t.
Proof. reflexivity. Qed.

(** The charge ids after the write: unchanged on conflict, one more
    otherwise. *)
Lemma insertOnConflict_chargeIDs t' t d :
  chargeIDs (insertOnConflict t' t d) =
  if existsb (hasCharge (Transaction.ChargeID t)) (transactions d)
  then chargeIDs d
  else (chargeIDs d ++ [Transaction.ChargeID t])%list.
Proof.
  unfold insertOnConflict, chargeIDs.
  destruct (existsb _ _); simpl.
  - rewrite map_map. apply map_ext. intros r.
    destruct (hasCharge _ r); reflexivity.
  - now rewrite map_app.
Qed.

Lemma insertOnConflict_NoDup t' t d :
  List.NoDup (chargeIDs d) -> List.NoDup (chargeIDs (insertOnConflict t' t d)).
Proof.
  intros Hnd. rewrite insertOnConflict_chargeIDs.
  destruct (existsb _ _) eqn:Hex; [exact Hnd|].
  apply List.NoDup_app; [exact Hnd | repeat constructor; simpl; tauto |].
  intros x Hx [<- | []].
  apply existsb_hasCharge in Hx. unfold chargeIDs in Hx. congruence.
Qed.

(** After the write exactly one row carries the charge id, and its
    assigned columns are the proposed ones. *)
Lemma insertOnConflict_row t' t d :
  List.NoDup (chargeIDs d) ->
  exists r,
    rowsOf (Transaction.ChargeID t) (insertOnConflict t' t d) = [r] /\
    assignColumns (stamp t' (next_id d) t) r = r.
Proof.
  intros Hnd. unfold rowsOf, insertOnConflict.
  destruct (existsb _ _) eqn:Hex; simpl.
  - destruct (filter_unique _ _ Hnd Hex) as [r0 Hr0].
    exists (assignColumns (stamp t' (next_id d) t) r0). split; [|reflexivity].
    assert (Hf : forall rows,
               List.filter (hasCharge (Transaction.ChargeID t))
                 (map (fun r => if hasCharge (Transaction.ChargeID t) r
                                then assignColumns (stamp t' (next_id d) t) r
                                else r) rows)
               = map (assignColumns (stamp t' (next_id d) t))
                   (List.filter (hasCharge (Transaction.ChargeID t)) rows)).
    { induction rows as [|r rows IH]; simpl; [reflexivity|].
      destruct (hasCharge _ r) eqn:Hr; simpl.
      - unfold hasCharge at 1. simpl. fold (hasCharge (Transaction.ChargeID t) r).
        rewrite Hr. simpl. now rewrite IH.
      - rewrite Hr. exact IH. }
    rewrite Hf, Hr0. reflexivity.
  - exists (stamp t' (next_id d) t). split; [|reflexivity].
    rewrite List.filter_app, (filter_absent _ _ Hex). simpl.
    unfold hasCharge. simpl. now rewrite String.eqb_refl.
Qed.

Lemma addBalance_transactions uid q d :
  transactions (addBalance uid q d) = transactions d.
Proof. reflexivity. Qed.

End Ledger.

(** ** One upsert *)

Section Upsert.
Variable env : Env.
Variable ch : Charge.t.
Variable userID : option N.

Abbreviation resolved := (extractUserIDFromCharge (Some ch) userID).
Abbreviation proposed := (PaymentHandler.transactionOf ch resolved).

(** A failed write returns its error and leaves the state alone. *)
Lemma upsert_failed err w :
  createErr env = Some err ->
  PaymentHandler.upsertTransactionFromCharge env (Some ch) userID w = (Some err, w).
Proof.
  intros H. unfold PaymentHandler.upsertTransactionFromCharge. now rewrite H.
Qed.

(** A write that succeeds returns [nil] whatever the balance update does,
    and the ledger is the one the insert leaves. *)
Lemma upsert_written w :
  createErr env = None ->
  fst (PaymentHandler.upsertTransactionFromCharge env (Some ch) userID w) = None /\
  transactions (db (snd (PaymentHandler.upsertTransactionFromCharge env (Some ch) userID w)))
  = transactions (insertOnConflict (now env) proposed (db w)).
Proof.
  intros H. unfold PaymentHandler.upsertTransactionFromCharge.
  rewrite H. fold resolved. fold proposed.
  destruct (String.eqb (Charge.Status ch) "successful"), resolved as [uid|];
    try destruct (updateErr env); split; reflexivity.
Qed.

(** The upsert touches neither the gateway nor, unless it credits, the
    users. *)
Lemma upsert_calls w :
  calls (snd (PaymentHandler.upsertTransactionFromCharge env (Some ch) userID w))
  = calls w.
Proof.
  unfold PaymentHandler.upsertTransactionFromCharge.
  destruct (createErr env); [reflexivity|].
  destruct (String.eqb (Charge.Status ch) "successful"),
    (extractUserIDFromCharge (Some ch) userID);
    try destruct (updateErr env); reflexivity.
Qed.

Lemma upsert_NoDup w :
  List.NoDup (chargeIDs (db w)) ->
  List.NoDup (chargeIDs (db (snd
    (PaymentHandler.upsertTransactionFromCharge env (Some ch) userID w)))).
Proof.
  intros Hnd. destruct (createErr env) as [err|] eqn:He.
  - now rewrite (upsert_failed err).
  - destruct (upsert_written w He) as [_ Ht].
    unfold chargeIDs in *. rewrite Ht. now apply insertOnConflict_NoDup.
Qed.

Lemma proposed_mirrors t' id r :
  assignColumns (stamp t' id proposed) r = r -> mirrors ch r.
Proof.
  intros <-. unfold mirrors. simpl. repeat split; reflexivity.
Qed.

(** After a successful write the charge id selects one row, equal to the
    snapshot in its updatable fields. *)
Lemma upsert_row w :
  List.NoDup (chargeIDs (db w)) ->
  createErr env = None ->
  exists r,
    rowsOf (Charge.ID ch)
      (db (snd (PaymentHandler.upsertTransactionFromCharge env (Some ch) userID w)))
    = [r] /\ mirrors ch r /\ Transaction.UserID r = resolved.
Proof.
  intros Hnd He. destruct (upsert_written w He) as [_ Ht].
  destruct (insertOnConflict_row (now env) proposed (db w) Hnd) as (r & Hr & Hfix).
  exists r. unfold rowsOf in *. rewrite Ht. split; [exact Hr|].
  split; [now apply (proposed_mirrors (now env) (next_id (db w)))|].
  rewrite <- Hfix. reflexivity.
Qed.

End Upsert.

(** ** C2: the ledger under repeated upserts *)

Lemma upsertAll_NoDup os : forall w,
  List.NoDup (chargeIDs (db w)) -> List.NoDup (chargeIDs (db (upsertAll os w))).
Proof.
  induction os as [|o os IH]; intros w Hnd; simpl; [exact Hnd|].
  apply IH. now apply upsert_NoDup.
Qed.

Lemma upsertAll_cons o os w : upsertAll (o :: os) w = upsertAll os (observe o w).
Proof. reflexivity. Qed.

Lemma repeated_oneRow ch uid envs : forall w,
  List.NoDup (chargeIDs (db w)) ->
  oneRow ch w \/ List.Exists (fun e => createErr e = None) envs ->
  oneRow ch (upsertAll (repeated ch uid envs) w).
Proof.
  induction envs as [|e envs IH]; intros w Hnd Hor.
  - destruct Hor as [H | H]; [exact H | inversion H].
  - change (repeated ch uid (e :: envs))
      with ({| obsEnv := e; obsCharge := ch; obsUser := uid |} :: repeated ch uid envs).
    rewrite upsertAll_cons. unfold observe. cbn [obsEnv obsCharge obsUser].
    apply IH; [now apply upsert_NoDup|].
    destruct (createErr e) as [err|] eqn:He.
    + rewrite (upsert_failed e ch uid err w He). simpl.
      destruct Hor as [H | H]; [now left|].
      inversion H as [? ? Hhd | ? ? Htl]; subst; [congruence | now right].
    + left. destruct (upsert_row e ch uid w Hnd He) as (r & Hr & Hm & _).
      exists r. now split.
Qed.

(** C2. From a ledger whose charge ids are unique, every sequence of upserts
    leaves them unique; and applying one snapshot N >= 1 times afterwards (with
    at least one write accepted by the storage layer; a refused write changes
    nothing) leaves exactly one row keyed by the charge id, whose status,
    failure code and message, amount, currency, channel, raw payload and
    metadata are the snapshot's. *)
Theorem upsert_idempotent_single_row :
  forall (history : list Observation) (ch : Charge.t) (uid : option N)
         (envs : list Env) (w : World),
    List.NoDup (chargeIDs (db w)) ->
    List.Exists (fun e => createErr e = None) envs ->
    let w1 := upsertAll history w in
    let w2 := upsertAll (repeated ch uid envs) w1 in
    List.NoDup (chargeIDs (db w1)) /\
    List.NoDup (chargeIDs (db w2)) /\
    exists r, rowsOf (Charge.ID ch) (db w2) = [r] /\ mirrors ch r.
Proof.
  intros history ch uid envs w Hnd Hex w1 w2.
  assert (H1 : List.NoDup (chargeIDs (db w1))) by now apply upsertAll_NoDup.
  split; [exact H1|]. split; [now apply upsertAll_NoDup|].
  apply repeated_oneRow; [exact H1 | now right].
Qed.

(** Three deliveries of the settled [chrg_1], the last one refused by the
    storage layer, onto a ledger that already holds the charge as pending. *)
Lemma upsert_idempotent_single_row_witness :
  let history := [{| obsEnv := Sample.settled; obsCharge := Sample.chrg1 "pending";
                     obsUser := None |}] in
  let envs := [Sample.settled; Sample.settled;
               Sample.env (Sample.gw "charge.complete" (Ok (Sample.chrg1 "successful")))
                 (Some "connection refused") None] in
  let ch := Sample.chrg1 "successful" in
  List.NoDup (chargeIDs (db Sample.w0)) /\
  List.Exists (fun e => createErr e = None) envs /\
  exists r,
    rowsOf (Charge.ID ch)
      (db (upsertAll (repeated ch None envs) (upsertAll history Sample.w0))) = [r]
    /\ mirrors ch r.
Proof.
  intros history envs ch.
  assert (Hnd : List.NoDup (chargeIDs (db Sample.w0))) by constructor.
  assert (Hex : List.Exists (fun e => createErr e = None) envs)
    by (constructor; reflexivity).
  split; [exact Hnd|]. split; [exact Hex|].
  exact (proj2 (proj2
    (upsert_idempotent_single_row history ch None envs Sample.w0 Hnd Hex))).
Defined.

(** ** C1 and C9: the balance credit *)

(** Whenever the snapshot is successful and a user is resolved, a written
    upsert credits the user, whatever status the ledger held before. *)
Lemma upsert_credits_whenever_successful env ch userID uid w :
  Charge.Status ch = "successful" ->
  extractUserIDFromCharge (Some ch) userID = Some uid ->
  createErr env = None ->
  updateErr env = None ->
  users (db (snd (PaymentHandler.upsertTransactionFromCharge env (Some ch) userID w)))
  = users (addBalance uid (inject_Z (Charge.Amount ch) / 100)%Q (db w)).
Proof.
  intros Hs Hu Hc He. unfold PaymentHandler.upsertTransactionFromCharge.
  rewrite Hc, Hu, Hs, He. simpl. unfold insertOnConflict.
  destruct (existsb _ _); reflexivity.
Qed.

(** C1. The webhook for the settled charge [chrg_1] (5000 satang, user 1),
    delivered to a ledger that holds the charge as pending: the first delivery
    stores "successful" and credits 50; the identical second delivery, made
    when the stored status is already "successful", credits 50 again. *)
Theorem redelivery_credits_twice :
  let deliver := fun w =>
    snd (PaymentHandler.HandleWebhook Sample.settled (Sample.eventBody []) w) in
  let once := deliver Sample.wPending in
  let twice := deliver once in
  map Transaction.Status (transactions (db Sample.wPending)) = ["pending"] /\
  map Transaction.Status (transactions (db once)) = ["successful"] /\
  map Transaction.Status (transactions (db twice)) = ["successful"] /\
  (exists b, balanceOf 1 (db Sample.wPending) = Some b /\ (b == 0)%Q) /\
  (exists b, balanceOf 1 (db once) = Some b /\ (b == 50)%Q) /\
  (exists b, balanceOf 1 (db twice) = Some b /\ (b == 100)%Q).
Proof.
  repeat split; try reflexivity; eexists; (split; [vm_compute; reflexivity | reflexivity]).
Qed.

(** C9. For a successful snapshot with a resolved user, when the ledger write
    succeeds and the balance write fails, [upsertTransactionFromCharge] returns
    [nil]: the failure is logged, no balance changes, and a webhook that
    carries the charge is answered 200. *)
Theorem balance_failure_is_swallowed :
  forall (env : Env) (ch : Charge.t) (userID : option N) (uid : N) (err : string)
         (w : World),
    Charge.Status ch = "successful" ->
    extractUserIDFromCharge (Some ch) userID = Some uid ->
    createErr env = None ->
    updateErr env = Some err ->
    let r := PaymentHandler.upsertTransactionFromCharge env (Some ch) userID w in
    fst r = None /\
    users (db (snd r)) = users (db w) /\
    logs (snd r) = (logs w ++ [("Failed to update user balance: " ++ err)%string])%list /\
    (forall (body : option Value) (cid : string),
        userID = None ->
        unmarshalIDObject body
        = Ok {| IDObject_ID := cid; IDObject_Object := "charge" |} ->
        cid <> "" ->
        onRetrieveCharge (gateway env) cid = Ok ch ->
        let h := PaymentHandler.HandleWebhook env body w in
        fst h = respond 200 NoBody /\ users (db (snd h)) = users (db w)).
Proof.
  intros env ch userID uid err w Hs Hu Hc He r.
  assert (Hrun : forall w0,
    PaymentHandler.upsertTransactionFromCharge env (Some ch) userID w0
    = (None,
       {| db := insertOnConflict (now env)
                  (PaymentHandler.transactionOf ch (Some uid)) (db w0);
          calls := calls w0;
          logs := (logs w0 ++ [("Failed to update user balance: " ++ err)%string])%list |})).
  { intros w0. unfold PaymentHandler.upsertTransactionFromCharge.
    rewrite Hc, Hu, Hs, He. reflexivity. }
  assert (Husers : forall t' t d, users (insertOnConflict t' t d) = users d).
  { intros t' t d. unfold insertOnConflict. destruct (existsb _ _); reflexivity. }
  subst r. rewrite Hrun. simpl. rewrite Husers.
  split; [reflexivity|]. split; [reflexivity|]. split; [reflexivity|].
  intros body cid -> Hbody Hcid Hgw.
  unfold PaymentHandler.HandleWebhook. rewrite Hbody. simpl.
  apply String.eqb_neq in Hcid. rewrite Hcid.
  unfold PaymentHandler.reconcile, Client.RetrieveCharge, bind, issue, ret.
  rewrite Hgw, Hrun. simpl. split; [reflexivity | apply Husers].
Qed.

(** The settled charge, the balance update failing: the charge-shaped
    envelope is acknowledged and user 1 keeps a zero balance. *)
Lemma balance_failure_is_swallowed_witness :
  let env := Sample.env (Sample.gw "charge.complete" (Ok (Sample.chrg1 "successful")))
               None (Some "deadlock detected") in
  let r := PaymentHandler.upsertTransactionFromCharge env
             (Some (Sample.chrg1 "successful")) None Sample.w0 in
  let h := PaymentHandler.HandleWebhook env Sample.chargeBody Sample.w0 in
  fst r = None /\
  logs (snd r) = ["Failed to update user balance: deadlock detected"] /\
  fst h = respond 200 NoBody /\
  users (db (snd h)) = [Sample.user1].
Proof.
  intros env r h.
  pose proof (balance_failure_is_swallowed env (Sample.chrg1 "successful") None 1%N
                "deadlock detected" Sample.w0
                eq_refl eq_refl eq_refl eq_refl) as (H1 & _ & H3 & H4).
  destruct (H4 Sample.chargeBody "chrg_1" eq_refl eq_refl
              ltac:(discriminate) eq_refl) as [H5 H6].
  split; [exact H1|]. split; [exact H3|]. split; [exact H5 | exact H6].
Defined.

(** ** C6, C7, C8, C10: the dispatcher *)

Lemma bind_run {A B} (m : M A) (k : A -> M B) (w : World) :
  bind m k w = k (fst (m w)) (snd (m w)).
Proof. unfold bind. destruct (m w). reflexivity. Qed.

(** Run the binds of a computation one at a time. *)
Ltac steps :=
  repeat (rewrite bind_run; unfold issue, ret; cbn beta iota delta [fst snd]).

Lemma issued_nothing {A} (m : M A) (w : World) :
  snd (m w) = w -> issued m w = [].
Proof. intros H. unfold issued. rewrite H. apply skipn_all. Qed.

(** C6. An internet_banking request without a bank code or without a return
    address is refused by the processor before anything is sent to the
    gateway: the result is an error and the state, with its trace of gateway
    operations, is untouched. This holds for the handler's processor and for
    the standalone server's. *)
Theorem internet_banking_validated_before_gateway :
  forall (env : Env) (bank returnURI : string) (w : World),
    bank = "" \/ returnURI = "" ->
    (forall req : PaymentRequest.t,
        PaymentRequest.Bank req = bank ->
        PaymentRequest.ReturnURI req = returnURI ->
        (exists msg, PaymentHandler.processInternetBanking env req w = (Err msg, w)) /\
        issued (PaymentHandler.processInternetBanking env req) w = []) /\
    (forall req : main.PaymentRequest,
        main.Bank req = bank ->
        main.ReturnURI req = returnURI ->
        (exists msg, main.processInternetBanking env req w = (Err msg, w)) /\
        issued (main.processInternetBanking env req) w = []).
Proof.
  intros env bank returnURI w Hmissing.
  split; intros req Hb Hr.
  - assert (H : exists msg,
               PaymentHandler.processInternetBanking env req w = (Err msg, w)).
    { unfold PaymentHandler.processInternetBanking. rewrite Hb, Hr.
      destruct Hmissing as [-> | ->]; simpl.
      - eexists; reflexivity.
      - destruct (String.eqb bank ""); eexists; reflexivity. }
    split; [exact H|]. destruct H as [msg H].
    apply issued_nothing. now rewrite H.
  - assert (H : exists msg, main.processInternetBanking env req w = (Err msg, w)).
    { unfold main.processInternetBanking. rewrite Hb, Hr.
      destruct Hmissing as [-> | ->]; simpl.
      - eexists; reflexivity.
      - destruct (String.eqb bank ""); eexists; reflexivity. }
    split; [exact H|]. destruct H as [msg H].
    apply issued_nothing. now rewrite H.
Qed.

(** A request for bank [bbl] that names no return address. *)
Lemma internet_banking_validated_before_gateway_witness :
  ("bbl" = "" \/ "" = "") /\
  PaymentHandler.processInternetBanking Sample.settled
    (Sample.request "internet_banking" "bbl" "" (Some 7%N)) Sample.w0
  = (Err "return_uri is required for internet_banking", Sample.w0) /\
  issued (main.processInternetBanking Sample.settled
            (Sample.standalone "internet_banking" "bbl" "")) Sample.w0 = [].
Proof.
  assert (H : "bbl" = "" \/ "" = "") by (right; reflexivity).
  destruct (internet_banking_validated_before_gateway Sample.settled "bbl" ""
              Sample.w0 H) as [Hh Hm].
  split; [exact H|]. split.
  - reflexivity.
  - exact (proj2 (Hm (Sample.standalone "internet_banking" "bbl" "")
                     eq_refl eq_refl)).
Defined.

(** C10. A request whose payment type is none of credit_card, promptpay and
    internet_banking is answered 400 with nothing sent to the gateway and
    nothing written: the state is untouched. When the request satisfies the
    precondition checked first (a positive amount and a currency) the body
    names the unsupported type; otherwise it is the 400 of that check. This
    holds for [PaymentHandler.CreateCharge] and for the standalone server. *)
Theorem unsupported_payment_type_rejected :
  forall (env : Env) (tag : string) (w : World),
    tag <> "credit_card" -> tag <> "promptpay" -> tag <> "internet_banking" ->
    (forall (c : Ctx) (req : PaymentRequest.t),
        BodyParser c = Ok req ->
        PaymentRequest.PaymentType req = tag ->
        let r := PaymentHandler.CreateCharge env c w in
        StatusCode (fst r) = 400 /\ snd r = w /\
        (0 < PaymentRequest.Amount req -> PaymentRequest.Currency req <> "" ->
         Body (fst r) = ErrorJSON ("unsupported paymentType: " ++ tag))) /\
    (forall req : main.PaymentRequest,
        main.PaymentType req = tag ->
        let r := main.chargeHandler env "POST" (Ok req) w in
        StatusCode (fst r) = 400 /\ snd r = w /\
        (0 < main.Amount req -> main.Currency req <> "" ->
         Body (fst r) = ErrorJSON ("unsupported paymentType: " ++ tag))).
Proof.
  intros env tag w H1 H2 H3.
  apply String.eqb_neq in H1, H2, H3.
  split.
  - intros c req Hc Ht r. subst r.
    unfold PaymentHandler.CreateCharge, PaymentHandler.dispatch.
    rewrite Hc, Ht, H1, H2, H3.
    destruct (PaymentRequest.Amount req <=? 0) eqn:Ha; simpl.
    + repeat split. intros Hpos. apply Z.leb_le in Ha. lia.
    + destruct (String.eqb (PaymentRequest.Currency req) "") eqn:Hcur; simpl.
      * repeat split. intros _ Hne. apply String.eqb_eq in Hcur. contradiction.
      * repeat split.
  - intros req Ht r. subst r.
    unfold main.chargeHandler, main.dispatch. simpl.
    rewrite Ht, H1, H2, H3.
    destruct (main.Amount req <=? 0) eqn:Ha; simpl.
    + repeat split. intros Hpos. apply Z.leb_le in Ha. lia.
    + destruct (String.eqb (main.Currency req) "") eqn:Hcur; simpl.
      * repeat split. intros _ Hne. apply String.eqb_eq in Hcur. contradiction.
      * repeat split.
Qed.

(** A request for the method [bitcoin]. *)
Lemma unsupported_payment_type_rejected_witness :
  PaymentHandler.CreateCharge Sample.settled
    (Sample.ctx (Sample.request "bitcoin" "" "" None)) Sample.w0
  = (respond 400 (ErrorJSON "unsupported paymentType: bitcoin"), Sample.w0) /\
  snd (main.chargeHandler Sample.settled "POST"
         (Ok (Sample.standalone "bitcoin" "" "")) Sample.w0) = Sample.w0.
Proof.
  destruct (unsupported_payment_type_rejected Sample.settled "bitcoin" Sample.w0
              ltac:(discriminate) ltac:(discriminate) ltac:(discriminate))
    as [Hh Hm].
  split.
  - reflexivity.
  - exact (proj1 (proj2 (Hm (Sample.standalone "bitcoin" "" "") eq_refl))).
Defined.

(** C7. When the chosen processor obtains a charge from the gateway,
    [CreateCharge] answers 200 with that charge whether or not the ledger
    write succeeds; a failed write leaves the database as it was and adds the
    log line. *)
Theorem persistence_failure_keeps_response :
  forall (env : Env) (c : Ctx) (req : PaymentRequest.t)
         (process : M (result Charge.t)) (charge : Charge.t) (w w1 : World),
    BodyParser c = Ok req ->
    0 < PaymentRequest.Amount req ->
    PaymentRequest.Currency req <> "" ->
    PaymentHandler.dispatch env req = Some process ->
    process w = (Ok charge, w1) ->
    fst (PaymentHandler.CreateCharge env c w) = respond 200 (ChargeJSON charge) /\
    (forall err,
        createErr env = Some err ->
        snd (PaymentHandler.CreateCharge env c w)
        = {| db := db w1;
             calls := calls w1;
             logs := (logs w1 ++ [("Failed to save transaction: " ++ err)%string])%list |}).
Proof.
  intros env c req process charge w w1 Hc Ha Hcur Hd Hp.
  unfold PaymentHandler.CreateCharge. rewrite Hc.
  apply Z.leb_gt in Ha. apply String.eqb_neq in Hcur. rewrite Ha, Hcur.
  cbn [orb]. rewrite Hd, bind_run, Hp. cbn [fst snd]. rewrite bind_run.
  split.
  - destruct (PaymentHandler.upsertTransactionFromCharge env (Some charge)
                (getUserIDFromRequest c req) w1) as [[e|] w2]; reflexivity.
  - intros err He.
    rewrite (upsert_failed env charge (getUserIDFromRequest c req) err w1 He).
    reflexivity.
Qed.

(** A promptpay request while the storage layer refuses the write: the
    charge created at the gateway is returned, the ledger stays empty. *)
Lemma persistence_failure_keeps_response_witness :
  let env := Sample.env (Sample.gw "charge.complete" (Ok (Sample.chrg1 "pending")))
               (Some "connection refused") None in
  let c := Sample.ctx (Sample.request "promptpay" "" "" (Some 1%N)) in
  exists charge,
    fst (PaymentHandler.CreateCharge env c Sample.w0) = respond 200 (ChargeJSON charge) /\
    Charge.ID charge = "chrg_1" /\
    transactions (db (snd (PaymentHandler.CreateCharge env c Sample.w0))) = [] /\
    logs (snd (PaymentHandler.CreateCharge env c Sample.w0))
    = ["Failed to save transaction: connection refused"].
Proof.
  intros env c.
  pose (req := Sample.request "promptpay" "" "" (Some 1%N)).
  pose (process := PaymentHandler.processPromptPay env req).
  destruct (process Sample.w0) as [r w1] eqn:Hp.
  destruct r as [charge|msg]; [|discriminate Hp].
  exists charge.
  destruct (persistence_failure_keeps_response env c req process charge Sample.w0 w1
              eq_refl eq_refl ltac:(discriminate) eq_refl Hp) as [H1 H2].
  specialize (H2 "connection refused" eq_refl).
  injection Hp as Hcharge Hw1. subst charge w1.
  split; [exact H1|]. split; [reflexivity|].
  rewrite H2. split; reflexivity.
Defined.

(** *** C8: the user id in the charge's metadata *)

Lemma issued_app {A} (m : M A) (w : World) ops :
  calls (snd (m w)) = (calls w ++ ops)%list -> issued m w = ops.
Proof.
  intros H. unfold issued. rewrite H, List.skipn_app, skipn_all, Nat.sub_diag.
  reflexivity.
Qed.

Lemma createCharge_run env op w :
  PaymentHandler.createCharge env op w
  = (onCreateCharge (gateway env) op,
     {| db := db w;
        calls := (calls w ++ [operations.OpCreateCharge op])%list;
        logs := logs w |}).
Proof.
  unfold PaymentHandler.createCharge, Client.CreateCharge, bind, issue, ret.
  destruct (onCreateCharge (gateway env) op); reflexivity.
Qed.

Lemma attachUserID_carries req uid card source returnURI :
  PaymentRequest.UserID req = Some uid ->
  carriesUserID uid
    {| operations.Amount := PaymentRequest.Amount req;
       operations.Currency := PaymentRequest.Currency req;
       operations.Card := card;
       operations.Source := source;
       operations.ReturnURI := returnURI;
       operations.Description := PaymentRequest.Description req;
       operations.Metadata := attachUserID req |}.
Proof.
  intros H. unfold carriesUserID, attachUserID. rewrite H. simpl.
  apply lookup_insert_eq.
Qed.

Section Attach.
Variable env : Env.
Variable req : PaymentRequest.t.
Variable uid : N.
Hypothesis Huid : PaymentRequest.UserID req = Some uid.

Ltac run :=
  repeat (rewrite bind_run; simpl); rewrite ?createCharge_run; simpl.

Ltac no_charge :=
  let op := fresh "op" in
  let H := fresh "H" in
  intros op H; simpl in H;
  repeat (destruct H as [H | H]; [discriminate H|]); exact H.

(** The processor stops with an error after issuing [pre], which holds no
    charge operation. *)
Ltac fails w pre :=
  left; eexists; split;
  [ run; reflexivity
  | rewrite (issued_app _ w pre) by (run; rewrite ?app_nil_r; reflexivity);
    no_charge ].

(** The processor ends in [createCharge] after issuing [pre]. *)
Ltac charges pre :=
  right; eexists pre, _; split;
  [ apply issued_app; run; rewrite <- ?app_assoc; simpl; reflexivity
  | split; [no_charge | split; [now apply attachUserID_carries | run; reflexivity] ] ].

Lemma processPromptPay_attaches w :
  attaches env uid (PaymentHandler.processPromptPay env req) w.
Proof.
  unfold PaymentHandler.processPromptPay, Client.CreateSource.
  set (src := {| operations.src_Type := "promptpay";
                 operations.src_Amount := _; operations.src_Currency := _ |}).
  destruct (onCreateSource (gateway env) src) as [s|msg] eqn:Hs.
  - charges [operations.OpCreateSource src].
  - fails w [operations.OpCreateSource src].
Qed.

Lemma processInternetBanking_attaches w :
  attaches env uid (PaymentHandler.processInternetBanking env req) w.
Proof.
  unfold PaymentHandler.processInternetBanking, Client.CreateSource.
  destruct (String.eqb (PaymentRequest.Bank req) ""); [fails w (@nil operations.Operation)|].
  destruct (String.eqb (PaymentRequest.ReturnURI req) "");
    [fails w (@nil operations.Operation)|].
  set (src := {| operations.src_Type := _;
                 operations.src_Amount := _; operations.src_Currency := _ |}).
  destruct (onCreateSource (gateway env) src) as [s|msg] eqn:Hs.
  - charges [operations.OpCreateSource src].
  - fails w [operations.OpCreateSource src].
Qed.

Lemma processCreditCard_attaches w :
  attaches env uid (PaymentHandler.processCreditCard env req) w.
Proof.
  unfold PaymentHandler.processCreditCard, Client.CreateToken.
  destruct (negb (String.eqb (PaymentRequest.Token req) ""));
    [charges (@nil operations.Operation)|].
  destruct (PaymentRequest.Card req) as [card|]; [|fails w (@nil operations.Operation)].
  destruct (cardInt "expiration_month" _) as [month|e];
    [|fails w (@nil operations.Operation)].
  destruct (cardInt "expiration_year" _) as [year|e];
    [|fails w (@nil operations.Operation)].
  destruct (cardCode _) as [code|e]; [|fails w (@nil operations.Operation)].
  set (tok := {| operations.Name := _; operations.Number := _;
                 operations.ExpirationMonth := _; operations.ExpirationYear := _;
                 operations.SecurityCode := _ |}).
  destruct (onCreateToken (gateway env) tok) as [t|msg] eqn:Ht.
  - charges [operations.OpCreateToken tok].
  - fails w [operations.OpCreateToken tok].
Qed.

End Attach.

(** The decimal rendering of a user id parses back, within the 32 bits that
    the parser of the reconciliation accepts. *)
Lemma ParseUint_FormatUint n bits :
  (n < 2 ^ bits)%N -> strconv.ParseUint (strconv.FormatUint n) bits = Some n.
Proof.
  intros Hlt. unfold strconv.ParseUint, strconv.digits, strconv.FormatUint.
  destruct (NilEmpty.string_of_uint (N.to_uint n)) eqn:Hs.
  - exfalso. destruct n as [|p]; [discriminate Hs|].
    apply (DecimalPos.Unsigned.to_uint_nonnil p).
    change (N.to_uint (N.pos p)) with (Pos.to_uint p) in Hs.
    destruct (Pos.to_uint p); [reflexivity | discriminate Hs ..].
  - rewrite <- Hs, NilEmpty.usu. simpl.
    rewrite DecimalN.Unsigned.of_to.
    apply N.ltb_lt in Hlt. now rewrite Hlt.
Qed.

(** A user id that arrives in the [X-User-ID] header is not a field of the
    request: it reaches the direct upsert, not the metadata. *)
Example header_user_id_stays_out_of_metadata :
  let c := {| BodyParser := Ok (Sample.request "promptpay" "" "" None);
              HeaderXUserID := "7";
              QueryUserID := "" |} in
  let w := snd (PaymentHandler.CreateCharge Sample.settled c Sample.w0) in
  map Transaction.UserID (transactions (db w)) = [Some 7%N] /\
  map Transaction.Meta (transactions (db w)) = [None].
Proof. split; reflexivity. Qed.

(** ** C3, C4, C5: the webhooks *)

(** A member whose key is not the field's does not matter to the decoder. *)
Lemma stringField_filter name (keep : string * Value -> bool) fields :
  (forall kv, json.equalFold (fst kv) name = true -> keep kv = true) ->
  forall cur bad,
    json.stringField name (List.filter keep fields) cur bad
    = json.stringField name fields cur bad.
Proof.
  intros Hkeep. induction fields as [|[k v] fields IH]; intros cur bad; simpl.
  - reflexivity.
  - destruct (json.equalFold k name) eqn:Hk.
    + rewrite (Hkeep (k, v) Hk). simpl. rewrite Hk.
      destruct v; apply IH.
    + destruct (keep (k, v)); simpl; [rewrite Hk|]; apply IH.
Qed.

Lemma stringField_idFields fields cur bad :
  json.stringField "id" (idFields fields) cur bad = json.stringField "id" fields cur bad.
Proof. apply stringField_filter. intros kv H. exact H. Qed.

Lemma stringField_objectFields fields cur bad :
  json.stringField "object" (objectFields fields) cur bad
  = json.stringField "object" fields cur bad.
Proof. apply stringField_filter. intros kv H. exact H. Qed.

Lemma unmarshalIDOnly_agree fields1 fields2 :
  idFields fields1 = idFields fields2 ->
  unmarshalIDOnly (Some (VObject fields1)) = unmarshalIDOnly (Some (VObject fields2)).
Proof.
  intros Hid. unfold unmarshalIDOnly.
  rewrite <- (stringField_idFields fields1), <- (stringField_idFields fields2).
  now rewrite Hid.
Qed.

Lemma unmarshalIDObject_agree fields1 fields2 :
  idFields fields1 = idFields fields2 ->
  objectFields fields1 = objectFields fields2 ->
  unmarshalIDObject (Some (VObject fields1)) = unmarshalIDObject (Some (VObject fields2)).
Proof.
  intros Hid Hobj. unfold unmarshalIDObject.
  rewrite <- (stringField_idFields fields1), <- (stringField_idFields fields2).
  rewrite <- (stringField_objectFields fields1), <- (stringField_objectFields fields2).
  now rewrite Hid, Hobj.
Qed.

(** The webhooks read the body through the decoded envelope only. *)
Lemma PaymentHandler_HandleWebhook_envelope env b1 b2 w :
  unmarshalIDObject b1 = unmarshalIDObject b2 ->
  PaymentHandler.HandleWebhook env b1 w = PaymentHandler.HandleWebhook env b2 w.
Proof. intros H. unfold PaymentHandler.HandleWebhook. now rewrite H. Qed.

Lemma WebhookHandler_HandleWebhook_envelope env dbHandler method b1 b2 w :
  unmarshalIDOnly b1 = unmarshalIDOnly b2 ->
  WebhookHandler.HandleWebhook env dbHandler {| Method := method; ReadAll := Ok b1 |} w
  = WebhookHandler.HandleWebhook env dbHandler {| Method := method; ReadAll := Ok b2 |} w.
Proof. intros H. unfold WebhookHandler.HandleWebhook. simpl. now rewrite H. Qed.

(** What the retrieval and upsert at the end of the webhook do to the
    ledger: nothing, or the write of the row built from the gateway's
    charge. *)
Lemma reconcile_provenance env cid w :
  let r := PaymentHandler.reconcile env cid w in
  calls (snd r) = (calls w ++ [operations.OpRetrieveCharge cid])%list /\
  (transactions (db (snd r)) = transactions (db w) \/
   exists ch,
     onRetrieveCharge (gateway env) cid = Ok ch /\
     fst r = respond 200 NoBody /\
     writtenFrom env ch (db w) (db (snd r))).
Proof.
  unfold PaymentHandler.reconcile, Client.RetrieveCharge.
  set (w1 := {| db := db w;
                calls := (calls w ++ [operations.OpRetrieveCharge cid])%list;
                logs := logs w |}).
  destruct (onRetrieveCharge (gateway env) cid) as [ch|msg] eqn:Hgw.
  - destruct (createErr env) as [err|] eqn:He.
    + split.
      * steps. fold w1.
        rewrite (upsert_failed env ch None err w1 He). reflexivity.
      * left. steps. fold w1.
        rewrite (upsert_failed env ch None err w1 He). reflexivity.
    + destruct (upsert_written env ch None w1 He) as [Hfst Htx].
      pose proof (upsert_calls env ch None w1) as Hcalls.
      split.
      * steps. fold w1. rewrite Hfst. steps. exact Hcalls.
      * right. exists ch. split; [reflexivity|].
        steps. fold w1. rewrite Hfst. steps.
        split; [reflexivity | exact Htx].
  - split.
    + steps. reflexivity.
    + left. steps. reflexivity.
Qed.

(** Whatever the body, the webhook of the payment handler leaves the ledger
    alone or writes the row of a charge that the gateway returned to a
    retrieval it issued. *)
Lemma PaymentHandler_HandleWebhook_provenance env body w :
  let r := PaymentHandler.HandleWebhook env body w in
  transactions (db (snd r)) = transactions (db w) \/
  exists cid ch,
    In (operations.OpRetrieveCharge cid) (issued (PaymentHandler.HandleWebhook env body) w) /\
    onRetrieveCharge (gateway env) cid = Ok ch /\
    fst r = respond 200 NoBody /\
    writtenFrom env ch (db w) (db (snd r)).
Proof.
  unfold PaymentHandler.HandleWebhook.
  destruct (unmarshalIDObject body) as [envelope|msg]; [|now left].
  destruct (String.eqb (IDObject_ID envelope) ""); [now left|].
  destruct (String.eqb (IDObject_Object envelope) "event").
  - unfold Client.RetrieveEvent. steps.
    destruct (onRetrieveEvent (gateway env) (IDObject_ID envelope)) as [ev|msg];
      [|left; steps; reflexivity].
    unfold json.Marshal.
    destruct (unmarshalIDObject (Some (Event.Data ev))) as [embedded|msg] eqn:Hemb;
      [|left; reflexivity].
    destruct (negb (String.eqb (IDObject_Object embedded) "charge")
              || String.eqb (IDObject_ID embedded) "") eqn:Hcond; [left; reflexivity|].
    set (w1 := {| db := db w; calls := _; logs := logs w |}).
    destruct (reconcile_provenance env (IDObject_ID embedded) w1)
      as [Hcalls [Hsame | (ch & Hgw & Hresp & Hwritten)]]; [now left|].
    right. exists (IDObject_ID embedded), ch.
    split; [|now repeat split].
    rewrite (issued_app _ w
               [operations.OpRetrieveEvent (IDObject_ID envelope);
                operations.OpRetrieveCharge (IDObject_ID embedded)]).
    + right. now left.
    + subst w1. steps. rewrite Hemb, Hcond, Hcalls. simpl. now rewrite <- app_assoc.
  - destruct (String.eqb (IDObject_Object envelope) "charge"); [|now left].
    destruct (reconcile_provenance env (IDObject_ID envelope) w)
      as [Hcalls [Hsame | (ch & Hgw & Hresp & Hwritten)]]; [now left|].
    right. exists (IDObject_ID envelope), ch.
    split; [|now repeat split].
    rewrite (issued_app _ w [operations.OpRetrieveCharge (IDObject_ID envelope)] Hcalls).
    now left.
Qed.

(** C3. Webhook bodies that agree on the members the envelope can read and
    differ in any other member (a status, an amount, a data object) are
    handled identically: same response, same ledger, same gateway calls, same
    log. For [WebhookHandler.HandleWebhook] the envelope is the id; for the
    webhook of the payment handler it is the id and the object discriminator
    that says whether the id names an event or a charge. And whatever the
    body says, the ledger is left alone or receives the row built from the
    charge that the gateway returned to the retrieval the handler issued. *)
Theorem webhook_state_from_gateway_only :
  forall (env : Env) (dbHandler : Charge.t -> M (option string)) (method : string)
         (fields1 fields2 : list (string * Value)) (w : World),
    idFields fields1 = idFields fields2 ->
    let b1 := Some (VObject fields1) in
    let b2 := Some (VObject fields2) in
    WebhookHandler.HandleWebhook env dbHandler {| Method := method; ReadAll := Ok b1 |} w
    = WebhookHandler.HandleWebhook env dbHandler {| Method := method; ReadAll := Ok b2 |} w /\
    (objectFields fields1 = objectFields fields2 ->
     PaymentHandler.HandleWebhook env b1 w = PaymentHandler.HandleWebhook env b2 w) /\
    (transactions (db (snd (PaymentHandler.HandleWebhook env b1 w))) = transactions (db w) \/
     exists cid ch,
       In (operations.OpRetrieveCharge cid)
          (issued (PaymentHandler.HandleWebhook env b1) w) /\
       onRetrieveCharge (gateway env) cid = Ok ch /\
       writtenFrom env ch (db w) (db (snd (PaymentHandler.HandleWebhook env b1 w)))).
Proof.
  intros env dbHandler method fields1 fields2 w Hid b1 b2.
  split; [|split].
  - apply WebhookHandler_HandleWebhook_envelope. now apply unmarshalIDOnly_agree.
  - intros Hobj. apply PaymentHandler_HandleWebhook_envelope.
    now apply unmarshalIDObject_agree.
  - destruct (PaymentHandler_HandleWebhook_provenance env b1 w)
      as [H | (cid & ch & Hin & Hgw & _ & Hw)]; [now left|].
    right. now exists cid, ch.
Qed.

(** A body that claims a failed charge of another amount, and one that
    claims nothing: the settled charge of the gateway is what gets stored. *)
Lemma webhook_state_from_gateway_only_witness :
  let claimed := [("data", VObject [("status", VString "failed");
                                    ("amount", VFloat64 (1 # 1))]);
                  ("status", VString "failed")] in
  let fields1 := [("id", VString "evt_1"); ("object", VString "event")] in
  let fields2 := (fields1 ++ claimed)%list in
  idFields fields1 = idFields fields2 /\
  PaymentHandler.HandleWebhook Sample.settled (Some (VObject fields1)) Sample.wPending
  = PaymentHandler.HandleWebhook Sample.settled (Some (VObject fields2)) Sample.wPending /\
  map Transaction.Status
    (transactions (db (snd (PaymentHandler.HandleWebhook Sample.settled
                              (Some (VObject fields2)) Sample.wPending))))
  = ["successful"].
Proof.
  intros claimed fields1 fields2.
  assert (H : idFields fields1 = idFields fields2) by reflexivity.
  split; [exact H|]. split.
  - exact (proj1 (proj2 (webhook_state_from_gateway_only Sample.settled
                           (paymentUpserter Sample.settled) "POST" fields1 fields2
                           Sample.wPending H)) eq_refl).
  - reflexivity.
Defined.

(** What the retrieval at the end of the webhook answers when the gateway
    refuses it. *)
Lemma reconcile_refused env cid msg w :
  onRetrieveCharge (gateway env) cid = Err msg ->
  fst (PaymentHandler.reconcile env cid w) = respond 500 NoBody /\
  db (snd (PaymentHandler.reconcile env cid w)) = db w.
Proof.
  intros H. unfold PaymentHandler.reconcile, Client.RetrieveCharge.
  steps. rewrite H. steps. split; reflexivity.
Qed.

(** The webhook of the payment handler: when the gateway refuses an operation
    issued while the delivery is processed, the answer is 500 and the
    database is left as it was. *)
Lemma PaymentHandler_HandleWebhook_transient env body w :
  existsb (refused env) (issued (PaymentHandler.HandleWebhook env body) w) = true ->
  fst (PaymentHandler.HandleWebhook env body w) = respond 500 NoBody /\
  db (snd (PaymentHandler.HandleWebhook env body w)) = db w.
Proof.
  unfold PaymentHandler.HandleWebhook. intros Hex.
  destruct (unmarshalIDObject body) as [envelope|msg];
    [|rewrite issued_nothing in Hex by reflexivity; discriminate].
  destruct (String.eqb (IDObject_ID envelope) "");
    [rewrite issued_nothing in Hex by reflexivity; discriminate|].
  destruct (String.eqb (IDObject_Object envelope) "event").
  - unfold Client.RetrieveEvent, json.Marshal in *.
    destruct (onRetrieveEvent (gateway env) (IDObject_ID envelope)) as [ev|msg] eqn:Hev;
      [|steps; split; reflexivity].
    destruct (unmarshalIDObject (Some (Event.Data ev))) as [embedded|msg] eqn:Hemb.
    + destruct (negb (String.eqb (IDObject_Object embedded) "charge")
                || String.eqb (IDObject_ID embedded) "") eqn:Hcond.
      * rewrite (issued_app _ w [operations.OpRetrieveEvent (IDObject_ID envelope)])
          in Hex by (steps; rewrite Hemb, Hcond; reflexivity).
        simpl in Hex. rewrite Hev in Hex. discriminate.
      * set (w1 := {| db := db w;
                      calls := (calls w ++ [operations.OpRetrieveEvent
                                              (IDObject_ID envelope)])%list;
                      logs := logs w |}).
        destruct (reconcile_provenance env (IDObject_ID embedded) w1) as [Hcalls _].
        rewrite (issued_app _ w
                   [operations.OpRetrieveEvent (IDObject_ID envelope);
                    operations.OpRetrieveCharge (IDObject_ID embedded)])
          in Hex
          by (steps; rewrite Hemb, Hcond; fold w1; rewrite Hcalls; subst w1; simpl;
              now rewrite <- app_assoc).
        simpl in Hex. rewrite Hev in Hex. simpl in Hex.
        destruct (onRetrieveCharge (gateway env) (IDObject_ID embedded))
          as [ch|msg] eqn:Hgw; [discriminate|].
        steps. rewrite Hemb, Hcond. fold w1.
        exact (reconcile_refused env _ msg w1 Hgw).
    + rewrite (issued_app _ w [operations.OpRetrieveEvent (IDObject_ID envelope)])
        in Hex by (steps; rewrite Hemb; reflexivity).
      simpl in Hex. rewrite Hev in Hex. discriminate.
  - destruct (String.eqb (IDObject_Object envelope) "charge");
      [|rewrite issued_nothing in Hex by reflexivity; discriminate].
    destruct (reconcile_provenance env (IDObject_ID envelope) w) as [Hcalls _].
    rewrite (issued_app _ w [operations.OpRetrieveCharge (IDObject_ID envelope)] Hcalls)
      in Hex.
    simpl in Hex.
    destruct (onRetrieveCharge (gateway env) (IDObject_ID envelope))
      as [ch|msg] eqn:Hgw; [discriminate|].
    exact (reconcile_refused env _ msg w Hgw).
Qed.

(** C4. [WebhookHandler.HandleWebhook] at two deliveries of the event
    [evt_1] about [chrg_1]. When the gateway refuses the charge retrieval the
    handler has issued both gateway operations, changed nothing and answered
    200; when the gateway refuses the event retrieval it answers 400. Neither
    answer is a server error. *)
Theorem WebhookHandler_acknowledges_gateway_failure :
  forall dbHandler : Charge.t -> M (option string),
  let down := Sample.env (Sample.gw "charge.complete" (Err "gateway timeout")) None None in
  let handle := fun body =>
    WebhookHandler.HandleWebhook down dbHandler (Sample.post body) in
  let unknown := Some (VObject [("id", VString "evt_9")]) in
  (issued (handle (Sample.eventBody [])) Sample.wPending
   = [operations.OpRetrieveEvent "evt_1"; operations.OpRetrieveCharge "chrg_1"] /\
   refused down (operations.OpRetrieveCharge "chrg_1") = true /\
   fst (handle (Sample.eventBody []) Sample.wPending) = respond 200 NoBody /\
   db (snd (handle (Sample.eventBody []) Sample.wPending)) = db Sample.wPending) /\
  (issued (handle unknown) Sample.wPending = [operations.OpRetrieveEvent "evt_9"] /\
   refused down (operations.OpRetrieveEvent "evt_9") = true /\
   fst (handle unknown Sample.wPending) = respond 400 (Text "event verification failed")).
Proof. intros dbHandler. repeat split. Qed.

(** The same two deliveries to the webhook of the payment handler are
    answered 500. *)
Lemma PaymentHandler_HandleWebhook_transient_example :
  let down := Sample.env (Sample.gw "charge.complete" (Err "gateway timeout")) None None in
  let unknown := Some (VObject [("id", VString "evt_9"); ("object", VString "event")]) in
  fst (PaymentHandler.HandleWebhook down (Sample.eventBody []) Sample.wPending)
  = respond 500 NoBody /\
  fst (PaymentHandler.HandleWebhook down unknown Sample.wPending) = respond 500 NoBody.
Proof. split; reflexivity. Qed.

(** ** C5 *)

Arguments unmarshalIDObject : simpl never.
Arguments unmarshalIDOnly : simpl never.

Lemma unmarshalIDObject_IDOnly body e :
  unmarshalIDObject body = Ok e ->
  unmarshalIDOnly body = Ok {| IDOnly_ID := IDObject_ID e |}.
Proof.
  unfold unmarshalIDObject, unmarshalIDOnly.
  destruct body as [[| | | | | |fields]|]; try discriminate.
  - intros H. injection H as <-. reflexivity.
  - destruct (json.stringField "id" fields "" false) as [id bad1].
    destruct (json.stringField "object" fields "" false) as [obj bad2].
    destruct bad1; simpl; [discriminate|].
    destruct bad2; [discriminate|].
    intros H. injection H as <-. reflexivity.
Qed.

(** The webhook of the payment handler does not look at the event key: the
    event [evt_1] under the key [charge.create], whose data is the charge
    [chrg_1], makes it retrieve the charge and write the ledger row. *)
Lemma PaymentHandler_HandleWebhook_processes_unlisted_key :
  ~ ignoresOtherEvents PaymentHandler.HandleWebhook.
Proof.
  intros H.
  pose (env := Sample.env (Sample.gw "charge.create" (Ok (Sample.chrg1 "pending")))
                 None None).
  destruct (H env (Sample.eventBody []) "evt_1"
              {| Event.Key := "charge.create"; Event.Data := Sample.chargeData |}
              Sample.w0 eq_refl ltac:(discriminate) eq_refl
              ltac:(left; reflexivity)) as (_ & _ & Hcalls).
  discriminate Hcalls.
Qed.

(** C5, as the code has it. [WebhookHandler.HandleWebhook] ignores a verified
    event whose key is outside the allow-list or whose data is not
    charge-shaped: it answers 200, leaves the database alone and retrieves no
    charge. The webhook of the payment handler does so for a verified event
    whose data is not charge-shaped; it does not filter on the key. *)
Theorem other_events_ignored :
  (forall dbHandler : Env -> Charge.t -> M (option string),
      ignoresOtherEvents (fun env body =>
        WebhookHandler.HandleWebhook env (dbHandler env)
          {| Method := "POST"; ReadAll := Ok body |})) /\
  (forall (env : Env) (body : option Value) (id : string) (ev : Event.t) (w : World),
      unmarshalIDObject body = Ok {| IDObject_ID := id; IDObject_Object := "event" |} ->
      id <> "" ->
      onRetrieveEvent (gateway env) id = Ok ev ->
      notChargeShaped (Event.Data ev) = true ->
      fst (PaymentHandler.HandleWebhook env body w) = respond 200 NoBody /\
      db (snd (PaymentHandler.HandleWebhook env body w)) = db w /\
      existsb isRetrieveCharge (issued (PaymentHandler.HandleWebhook env body) w) = false).
Proof.
  split.
  - intros dbHandler env body id ev w Hbody Hid Hev Hor.
    apply unmarshalIDObject_IDOnly in Hbody. simpl in Hbody.
    apply String.eqb_neq in Hid.
    assert (Hrun : exists lines,
      WebhookHandler.HandleWebhook env (dbHandler env)
        {| Method := "POST"; ReadAll := Ok body |} w
      = (respond 200 NoBody,
         {| db := db w;
            calls := (calls w ++ [operations.OpRetrieveEvent id])%list;
            logs := (logs w ++ lines)%list |})).
    { unfold WebhookHandler.HandleWebhook, Client.RetrieveEvent, json.Marshal.
      simpl. rewrite Hbody. simpl. rewrite Hid. steps. rewrite Hev. steps.
      destruct (WebhookHandler.isChargeEventKey (Event.Key ev)).
      - destruct Hor as [Hkey | Hdata]; [discriminate|].
        unfold notChargeShaped in Hdata.
        destruct (unmarshalIDObject (Some (Event.Data ev))) as [d|msg].
        + rewrite Hdata. steps. eexists [_]. reflexivity.
        + steps. eexists [_]. reflexivity.
      - exists []. now rewrite app_nil_r. }
    destruct Hrun as [lines Hrun].
    rewrite (issued_app _ w [operations.OpRetrieveEvent id]) by now rewrite Hrun.
    rewrite Hrun. repeat split.
  - intros env body id ev w Hbody Hid Hev Hdata.
    apply String.eqb_neq in Hid.
    assert (Hrun :
      PaymentHandler.HandleWebhook env body w
      = (respond 200 NoBody,
         {| db := db w;
            calls := (calls w ++ [operations.OpRetrieveEvent id])%list;
            logs := logs w |})).
    { unfold PaymentHandler.HandleWebhook, Client.RetrieveEvent, json.Marshal.
      rewrite Hbody. simpl. rewrite Hid. steps. rewrite Hev. steps.
      unfold notChargeShaped in Hdata.
      destruct (unmarshalIDObject (Some (Event.Data ev))) as [d|msg];
        [rewrite Hdata|]; reflexivity. }
    rewrite (issued_app _ w [operations.OpRetrieveEvent id]) by now rewrite Hrun.
    rewrite Hrun. repeat split.
Qed.

(** * Further properties *)

(** ** The ledger write *)

Lemma insertOnConflict_users t' t d : users (insertOnConflict t' t d) = users d.
Proof. unfold insertOnConflict. destruct (existsb _ _); reflexivity. Qed.

Lemma insertOnConflict_other_rows t' t d cid :
  cid <> Transaction.ChargeID t ->
  rowsOf cid (insertOnConflict t' t d) = rowsOf cid d.
Proof.
  intros Hne. unfold rowsOf, insertOnConflict.
  assert (Hnew : hasCharge cid (stamp t' (next_id d) t) = false).
  { unfold hasCharge. simpl. apply String.eqb_neq. congruence. }
  destruct (existsb _ _); simpl.
  - induction (transactions d) as [|r rows IH]; simpl; [reflexivity|].
    destruct (hasCharge (Transaction.ChargeID t) r) eqn:Hr.
    + apply hasCharge_iff in Hr.
      assert (Hc : hasCharge cid r = false).
      { unfold hasCharge. apply String.eqb_neq. congruence. }
      unfold hasCharge at 1. simpl. fold (hasCharge cid r). rewrite Hc. exact IH.
    + destruct (hasCharge cid r); [f_equal|]; exact IH.
  - rewrite List.filter_app. simpl. rewrite Hnew. apply app_nil_r.
Qed.

Lemma insertOnConflict_length t' t d :
  length (transactions (insertOnConflict t' t d))
  = if existsb (hasCharge (Transaction.ChargeID t)) (transactions d)
    then length (transactions d)
    else S (length (transactions d)).
Proof.
  unfold insertOnConflict. destruct (existsb _ _); simpl.
  - apply length_map.
  - rewrite length_app. simpl. lia.
Qed.

(** X1. An upsert leaves the rows of every other charge id exactly as they
    were, and the table grows by at most one row. *)
Theorem upsert_keeps_other_rows :
  forall (env : Env) (ch : Charge.t) (userID : option N) (w : World) (cid : string),
    cid <> Charge.ID ch ->
    let w' := snd (PaymentHandler.upsertTransactionFromCharge env (Some ch) userID w) in
    rowsOf cid (db w') = rowsOf cid (db w) /\
    (length (transactions (db w)) <= length (transactions (db w'))
     <= S (length (transactions (db w))))%nat.
Proof.
  intros env ch userID w cid Hne w'. subst w'.
  destruct (createErr env) as [err|] eqn:He.
  - rewrite (upsert_failed env ch userID err w He). simpl. split; [reflexivity | lia].
  - destruct (upsert_written env ch userID w He) as [_ Ht].
    unfold rowsOf. rewrite Ht. split.
    + now apply (insertOnConflict_other_rows (now env) _ (db w) cid).
    + rewrite insertOnConflict_length. destruct (existsb _ _); lia.
Qed.

(** The settled [chrg_1] arrives in a ledger that also holds [chrg_2]. *)
Lemma upsert_keeps_other_rows_witness :
  let other := {| obsEnv := Sample.settled;
                  obsCharge :=
                    {| Charge.ID := "chrg_2"; Charge.Amount := 700;
                       Charge.Currency := "THB"; Charge.Status := "failed";
                       Charge.FailureCode := Some "insufficient_fund";
                       Charge.FailureMessage := None; Charge.Source := None;
                       Charge.Metadata := None |};
                  obsUser := None |} in
  let w := observe other Sample.wPending in
  let w' := snd (PaymentHandler.upsertTransactionFromCharge Sample.settled
                   (Some (Sample.chrg1 "successful")) None w) in
  "chrg_2" <> Charge.ID (Sample.chrg1 "successful") /\
  rowsOf "chrg_2" (db w') = rowsOf "chrg_2" (db w) /\
  length (rowsOf "chrg_2" (db w')) = 1%nat.
Proof.
  intros other w w'.
  assert (H : "chrg_2" <> Charge.ID (Sample.chrg1 "successful")) by discriminate.
  split; [exact H|]. split.
  - exact (proj1 (upsert_keeps_other_rows Sample.settled (Sample.chrg1 "successful")
                    None w "chrg_2" H)).
  - reflexivity.
Defined.

(** X2. A charge id is created on first observation and updated in place
    thereafter: a written upsert of an id the ledger does not hold appends
    one row with the next surrogate key and both timestamps set to the time
    of the write; a written upsert of an id held by one row keeps that row's
    surrogate key, creation time and deletion mark, sets its update time and
    adds no row. *)
Theorem upsert_creates_then_updates_in_place :
  forall (env : Env) (ch : Charge.t) (userID : option N) (w : World),
    createErr env = None ->
    let w' := snd (PaymentHandler.upsertTransactionFromCharge env (Some ch) userID w) in
    (rowsOf (Charge.ID ch) (db w) = [] ->
     exists r,
       rowsOf (Charge.ID ch) (db w') = [r] /\
       Transaction.ID r = next_id (db w) /\
       Transaction.CreatedAt r = now env /\
       Transaction.UpdatedAt r = now env /\
       length (transactions (db w')) = S (length (transactions (db w)))) /\
    (forall r0,
        rowsOf (Charge.ID ch) (db w) = [r0] ->
        exists r,
          rowsOf (Charge.ID ch) (db w') = [r] /\
          Transaction.ID r = Transaction.ID r0 /\
          Transaction.CreatedAt r = Transaction.CreatedAt r0 /\
          Transaction.DeletedAt r = Transaction.DeletedAt r0 /\
          Transaction.UpdatedAt r = now env /\
          mirrors ch r /\
          length (transactions (db w')) = length (transactions (db w))).
Proof.
  intros env ch userID w He w'. subst w'.
  destruct (upsert_written env ch userID w He) as [_ Ht].
  unfold rowsOf. rewrite Ht.
  set (t := PaymentHandler.transactionOf ch (extractUserIDFromCharge (Some ch) userID)).
  set (row := stamp (now env) (next_id (db w)) t).
  assert (Hkey : hasCharge (Charge.ID ch) row = true).
  { unfold hasCharge. simpl. apply String.eqb_refl. }
  assert (Hex : forall rows,
             existsb (hasCharge (Charge.ID ch)) rows = true <->
             List.filter (hasCharge (Charge.ID ch)) rows <> []).
  { induction rows as [|r rows IH]; simpl; [split; [discriminate | congruence]|].
    destruct (hasCharge _ r); simpl; [split; [discriminate | reflexivity] | exact IH]. }
  rewrite insertOnConflict_length. unfold insertOnConflict. fold row.
  change (Transaction.ChargeID t) with (Charge.ID ch).
  split.
  - intros Hnone.
    assert (Hno : existsb (hasCharge (Charge.ID ch)) (transactions (db w)) = false).
    { destruct (existsb _ _) eqn:E; [|reflexivity].
      apply Hex in E. contradiction. }
    exists row. rewrite Hno. cbn [transactions].
    rewrite List.filter_app, Hnone. cbn [List.filter app]. rewrite Hkey.
    repeat split.
  - intros r0 Hone.
    assert (Hyes : existsb (hasCharge (Charge.ID ch)) (transactions (db w)) = true).
    { apply Hex. rewrite Hone. discriminate. }
    exists (assignColumns row r0). rewrite Hyes. cbn [transactions].
    assert (Hf : forall rows,
               List.filter (hasCharge (Charge.ID ch))
                 (map (fun r => if hasCharge (Charge.ID ch) r
                                then assignColumns row r else r) rows)
               = map (assignColumns row) (List.filter (hasCharge (Charge.ID ch)) rows)).
    { induction rows as [|r rows IH]; simpl; [reflexivity|].
      destruct (hasCharge _ r) eqn:Hr; simpl.
      - unfold hasCharge at 1. simpl. fold (hasCharge (Charge.ID ch) r).
        rewrite Hr. simpl. now rewrite IH.
      - rewrite Hr. exact IH. }
    rewrite Hf, Hone. simpl. repeat split.
Qed.

(** [chrg_1] is first stored pending, then rewritten at a later time. *)
Lemma upsert_creates_then_updates_in_place_witness :
  let later := {| gateway := gateway Sample.settled; now := 2000;
                  createErr := None; updateErr := None |} in
  let w' := snd (PaymentHandler.upsertTransactionFromCharge later
                   (Some (Sample.chrg1 "successful")) None Sample.wPending) in
  createErr later = None /\
  map (fun r => (Transaction.ID r, Transaction.CreatedAt r, Transaction.UpdatedAt r,
                 Transaction.Status r))
      (transactions (db w'))
  = [(1%N, 1000, 2000, "successful")].
Proof.
  intros later w'.
  pose proof (upsert_creates_then_updates_in_place later (Sample.chrg1 "successful")
                None Sample.wPending eq_refl) as [_ H].
  split; [reflexivity|].
  destruct (H _ eq_refl) as (r & Hr & _). clear H Hr.
  reflexivity.
Defined.

(** ** The balance credit *)

Lemma balanceOf_addBalance uid q d u :
  balanceOf u (addBalance uid q d)
  = if N.eqb u uid then option_map (fun b => (b + q)%Q) (balanceOf u d)
    else balanceOf u d.
Proof.
  unfold balanceOf, addBalance. simpl.
  induction (users d) as [|x xs IH]; simpl.
  - destruct (N.eqb u uid); reflexivity.
  - destruct (N.eqb (User.ID x) uid) eqn:Hx; simpl.
    + destruct (N.eqb (User.ID x) u) eqn:Hu; simpl.
      * apply N.eqb_eq in Hx, Hu. subst. now rewrite N.eqb_refl.
      * exact IH.
    + destruct (N.eqb (User.ID x) u) eqn:Hu; simpl; [|exact IH].
      apply N.eqb_eq in Hu. subst u. now rewrite Hx.
Qed.

Lemma addBalance_user_ids uid q d :
  map User.ID (users (addBalance uid q d)) = map User.ID (users d).
Proof.
  unfold addBalance. cbn [users]. rewrite map_map. apply map_ext.
  intros u. destruct (N.eqb (User.ID u) uid); reflexivity.
Qed.

(** X3. A written upsert of a successful snapshot credits the resolved user
    and nobody else. When that user exists, the balance update succeeds and
    the amount is one whose hundredth is computed without rounding (a
    multiple of 25 of magnitude at most 2^53), the upsert returns [nil], the
    user's balance grows by a hundredth of the amount, every other balance
    is as before, and the table of users holds the same users in the same
    order. *)
Theorem credit_reaches_one_user :
  forall (env : Env) (ch : Charge.t) (userID : option N) (uid : N) (w : World) (b : Q),
    Charge.Status ch = "successful" ->
    extractUserIDFromCharge (Some ch) userID = Some uid ->
    createErr env = None ->
    updateErr env = None ->
    balanceOf uid (db w) = Some b ->
    hundredthIsExact (Charge.Amount ch) = true ->
    let r := PaymentHandler.upsertTransactionFromCharge env (Some ch) userID w in
    fst r = None /\
    balanceOf uid (db (snd r)) = Some (b + inject_Z (Charge.Amount ch) / 100)%Q /\
    (forall u, u <> uid -> balanceOf u (db (snd r)) = balanceOf u (db w)) /\
    map User.ID (users (db (snd r))) = map User.ID (users (db w)).
Proof.
  intros env ch userID uid w b Hs Hu Hc He Hb _ r. subst r.
  pose proof (upsert_credits_whenever_successful env ch userID uid w Hs Hu Hc He) as Hus.
  assert (Hbal : forall u,
             balanceOf u (db (snd (PaymentHandler.upsertTransactionFromCharge
                                     env (Some ch) userID w)))
             = if N.eqb u uid
               then option_map (fun x => (x + inject_Z (Charge.Amount ch) / 100)%Q)
                      (balanceOf u (db w))
               else balanceOf u (db w)).
  { intros u. unfold balanceOf at 1. rewrite Hus.
    apply (balanceOf_addBalance uid _ (db w) u). }
  split; [exact (proj1 (upsert_written env ch userID w Hc))|].
  split; [|split].
  - rewrite Hbal, N.eqb_refl, Hb. reflexivity.
  - intros u Hne. rewrite Hbal. apply N.eqb_neq in Hne. now rewrite Hne.
  - rewrite Hus. apply addBalance_user_ids.
Qed.

(** The settled [chrg_1] (5000 satang) credits user 1 with 50 and leaves
    user 2 alone. *)
Lemma credit_reaches_one_user_witness :
  let w := {| db := {| transactions := [];
                       users := [Sample.user1; {| User.ID := 2%N; User.Balance := 7%Q |}];
                       next_id := 1%N |};
              calls := []; logs := [] |} in
  let r := PaymentHandler.upsertTransactionFromCharge Sample.settled
             (Some (Sample.chrg1 "successful")) None w in
  hundredthIsExact (Charge.Amount (Sample.chrg1 "successful")) = true /\
  fst r = None /\
  (exists b, balanceOf 1 (db (snd r)) = Some b /\ (b == 50)%Q) /\
  balanceOf 2 (db (snd r)) = Some 7%Q /\
  map User.ID (users (db (snd r))) = [1%N; 2%N].
Proof.
  intros w r.
  assert (Hexact : hundredthIsExact (Charge.Amount (Sample.chrg1 "successful")) = true)
    by reflexivity.
  assert (Hb : balanceOf 1 (db w) = Some (User.Balance Sample.user1)) by reflexivity.
  assert (Hne : 2%N <> 1%N) by discriminate.
  pose proof (credit_reaches_one_user Sample.settled (Sample.chrg1 "successful") None
                1%N w _ eq_refl eq_refl eq_refl eq_refl Hb Hexact)
    as (Hnil & Hone & Hothers & Hids).
  subst r.
  split; [exact Hexact|]. split; [exact Hnil|]. split; [|split].
  - eexists. split; [exact Hone|]. reflexivity.
  - rewrite (Hothers 2%N Hne). reflexivity.
  - rewrite Hids. reflexivity.
Defined.

(** X4. An upsert changes no balance unless the snapshot's status is
    "successful" and a user is resolved, whatever the storage layer does. *)
Theorem no_credit_unless_successful_and_resolved :
  forall (env : Env) (ch : Charge.t) (userID : option N) (w : World),
    Charge.Status ch <> "successful"
    \/ extractUserIDFromCharge (Some ch) userID = None ->
    users (db (snd (PaymentHandler.upsertTransactionFromCharge env (Some ch) userID w)))
    = users (db w).
Proof.
  intros env ch userID w Hor.
  unfold PaymentHandler.upsertTransactionFromCharge.
  destruct (createErr env); [reflexivity|].
  destruct Hor as [Hs | Hu].
  - apply String.eqb_neq in Hs. rewrite Hs. simpl. apply insertOnConflict_users.
  - rewrite Hu. destruct (String.eqb _ _); simpl; apply insertOnConflict_users.
Qed.

(** A failed charge of user 1, and a settled charge nobody is known for. *)
Lemma no_credit_unless_successful_and_resolved_witness :
  let anonymous :=
    {| Charge.ID := "chrg_3"; Charge.Amount := 900; Charge.Currency := "THB";
       Charge.Status := "successful"; Charge.FailureCode := None;
       Charge.FailureMessage := None; Charge.Source := None;
       Charge.Metadata := Some {[ "user_id" := VString "not a number" ]} |} in
  users (db (snd (PaymentHandler.upsertTransactionFromCharge Sample.settled
                    (Some (Sample.chrg1 "failed")) None Sample.w0)))
  = [Sample.user1] /\
  users (db (snd (PaymentHandler.upsertTransactionFromCharge Sample.settled
                    (Some anonymous) None Sample.w0)))
  = [Sample.user1].
Proof.
  intros anonymous.
  assert (H : extractUserIDFromCharge (Some anonymous) None = None)
    by (vm_compute; reflexivity).
  assert (H0 : Charge.Status (Sample.chrg1 "failed") <> "successful") by discriminate.
  pose proof (no_credit_unless_successful_and_resolved Sample.settled
                (Sample.chrg1 "failed") None Sample.w0 (or_introl H0)) as H1.
  pose proof (no_credit_unless_successful_and_resolved Sample.settled anonymous None
                Sample.w0 (or_intror H)) as H2.
  split; [exact H1 | exact H2].
Defined.

(** X5. The user reference of the row is rewritten by every written upsert:
    it becomes the user resolved for this snapshot. A webhook, which knows
    no user beforehand, therefore clears the reference of a row whose charge
    carries no metadata, whoever the row belonged to. *)
Theorem upsert_rewrites_user_reference :
  forall (env : Env) (ch : Charge.t) (userID : option N) (w : World),
    List.NoDup (chargeIDs (db w)) ->
    createErr env = None ->
    exists r,
      rowsOf (Charge.ID ch)
        (db (snd (PaymentHandler.upsertTransactionFromCharge env (Some ch) userID w)))
      = [r] /\
      Transaction.UserID r = extractUserIDFromCharge (Some ch) userID /\
      (userID = None -> Charge.Metadata ch = None -> Transaction.UserID r = None).
Proof.
  intros env ch userID w Hnd He.
  destruct (upsert_row env ch userID w Hnd He) as (r & Hr & _ & Hu).
  exists r. split; [exact Hr|]. split; [exact Hu|].
  intros -> Hm. rewrite Hu. unfold extractUserIDFromCharge. now rewrite Hm.
Qed.

(** A charge made for the user of the [X-User-ID] header, then the webhook
    for it: the row loses its user. *)
Lemma upsert_rewrites_user_reference_witness :
  let c := {| BodyParser := Ok (Sample.request "promptpay" "" "" None);
              HeaderXUserID := "7"; QueryUserID := "" |} in
  let w1 := snd (PaymentHandler.CreateCharge Sample.settled c Sample.w0) in
  let ch := {| Charge.ID := "chrg_1"; Charge.Amount := 10000; Charge.Currency := "THB";
               Charge.Status := "successful"; Charge.FailureCode := None;
               Charge.FailureMessage := None; Charge.Source := None;
               Charge.Metadata := None |} in
  let w2 := snd (PaymentHandler.upsertTransactionFromCharge Sample.settled
                   (Some ch) None w1) in
  List.NoDup (chargeIDs (db w1)) /\
  map Transaction.UserID (transactions (db w1)) = [Some 7%N] /\
  map Transaction.UserID (transactions (db w2)) = [None].
Proof.
  intros c w1 ch w2.
  assert (Hnd : List.NoDup (chargeIDs (db w1))).
  { repeat constructor. simpl. tauto. }
  destruct (upsert_rewrites_user_reference Sample.settled ch None w1 Hnd eq_refl)
    as (r & Hr & _ & Hnone).
  split; [exact Hnd|]. split; reflexivity.
Defined.

(** ** The processors *)

Lemma createCharge_addCalls env op w :
  PaymentHandler.createCharge env op w
  = (onCreateCharge (gateway env) op, addCalls w [operations.OpCreateCharge op]).
Proof. apply createCharge_run. Qed.

Lemma addCalls_addCalls w ops1 ops2 :
  addCalls (addCalls w ops1) ops2 = addCalls w (ops1 ++ ops2).
Proof. unfold addCalls. simpl. now rewrite <- app_assoc. Qed.

Lemma source_run env src w (k : result Source.t -> M (result Charge.t)) :
  bind (Client.CreateSource env src) k w
  = k (onCreateSource (gateway env) src) (addCalls w [operations.OpCreateSource src]).
Proof. unfold Client.CreateSource. steps. reflexivity. Qed.

Lemma token_run env tok w (k : result Token.t -> M (result Charge.t)) :
  bind (Client.CreateToken env tok) k w
  = k (onCreateToken (gateway env) tok) (addCalls w [operations.OpCreateToken tok]).
Proof. unfold Client.CreateToken. steps. reflexivity. Qed.

Lemma source_processors_protocol :
  forall (env : Env) (req : PaymentRequest.t) (w : World),
    PaymentHandler.processPromptPay env req w
    = match onCreateSource (gateway env) (promptPaySource req) with
      | Err msg =>
          (Err ("failed to create promptpay source: " ++ msg),
           addCalls w [operations.OpCreateSource (promptPaySource req)])
      | Ok src =>
          (onCreateCharge (gateway env) (chargeFrom req "" (Source.ID src) ""),
           addCalls w [operations.OpCreateSource (promptPaySource req);
                       operations.OpCreateCharge (chargeFrom req "" (Source.ID src) "")])
      end /\
    (PaymentRequest.Bank req <> "" -> PaymentRequest.ReturnURI req <> "" ->
     PaymentHandler.processInternetBanking env req w
     = match onCreateSource (gateway env) (bankingSource req) with
       | Err msg =>
           (Err ("failed to create internet banking source: " ++ msg),
            addCalls w [operations.OpCreateSource (bankingSource req)])
       | Ok src =>
           let op := chargeFrom req "" (Source.ID src) (PaymentRequest.ReturnURI req) in
           (onCreateCharge (gateway env) op,
            addCalls w [operations.OpCreateSource (bankingSource req);
                        operations.OpCreateCharge op])
       end).
Proof.
  intros env req w. split.
  - unfold PaymentHandler.processPromptPay. fold (promptPaySource req).
    rewrite source_run.
    destruct (onCreateSource (gateway env) (promptPaySource req)) as [src|msg];
      [|reflexivity].
    fold (chargeFrom req "" (Source.ID src) "").
    now rewrite createCharge_addCalls, addCalls_addCalls.
  - intros Hb Hr. apply String.eqb_neq in Hb, Hr.
    unfold PaymentHandler.processInternetBanking. rewrite Hb, Hr.
    fold (bankingSource req). rewrite source_run.
    destruct (onCreateSource (gateway env) (bankingSource req)) as [src|msg];
      [|reflexivity].
    fold (chargeFrom req "" (Source.ID src) (PaymentRequest.ReturnURI req)).
    now rewrite createCharge_addCalls, addCalls_addCalls.
Qed.

(** X6. The two source-based methods follow one protocol. promptpay sends one
    CreateSource of type promptpay with the request's amount and currency;
    internet_banking, once bank and return address are present, sends one of
    type internet_banking_<bank>. If the gateway refuses the source, the
    error is wrapped and no charge is sent; otherwise exactly one CreateCharge
    follows, for the same amount and currency, from the id of the returned
    source (with the return address for internet_banking, without for
    promptpay), and its answer is the result. Nothing else is sent, and
    neither the database nor the log is touched. *)
Theorem source_then_charge :
  forall (env : Env) (req : PaymentRequest.t) (w : World),
    PaymentHandler.processPromptPay env req w
    = match onCreateSource (gateway env) (promptPaySource req) with
      | Err msg =>
          (Err ("failed to create promptpay source: " ++ msg),
           addCalls w [operations.OpCreateSource (promptPaySource req)])
      | Ok src =>
          (onCreateCharge (gateway env) (chargeFrom req "" (Source.ID src) ""),
           addCalls w [operations.OpCreateSource (promptPaySource req);
                       operations.OpCreateCharge (chargeFrom req "" (Source.ID src) "")])
      end /\
    (PaymentRequest.Bank req <> "" -> PaymentRequest.ReturnURI req <> "" ->
     PaymentHandler.processInternetBanking env req w
     = match onCreateSource (gateway env) (bankingSource req) with
       | Err msg =>
           (Err ("failed to create internet banking source: " ++ msg),
            addCalls w [operations.OpCreateSource (bankingSource req)])
       | Ok src =>
           let op := chargeFrom req "" (Source.ID src) (PaymentRequest.ReturnURI req) in
           (onCreateCharge (gateway env) op,
            addCalls w [operations.OpCreateSource (bankingSource req);
                        operations.OpCreateCharge op])
       end).
Proof. exact source_processors_protocol. Qed.

Lemma card_token_protocol :
  forall (env : Env) (req : PaymentRequest.t) (w : World),
    PaymentRequest.Token req <> "" ->
    let op := chargeFrom req (PaymentRequest.Token req) ""
                (PaymentRequest.ReturnURI req) in
    PaymentHandler.processCreditCard env req w
    = (onCreateCharge (gateway env) op, addCalls w [operations.OpCreateCharge op]).
Proof.
  intros env req w Ht op. apply String.eqb_neq in Ht.
  unfold PaymentHandler.processCreditCard. rewrite Ht. simpl.
  apply createCharge_addCalls.
Qed.

(** X7. A card request that carries a token sends exactly one operation, the
    charge on that token; the raw card fields of the request, if any, are
    neither read nor sent, and no token is created. *)
Theorem card_token_is_charged_directly :
  forall (env : Env) (req : PaymentRequest.t) (w : World),
    PaymentRequest.Token req <> "" ->
    let op := chargeFrom req (PaymentRequest.Token req) ""
                (PaymentRequest.ReturnURI req) in
    PaymentHandler.processCreditCard env req w
    = (onCreateCharge (gateway env) op, addCalls w [operations.OpCreateCharge op]).
Proof. exact card_token_protocol. Qed.

(** A tokenized card payment of user 7. *)
Lemma card_token_is_charged_directly_witness :
  let req := Sample.request "credit_card" "" "" (Some 7%N) in
  PaymentRequest.Token req <> "" /\
  issued (PaymentHandler.processCreditCard Sample.settled req) Sample.w0
  = [operations.OpCreateCharge
       (chargeFrom req "tokn_test" "" "")].
Proof.
  intros req.
  assert (H : PaymentRequest.Token req <> "") by discriminate.
  split; [exact H|].
  pose proof (card_token_is_charged_directly Sample.settled req Sample.w0 H) as Hrun.
  apply issued_app. now rewrite Hrun.
Defined.

Lemma card_fallback_protocol :
  forall (env : Env) (req : PaymentRequest.t) (w : World),
    PaymentRequest.Token req = "" ->
    PaymentHandler.processCreditCard env req w
    = match PaymentRequest.Card req with
      | None => (Err "missing token; either provide token or card for tokenization", w)
      | Some _ =>
          match cardFields req with
          | Err e => (Err e, w)
          | Ok (month, year, code) =>
              let tok := tokenFrom req month year code in
              match onCreateToken (gateway env) tok with
              | Err msg =>
                  (Err ("failed to create token: " ++ msg),
                   addCalls w [operations.OpCreateToken tok])
              | Ok t =>
                  let op := chargeFrom req (Token.ID t) ""
                              (PaymentRequest.ReturnURI req) in
                  (onCreateCharge (gateway env) op,
                   addCalls w [operations.OpCreateToken tok;
                               operations.OpCreateCharge op])
              end
          end
      end.
Proof.
  intros env req w Ht.
  unfold PaymentHandler.processCreditCard, cardFields. rewrite Ht. simpl.
  destruct (PaymentRequest.Card req) as [card|] eqn:Hc; [|reflexivity].
  destruct (cardInt "expiration_month" _) as [month|e]; [|reflexivity].
  destruct (cardInt "expiration_year" _) as [year|e]; [|reflexivity].
  destruct (cardCode _) as [code|e]; [|reflexivity].
  assert (Htok : tokenFrom req month year code
                 = {| operations.Name := asString (mapIndex (Some card) "name");
                      operations.Number := asString (mapIndex (Some card) "number");
                      operations.ExpirationMonth := month;
                      operations.ExpirationYear := year;
                      operations.SecurityCode := code |}).
  { unfold tokenFrom. now rewrite Hc. }
  rewrite <- Htok. rewrite token_run.
  destruct (onCreateToken (gateway env) (tokenFrom req month year code)) as [t|msg];
    [|reflexivity].
  fold (chargeFrom req (Token.ID t) "" (PaymentRequest.ReturnURI req)).
  now rewrite createCharge_addCalls, addCalls_addCalls.
Qed.

(** X8. The tokenization fallback of a card request without a token reads
    the card before it talks to the gateway: with no card, or an expiry
    month, expiry year or security code that cannot be read, the processor
    returns the error of the first such field and sends nothing. With a
    readable card it sends one CreateToken; if that fails the error is
    wrapped and no charge is sent, otherwise one CreateCharge on the returned
    token id follows. *)
Theorem card_fallback_validates_then_tokenizes :
  forall (env : Env) (req : PaymentRequest.t) (w : World),
    PaymentRequest.Token req = "" ->
    PaymentHandler.processCreditCard env req w
    = match PaymentRequest.Card req with
      | None => (Err "missing token; either provide token or card for tokenization", w)
      | Some _ =>
          match cardFields req with
          | Err e => (Err e, w)
          | Ok (month, year, code) =>
              let tok := tokenFrom req month year code in
              match onCreateToken (gateway env) tok with
              | Err msg =>
                  (Err ("failed to create token: " ++ msg),
                   addCalls w [operations.OpCreateToken tok])
              | Ok t =>
                  let op := chargeFrom req (Token.ID t) ""
                              (PaymentRequest.ReturnURI req) in
                  (onCreateCharge (gateway env) op,
                   addCalls w [operations.OpCreateToken tok;
                               operations.OpCreateCharge op])
              end
          end
      end.
Proof. exact card_fallback_protocol. Qed.

(** A card whose expiry year is not a number: nothing reaches the gateway. *)
Lemma card_fallback_validates_then_tokenizes_witness :
  let req :=
    {| PaymentRequest.Amount := 10000; PaymentRequest.Currency := "THB";
       PaymentRequest.PaymentType := "credit_card"; PaymentRequest.Token := "";
       PaymentRequest.ReturnURI := ""; PaymentRequest.Description := "";
       PaymentRequest.Metadata := None;
       PaymentRequest.Card :=
         Some (<["expiration_month" := VFloat64 (12 # 1)]>
                 (<["expiration_year" := VString "twenty"]> ∅));
       PaymentRequest.Bank := ""; PaymentRequest.UserID := None |} in
  PaymentRequest.Token req = "" /\
  PaymentHandler.processCreditCard Sample.settled req Sample.w0
  = (Err "invalid expiration_year: twenty", Sample.w0).
Proof.
  intros req.
  assert (H : PaymentRequest.Token req = "") by reflexivity.
  split; [exact H|].
  pose proof (card_fallback_validates_then_tokenizes Sample.settled req Sample.w0 H)
    as Hrun.
  rewrite Hrun. vm_compute. reflexivity.
Defined.

(** ** C8: the user id on the way to the gateway and back *)

Lemma submits_run env (process : M (result Charge.t)) w pre op :
  process w = (onCreateCharge (gateway env) op,
               addCalls w (pre ++ [operations.OpCreateCharge op])) ->
  submits env process w pre op.
Proof.
  intros H. unfold submits. split.
  - apply issued_app. rewrite H. reflexivity.
  - rewrite H. reflexivity.
Qed.

Lemma chargeFrom_carries req uid card source returnURI :
  PaymentRequest.UserID req = Some uid ->
  carriesUserID uid (chargeFrom req card source returnURI).
Proof. intros H. unfold chargeFrom. now apply attachUserID_carries. Qed.

Lemma carried_user_is_resolved uid op charge :
  carriesUserID uid op ->
  Charge.Metadata charge = operations.Metadata op ->
  (uid < 2 ^ 32)%N ->
  extractUserIDFromCharge (Some charge) None = Some uid.
Proof.
  intros Hcar Hecho Hfit. unfold carriesUserID in Hcar.
  unfold extractUserIDFromCharge. rewrite Hecho.
  destruct (operations.Metadata op) as [g|] eqn:Hm; [|discriminate Hcar].
  rewrite Hcar, (ParseUint_FormatUint uid 32 Hfit). reflexivity.
Qed.

(** C8, as the claim states it, fails for a user id that does not fit 32
    bits. User 4294967296 pays by promptpay: the charge operation sent after
    the source carries ["user_id" = "4294967296"], the gateway answers with a
    charge that echoes the metadata, and no user is resolved from that
    charge. *)
Lemma user_id_beyond_32_bits_is_not_recovered :
  let uid := 4294967296%N in
  let req := Sample.request "promptpay" "" "" (Some uid) in
  let process := PaymentHandler.processPromptPay Sample.settled req in
  exists op charge,
    issued process Sample.w0
    = [operations.OpCreateSource (promptPaySource req);
       operations.OpCreateCharge op] /\
    mapGet (operations.Metadata op) "user_id" = Some (VString "4294967296") /\
    fst (process Sample.w0) = Ok charge /\
    Charge.Metadata charge = operations.Metadata op /\
    extractUserIDFromCharge (Some charge) None = None /\
    extractUserIDFromCharge (Some charge) None <> Some uid.
Proof.
  intros uid req process.
  destruct (process Sample.w0) as [r w1] eqn:Hp.
  vm_compute in Hp. injection Hp as <- <-.
  eexists _, _. split; [vm_compute; reflexivity|].
  split; [vm_compute; reflexivity|].
  split; [reflexivity|].
  split; [reflexivity|].
  split; [vm_compute; reflexivity | vm_compute; discriminate].
Qed.

(** C8, as the code has it. When the request carries a user id, each of the
    three processors hands the gateway a charge operation whose metadata
    holds the id, in decimal, under the key user_id: promptpay and
    internet_banking once the gateway has created the source (and, for
    internet_banking, bank and return address are given), the card path at
    once when the request has a token, and otherwise once the card is read
    and the gateway has created the token. That operation is the last one
    sent and its answer is the processor's result. No processor sends a
    charge operation without the id, and a charge it returns is the
    gateway's answer to an operation with the id. Reconciliation recovers
    an id below 2^32 from a charge that echoes the metadata: it is the user
    resolved from the charge alone, and the user of the row that a written
    upsert of the charge leaves. *)
Theorem user_id_attached_before_submission :
  forall (env : Env) (req : PaymentRequest.t) (uid : N) (w : World),
    PaymentRequest.UserID req = Some uid ->
    (forall src,
        onCreateSource (gateway env) (promptPaySource req) = Ok src ->
        let op := chargeFrom req "" (Source.ID src) "" in
        carriesUserID uid op /\
        submits env (PaymentHandler.processPromptPay env req) w
          [operations.OpCreateSource (promptPaySource req)] op) /\
    (forall src,
        PaymentRequest.Bank req <> "" ->
        PaymentRequest.ReturnURI req <> "" ->
        onCreateSource (gateway env) (bankingSource req) = Ok src ->
        let op := chargeFrom req "" (Source.ID src) (PaymentRequest.ReturnURI req) in
        carriesUserID uid op /\
        submits env (PaymentHandler.processInternetBanking env req) w
          [operations.OpCreateSource (bankingSource req)] op) /\
    (PaymentRequest.Token req <> "" ->
     let op := chargeFrom req (PaymentRequest.Token req) ""
                 (PaymentRequest.ReturnURI req) in
     carriesUserID uid op /\
     submits env (PaymentHandler.processCreditCard env req) w [] op) /\
    (forall month year code tok,
        PaymentRequest.Token req = "" ->
        PaymentRequest.Card req <> None ->
        cardFields req = Ok (month, year, code) ->
        onCreateToken (gateway env) (tokenFrom req month year code) = Ok tok ->
        let op := chargeFrom req (Token.ID tok) "" (PaymentRequest.ReturnURI req) in
        carriesUserID uid op /\
        submits env (PaymentHandler.processCreditCard env req) w
          [operations.OpCreateToken (tokenFrom req month year code)] op) /\
    (forall process,
        In process [PaymentHandler.processCreditCard env req;
                    PaymentHandler.processPromptPay env req;
                    PaymentHandler.processInternetBanking env req] ->
        (forall op, In (operations.OpCreateCharge op) (issued process w) ->
                    carriesUserID uid op) /\
        (forall charge,
            fst (process w) = Ok charge ->
            exists op,
              In (operations.OpCreateCharge op) (issued process w) /\
              onCreateCharge (gateway env) op = Ok charge /\
              carriesUserID uid op)) /\
    (forall op charge,
        carriesUserID uid op ->
        Charge.Metadata charge = operations.Metadata op ->
        (uid < 2 ^ 32)%N ->
        extractUserIDFromCharge (Some charge) None = Some uid /\
        (forall env' w',
            List.NoDup (chargeIDs (db w')) ->
            createErr env' = None ->
            exists r,
              rowsOf (Charge.ID charge)
                (db (snd (PaymentHandler.upsertTransactionFromCharge env'
                            (Some charge) None w')))
              = [r] /\
              Transaction.UserID r = Some uid)).
Proof.
  intros env req uid w Huid.
  destruct (source_processors_protocol env req w) as [Hpp Hib].
  split; [|split; [|split; [|split; [|split]]]].
  - intros src Hsrc op. rewrite Hsrc in Hpp.
    split; [now apply chargeFrom_carries|].
    apply (submits_run env _ w [operations.OpCreateSource (promptPaySource req)] op).
    exact Hpp.
  - intros src Hbank Huri Hsrc op. specialize (Hib Hbank Huri). rewrite Hsrc in Hib.
    split; [now apply chargeFrom_carries|].
    apply (submits_run env _ w [operations.OpCreateSource (bankingSource req)] op).
    exact Hib.
  - intros Htok op.
    split; [now apply chargeFrom_carries|].
    apply (submits_run env _ w [] op).
    exact (card_token_protocol env req w Htok).
  - intros month year code tok Htok Hcard Hfields Hgw op.
    split; [now apply chargeFrom_carries|].
    apply (submits_run env _ w
             [operations.OpCreateToken (tokenFrom req month year code)] op).
    rewrite (card_fallback_protocol env req w Htok).
    destruct (PaymentRequest.Card req) as [card|]; [|contradiction].
    rewrite Hfields. cbv zeta. rewrite Hgw. reflexivity.
  - intros process Hin.
    assert (Hatt : attaches env uid process w).
    { destruct Hin as [<- | [<- | [<- | []]]].
      - now apply processCreditCard_attaches.
      - now apply processPromptPay_attaches.
      - now apply processInternetBanking_attaches. }
    destruct Hatt as [(msg & Herr & Hnone) | (pre & op & Hiss & Hpre & Hcar & Hres)].
    + split.
      * intros op Hop. exfalso. exact (Hnone op Hop).
      * intros charge Hok. rewrite Herr in Hok. discriminate Hok.
    + split.
      * intros op' Hop. rewrite Hiss in Hop. apply in_app_or in Hop.
        destruct Hop as [Hop | [Hop | []]]; [exfalso; exact (Hpre op' Hop)|].
        injection Hop as <-. exact Hcar.
      * intros charge Hok. exists op. rewrite Hiss.
        split; [apply in_or_app; right; now left|].
        split; [now rewrite <- Hres | exact Hcar].
  - intros op charge Hcar Hecho Hfit.
    pose proof (carried_user_is_resolved uid op charge Hcar Hecho Hfit) as Hres.
    split; [exact Hres|].
    intros env' w' Hnd Hc.
    destruct (upsert_row env' charge None w' Hnd Hc) as (r & Hrows & _ & Hu).
    exists r. split; [exact Hrows | now rewrite Hu].
Qed.

(** User 7 pays on each path: by promptpay, by internet banking, by card
    with a token, and by card through the tokenization fallback. Each time
    the last operation sent is the charge with ["user_id" = "7"], and user 7
    is resolved from the charge the gateway returns. *)
Lemma user_id_attached_before_submission_witness :
  let req := Sample.request "internet_banking" "bbl" "https://shop.example/return"
               (Some 7%N) in
  let card :=
    {| PaymentRequest.Amount := 10000; PaymentRequest.Currency := "THB";
       PaymentRequest.PaymentType := "credit_card"; PaymentRequest.Token := "";
       PaymentRequest.ReturnURI := ""; PaymentRequest.Description := "";
       PaymentRequest.Metadata := None;
       PaymentRequest.Card :=
         Some (<["expiration_month" := VFloat64 (12 # 1)]>
                 (<["expiration_year" := VString "2030"]>
                    (<["security_code" := VString "123"]> ∅)));
       PaymentRequest.Bank := ""; PaymentRequest.UserID := Some 7%N |} in
  let recovered (process : M (result Charge.t)) :=
    exists pre op charge,
      issued process Sample.w0 = (pre ++ [operations.OpCreateCharge op])%list /\
      mapGet (operations.Metadata op) "user_id" = Some (VString "7") /\
      fst (process Sample.w0) = Ok charge /\
      extractUserIDFromCharge (Some charge) None = Some 7%N in
  recovered (PaymentHandler.processPromptPay Sample.settled req) /\
  recovered (PaymentHandler.processInternetBanking Sample.settled req) /\
  recovered (PaymentHandler.processCreditCard Sample.settled req) /\
  recovered (PaymentHandler.processCreditCard Sample.settled card).
Proof.
  intros req card recovered.
  assert (Hreq : PaymentRequest.UserID req = Some 7%N) by reflexivity.
  assert (Hcard : PaymentRequest.UserID card = Some 7%N) by reflexivity.
  assert (Hfit : (7 < 2 ^ 32)%N) by reflexivity.
  pose proof (user_id_attached_before_submission Sample.settled req 7%N Sample.w0 Hreq)
    as (Hpp & Hib & Htok & _ & _ & Hrec).
  pose proof (user_id_attached_before_submission Sample.settled card 7%N Sample.w0 Hcard)
    as (_ & _ & _ & Hfall & _ & _).
  assert (Hbank : PaymentRequest.Bank req <> "") by discriminate.
  assert (Huri : PaymentRequest.ReturnURI req <> "") by discriminate.
  assert (Ht : PaymentRequest.Token req <> "") by discriminate.
  assert (Hnt : PaymentRequest.Token card = "") by reflexivity.
  assert (Hc : PaymentRequest.Card card <> None) by discriminate.
  assert (Hfields : cardFields card = Ok (12, 2030, "123")) by (vm_compute; reflexivity).
  specialize (Hpp _ eq_refl). specialize (Hib _ Hbank Huri eq_refl).
  specialize (Htok Ht). specialize (Hfall _ _ _ _ Hnt Hc Hfields eq_refl).
  cbv zeta in Hpp, Hib, Htok, Hfall.
  assert (Hgo : forall process pre op,
             carriesUserID 7 op /\ submits Sample.settled process Sample.w0 pre op ->
             recovered process).
  { intros process pre op (Hcar & Hiss & Hres).
    destruct (onCreateCharge (gateway Sample.settled) op) as [charge|msg] eqn:Hgw;
      [|discriminate Hgw].
    exists pre, op, charge. split; [exact Hiss|]. split; [exact Hcar|].
    split; [exact Hres|].
    apply (proj1 (Hrec op charge Hcar
                    ltac:(injection Hgw as <-; reflexivity) Hfit)). }
  split; [exact (Hgo _ _ _ Hpp)|].
  split; [exact (Hgo _ _ _ Hib)|].
  split; [exact (Hgo _ _ _ Htok) | exact (Hgo _ _ _ Hfall)].
Defined.

Lemma standalone_processors_same :
  forall (env : Env) (req : main.PaymentRequest) (w : World),
    main.processPromptPay env req w
    = PaymentHandler.processPromptPay env (withoutUser req) w /\
    main.processInternetBanking env req w
    = PaymentHandler.processInternetBanking env (withoutUser req) w /\
    (main.Token req <> "" \/ main.Card req <> None ->
     main.processCreditCard env req w
     = PaymentHandler.processCreditCard env (withoutUser req) w) /\
    (main.Token req = "" -> main.Card req = None ->
     exists e1 e2,
       main.processCreditCard env req w = (Err e1, w) /\
       PaymentHandler.processCreditCard env (withoutUser req) w = (Err e2, w)).
Proof.
  intros env req w.
  split; [reflexivity|]. split; [reflexivity|]. split.
  - intros Hor.
    unfold main.processCreditCard, PaymentHandler.processCreditCard. simpl.
    destruct (negb (String.eqb (main.Token req) "")) eqn:Ht; [reflexivity|].
    destruct (main.Card req) as [card|] eqn:Hc; [reflexivity|].
    exfalso. destruct Hor as [H | H]; [|now apply H].
    apply String.eqb_neq in H. rewrite H in Ht. discriminate.
  - intros Ht Hc.
    unfold main.processCreditCard, PaymentHandler.processCreditCard. simpl.
    rewrite Ht, Hc. simpl. eexists _, _. split; reflexivity.
Qed.

(** X9. The processors of the standalone server are those of the payment
    handler on a request that carries no user id: same result, same
    operations sent, for promptpay, for internet_banking, and for a card
    request that has a token or card fields (with neither, both refuse
    without a gateway call and differ in the wording of the error). *)
Theorem standalone_processors_agree :
  forall (env : Env) (req : main.PaymentRequest) (w : World),
    main.processPromptPay env req w
    = PaymentHandler.processPromptPay env (withoutUser req) w /\
    main.processInternetBanking env req w
    = PaymentHandler.processInternetBanking env (withoutUser req) w /\
    (main.Token req <> "" \/ main.Card req <> None ->
     main.processCreditCard env req w
     = PaymentHandler.processCreditCard env (withoutUser req) w) /\
    (main.Token req = "" -> main.Card req = None ->
     exists e1 e2,
       main.processCreditCard env req w = (Err e1, w) /\
       PaymentHandler.processCreditCard env (withoutUser req) w = (Err e2, w)).
Proof. exact standalone_processors_same. Qed.

(** ** Charge creation *)

(** X10. A request whose amount is not positive or whose currency is empty
    is answered 400 "amount and currency are required" before the payment
    type is looked at: nothing is sent to the gateway, nothing is written.
    This holds for [PaymentHandler.CreateCharge] and for the standalone
    server. *)
Theorem amount_and_currency_required :
  forall (env : Env) (amount : Z) (currency : string) (w : World),
    amount <= 0 \/ currency = "" ->
    (forall (c : Ctx) (req : PaymentRequest.t),
        BodyParser c = Ok req ->
        PaymentRequest.Amount req = amount ->
        PaymentRequest.Currency req = currency ->
        PaymentHandler.CreateCharge env c w
        = (respond 400 (ErrorJSON "amount and currency are required"), w)) /\
    (forall req : main.PaymentRequest,
        main.Amount req = amount ->
        main.Currency req = currency ->
        main.chargeHandler env "POST" (Ok req) w
        = (respond 400 (ErrorJSON "amount and currency are required"), w)).
Proof.
  intros env amount currency w Hor.
  assert (Hbad : (amount <=? 0) || String.eqb currency "" = true).
  { destruct Hor as [H | ->].
    - apply Z.leb_le in H. now rewrite H.
    - apply orb_true_r. }
  split.
  - intros c req Hc Ha Hcur. unfold PaymentHandler.CreateCharge.
    now rewrite Hc, Ha, Hcur, Hbad.
  - intros req Ha Hcur. unfold main.chargeHandler. simpl.
    now rewrite Ha, Hcur, Hbad.
Qed.

(** A promptpay request for nothing. *)
Lemma amount_and_currency_required_witness :
  let req := {| PaymentRequest.Amount := 0; PaymentRequest.Currency := "THB";
                PaymentRequest.PaymentType := "promptpay"; PaymentRequest.Token := "";
                PaymentRequest.ReturnURI := ""; PaymentRequest.Description := "";
                PaymentRequest.Metadata := None; PaymentRequest.Card := None;
                PaymentRequest.Bank := ""; PaymentRequest.UserID := None |} in
  (0 <= 0 \/ "THB" = "") /\
  PaymentHandler.CreateCharge Sample.settled (Sample.ctx req) Sample.w0
  = (respond 400 (ErrorJSON "amount and currency are required"), Sample.w0).
Proof.
  intros req.
  assert (H : 0 <= 0 \/ "THB" = "") by (left; lia).
  split; [exact H|].
  exact (proj1 (amount_and_currency_required Sample.settled 0 "THB" Sample.w0 H)
           (Sample.ctx req) req eq_refl eq_refl eq_refl).
Defined.

(** X11. When the chosen processor fails, [CreateCharge] answers 500 with
    the processor's error and stops there: the ledger is not written and
    nothing is logged; the state is the one the processor left. *)
Theorem charge_failure_writes_nothing :
  forall (env : Env) (c : Ctx) (req : PaymentRequest.t)
         (process : M (result Charge.t)) (msg : string) (w w1 : World),
    BodyParser c = Ok req ->
    0 < PaymentRequest.Amount req ->
    PaymentRequest.Currency req <> "" ->
    PaymentHandler.dispatch env req = Some process ->
    process w = (Err msg, w1) ->
    PaymentHandler.CreateCharge env c w = (respond 500 (ErrorJSON msg), w1).
Proof.
  intros env c req process msg w w1 Hc Ha Hcur Hd Hp.
  unfold PaymentHandler.CreateCharge. rewrite Hc.
  apply Z.leb_gt in Ha. apply String.eqb_neq in Hcur. rewrite Ha, Hcur.
  cbn [orb]. rewrite Hd, bind_run, Hp. reflexivity.
Qed.

(** The gateway refuses the promptpay source. *)
Lemma charge_failure_writes_nothing_witness :
  let gw := {| onRetrieveEvent := fun _ => Err "unused";
               onRetrieveCharge := fun _ => Err "unused";
               onCreateToken := fun _ => Err "unused";
               onCreateSource := fun _ => Err "service unavailable";
               onCreateCharge := fun _ => Err "unused" |} in
  let env := Sample.env gw None None in
  let r := PaymentHandler.CreateCharge env
             (Sample.ctx (Sample.request "promptpay" "" "" (Some 1%N))) Sample.w0 in
  fst r = respond 500 (ErrorJSON "failed to create promptpay source: service unavailable") /\
  db (snd r) = db Sample.w0 /\
  logs (snd r) = [].
Proof.
  intros gw env r.
  pose (req := Sample.request "promptpay" "" "" (Some 1%N)).
  assert (Ha : 0 < PaymentRequest.Amount req) by reflexivity.
  assert (Hcur : PaymentRequest.Currency req <> "") by discriminate.
  pose proof (charge_failure_writes_nothing env (Sample.ctx req) req
                (PaymentHandler.processPromptPay env req)
                "failed to create promptpay source: service unavailable"
                Sample.w0
                (addCalls Sample.w0 [operations.OpCreateSource (promptPaySource req)])
                eq_refl Ha Hcur eq_refl eq_refl) as H.
  subst r. fold req. rewrite H. repeat split.
Defined.

(** X12. When the chosen processor returns a charge and the ledger write
    succeeds, the ledger (whose charge ids were unique) holds exactly one row
    for the charge, equal to it in the updatable fields, and the row's user
    is the one resolved from the request (body, then [X-User-ID] header, then
    [user_id] query parameter), or failing that from the charge's metadata. *)
Theorem created_charge_is_mirrored :
  forall (env : Env) (c : Ctx) (req : PaymentRequest.t)
         (process : M (result Charge.t)) (charge : Charge.t) (w w1 : World),
    BodyParser c = Ok req ->
    0 < PaymentRequest.Amount req ->
    PaymentRequest.Currency req <> "" ->
    PaymentHandler.dispatch env req = Some process ->
    process w = (Ok charge, w1) ->
    List.NoDup (chargeIDs (db w1)) ->
    createErr env = None ->
    exists r,
      rowsOf (Charge.ID charge) (db (snd (PaymentHandler.CreateCharge env c w))) = [r] /\
      mirrors charge r /\
      Transaction.UserID r
      = extractUserIDFromCharge (Some charge) (getUserIDFromRequest c req).
Proof.
  intros env c req process charge w w1 Hc Ha Hcur Hd Hp Hnd He.
  destruct (upsert_row env charge (getUserIDFromRequest c req) w1 Hnd He)
    as (r & Hr & Hm & Hu).
  exists r. split; [|now split].
  unfold PaymentHandler.CreateCharge. rewrite Hc.
  apply Z.leb_gt in Ha. apply String.eqb_neq in Hcur. rewrite Ha, Hcur.
  cbn [orb]. rewrite Hd, bind_run, Hp. cbn [fst snd]. rewrite bind_run.
  rewrite (proj1 (upsert_written env charge (getUserIDFromRequest c req) w1 He)).
  exact Hr.
Qed.

(** User 9, named in the query string, pays by promptpay. *)
Lemma created_charge_is_mirrored_witness :
  let req := Sample.request "promptpay" "" "" None in
  let c := {| BodyParser := Ok req; HeaderXUserID := "nine"; QueryUserID := "9" |} in
  let w' := snd (PaymentHandler.CreateCharge Sample.settled c Sample.w0) in
  map (fun r => (Transaction.ChargeID r, Transaction.Status r, Transaction.AmountSatang r,
                 Transaction.UserID r))
      (transactions (db w'))
  = [("chrg_1", "pending", 10000, Some 9%N)].
Proof.
  intros req c w'.
  pose (process := PaymentHandler.processPromptPay Sample.settled req).
  destruct (process Sample.w0) as [res w1] eqn:Hp.
  destruct res as [charge|msg]; [|discriminate Hp].
  assert (Ha : 0 < PaymentRequest.Amount req) by reflexivity.
  assert (Hcur : PaymentRequest.Currency req <> "") by discriminate.
  assert (Hnd : List.NoDup (chargeIDs (db w1))).
  { injection Hp as _ <-. constructor. }
  destruct (created_charge_is_mirrored Sample.settled c req process charge Sample.w0 w1
              eq_refl Ha Hcur eq_refl Hp Hnd eq_refl) as (r & Hr & _).
  reflexivity.
Defined.

Lemma addCalls_nil w : addCalls w [] = w.
Proof. destruct w. unfold addCalls. simpl. now rewrite app_nil_r. Qed.

(** Every processor of the payment handler ends in the state it started in
    plus at most two create operations. *)
Ltac done_trace := split; [reflexivity | split; [reflexivity | simpl; lia]].

Lemma processor_trace env req process w :
  PaymentHandler.dispatch env req = Some process ->
  exists res ops,
    process w = (res, addCalls w ops) /\
    forallb isCreate ops = true /\ (length ops <= 2)%nat.
Proof.
  unfold PaymentHandler.dispatch. intros Hd.
  destruct (source_processors_protocol env req w) as [Hpp Hib].
  destruct (String.eqb (PaymentRequest.PaymentType req) "credit_card").
  - injection Hd as <-.
    destruct (String.eqb (PaymentRequest.Token req) "") eqn:Ht.
    + apply String.eqb_eq in Ht.
      rewrite (card_fallback_protocol env req w Ht).
      destruct (PaymentRequest.Card req);
        [|eexists _, []; rewrite addCalls_nil; done_trace].
      destruct (cardFields req) as [[[month year] code]|e];
        [|eexists _, []; rewrite addCalls_nil; done_trace].
      cbv zeta.
      destruct (onCreateToken _ _); eexists _, _; done_trace.
    + apply String.eqb_neq in Ht.
      rewrite (card_token_protocol env req w Ht).
      eexists _, _; done_trace.
  - destruct (String.eqb (PaymentRequest.PaymentType req) "promptpay").
    + injection Hd as <-. rewrite Hpp.
      destruct (onCreateSource (gateway env) (promptPaySource req));
        eexists _, _; done_trace.
    + destruct (String.eqb (PaymentRequest.PaymentType req) "internet_banking");
        [|discriminate Hd].
      injection Hd as <-.
      destruct (String.eqb (PaymentRequest.Bank req) "") eqn:Hb.
      * unfold PaymentHandler.processInternetBanking. rewrite Hb.
        eexists _, []; rewrite addCalls_nil; done_trace.
      * destruct (String.eqb (PaymentRequest.ReturnURI req) "") eqn:Hr.
        -- unfold PaymentHandler.processInternetBanking. rewrite Hb, Hr.
           eexists _, []; rewrite addCalls_nil; done_trace.
        -- apply String.eqb_neq in Hb, Hr. rewrite (Hib Hb Hr).
           destruct (onCreateSource (gateway env) (bankingSource req));
             cbv zeta; eexists _, _; done_trace.
Qed.

Lemma dispatch_creates :
  forall (env : Env) (req : PaymentRequest.t) (process : M (result Charge.t)) (w : World),
    PaymentHandler.dispatch env req = Some process ->
    forallb isCreate (issued process w) = true /\
    (length (issued process w) <= 2)%nat /\
    db (snd (process w)) = db w /\
    logs (snd (process w)) = logs w.
Proof.
  intros env req process w Hd.
  destruct (processor_trace env req process w Hd) as (res & ops & Hrun & Hc & Hl).
  rewrite (issued_app process w ops) by now rewrite Hrun.
  rewrite Hrun. repeat split; assumption.
Qed.

(** X13. Whatever the request and the gateway, the processor chosen for a
    charge request sends at most two operations, all of them create
    operations (token, source or charge; it retrieves nothing and repeats
    nothing), and touches neither the database nor the log. *)
Theorem dispatch_only_creates :
  forall (env : Env) (req : PaymentRequest.t) (process : M (result Charge.t)) (w : World),
    PaymentHandler.dispatch env req = Some process ->
    forallb isCreate (issued process w) = true /\
    (length (issued process w) <= 2)%nat /\
    db (snd (process w)) = db w /\
    logs (snd (process w)) = logs w.
Proof. exact dispatch_creates. Qed.

(** The card fallback with a readable card: a token, then the charge. *)
Lemma dispatch_only_creates_witness :
  let req :=
    {| PaymentRequest.Amount := 10000; PaymentRequest.Currency := "THB";
       PaymentRequest.PaymentType := "credit_card"; PaymentRequest.Token := "";
       PaymentRequest.ReturnURI := ""; PaymentRequest.Description := "";
       PaymentRequest.Metadata := None;
       PaymentRequest.Card :=
         Some (<["expiration_month" := VFloat64 (12 # 1)]>
                 (<["expiration_year" := VString "2030"]>
                    (<["security_code" := VFloat64 (123 # 1)]> ∅)));
       PaymentRequest.Bank := ""; PaymentRequest.UserID := None |} in
  let process := PaymentHandler.processCreditCard Sample.settled req in
  PaymentHandler.dispatch Sample.settled req = Some process /\
  map isCreate (issued process Sample.w0) = [true; true] /\
  db (snd (process Sample.w0)) = db Sample.w0.
Proof.
  intros req process.
  assert (Hd : PaymentHandler.dispatch Sample.settled req = Some process) by reflexivity.
  split; [exact Hd|].
  destruct (dispatch_only_creates Sample.settled req process Sample.w0 Hd)
    as (_ & _ & Hdb & _).
  split; [vm_compute; reflexivity | exact Hdb].
Defined.

(** X14. The standalone server keeps no state: its [/charge] handler never
    changes the database or the log, whatever the method, the body and the
    gateway. A request that is not a POST reaches nothing: OPTIONS is
    answered 200, any other method 405. *)
Theorem standalone_server_keeps_no_state :
  forall (env : Env) (method : string) (decoded : result main.PaymentRequest) (w : World),
    let r := main.chargeHandler env method decoded w in
    db (snd r) = db w /\
    logs (snd r) = logs w /\
    (method <> "POST" ->
     snd r = w /\
     fst r = if String.eqb method "OPTIONS" then respond 200 NoBody
             else respond 405 (Text "Method not allowed")).
Proof.
  intros env method decoded w r. subst r.
  unfold main.chargeHandler.
  destruct (String.eqb method "OPTIONS") eqn:Ho; [repeat split|].
  destruct (String.eqb method "POST") eqn:Hp; simpl; [|repeat split].
  assert (Hvac : method <> "POST" -> False).
  { intros H. apply String.eqb_eq in Hp. contradiction. }
  destruct decoded as [req|err];
    [|split; [reflexivity | split; [reflexivity | intros Hm; destruct (Hvac Hm)]]].
  destruct ((main.Amount req <=? 0) || String.eqb (main.Currency req) "");
    [split; [reflexivity | split; [reflexivity | intros Hm; destruct (Hvac Hm)]]|].
  destruct (main.dispatch env req) as [process|] eqn:Hd;
    [|split; [reflexivity | split; [reflexivity | intros Hm; destruct (Hvac Hm)]]].
  rewrite bind_run.
  assert (Hkeep : db (snd (process w)) = db w /\ logs (snd (process w)) = logs w).
  { destruct (standalone_processors_same env req w) as (Hpp & Hib & Hcc & Hnone).
    unfold main.dispatch in Hd.
    destruct (String.eqb (main.PaymentType req) "credit_card") eqn:T1.
    - injection Hd as <-.
      destruct (String.eqb (main.Token req) "") eqn:Ht.
      + destruct (main.Card req) as [card|] eqn:Hc.
        * assert (Hsome : Some card <> None) by discriminate.
          rewrite (Hcc (or_intror Hsome)).
          assert (Hd' : PaymentHandler.dispatch env (withoutUser req)
                        = Some (PaymentHandler.processCreditCard env (withoutUser req))).
          { unfold PaymentHandler.dispatch. simpl. now rewrite T1. }
          destruct (dispatch_creates env _ _ w Hd') as (_ & _ & H1 & H2).
          now split.
        * apply String.eqb_eq in Ht.
          destruct (Hnone Ht eq_refl) as (e1 & e2 & H1 & _). rewrite H1. now split.
      + apply String.eqb_neq in Ht. rewrite (Hcc (or_introl Ht)).
        assert (Hd' : PaymentHandler.dispatch env (withoutUser req)
                      = Some (PaymentHandler.processCreditCard env (withoutUser req))).
        { unfold PaymentHandler.dispatch. simpl. now rewrite T1. }
        destruct (dispatch_creates env _ _ w Hd') as (_ & _ & H1 & H2).
        now split.
    - destruct (String.eqb (main.PaymentType req) "promptpay") eqn:T2.
      + injection Hd as <-. rewrite Hpp.
        assert (Hd' : PaymentHandler.dispatch env (withoutUser req)
                      = Some (PaymentHandler.processPromptPay env (withoutUser req))).
        { unfold PaymentHandler.dispatch. simpl. now rewrite T1, T2. }
        destruct (dispatch_creates env _ _ w Hd') as (_ & _ & H1 & H2).
        now split.
      + destruct (String.eqb (main.PaymentType req) "internet_banking") eqn:T3;
          [|discriminate Hd].
        injection Hd as <-. rewrite Hib.
        assert (Hd' : PaymentHandler.dispatch env (withoutUser req)
                      = Some (PaymentHandler.processInternetBanking env (withoutUser req))).
        { unfold PaymentHandler.dispatch. simpl. now rewrite T1, T2, T3. }
        destruct (dispatch_creates env _ _ w Hd') as (_ & _ & H1 & H2).
        now split. }
  destruct Hkeep as [Hdb Hlogs].
  destruct (process w) as [[charge|perr] w1]; simpl in *;
    (split; [exact Hdb | split; [exact Hlogs | intros Hm; destruct (Hvac Hm)]]).
Qed.

(** ** The webhook of the payment handler *)

Lemma logPrintf_run {A} line (k : unit -> M A) w :
  bind (logPrintf line) k w
  = k tt {| db := db w; calls := calls w; logs := (logs w ++ [line])%list |}.
Proof. reflexivity. Qed.

(** What the retrieval and upsert at the end of the webhook do, by the
    answer of the gateway and the outcome of the upsert. *)
Lemma reconcile_cases env cid w :
  match onRetrieveCharge (gateway env) cid with
  | Err msg =>
      exists line,
        PaymentHandler.reconcile env cid w
        = (respond 500 NoBody,
           {| db := db w;
              calls := (calls w ++ [operations.OpRetrieveCharge cid])%list;
              logs := (logs w ++ [line])%list |})
  | Ok ch =>
      let u := PaymentHandler.upsertTransactionFromCharge env (Some ch) None
                 (addCalls w [operations.OpRetrieveCharge cid]) in
      exists line,
        PaymentHandler.reconcile env cid w
        = (match fst u with
           | Some _ => respond 500 NoBody
           | None => respond 200 NoBody
           end,
           {| db := db (snd u);
              calls := calls (snd u);
              logs := (logs (snd u) ++ [line])%list |})
  end.
Proof.
  unfold PaymentHandler.reconcile, Client.RetrieveCharge, addCalls.
  destruct (onRetrieveCharge (gateway env) cid) as [ch|msg] eqn:Hgw.
  - cbv zeta. steps.
    destruct (PaymentHandler.upsertTransactionFromCharge env (Some ch) None _)
      as [[e|] w2]; eexists; reflexivity.
  - steps. eexists. reflexivity.
Qed.

(** The webhook, by the shape of the envelope and the answer to the event
    retrieval: it refuses the payload, ignores it, fails on the event, ignores
    the event, or hands a charge id to the retrieval and upsert. *)
Lemma HandleWebhook_cases env body w :
  let r := PaymentHandler.HandleWebhook env body w in
  (r = (respond 400 (ErrorJSON "invalid payload: missing object or id"), w) /\
   (forall e, unmarshalIDObject body = Ok e -> IDObject_ID e = "")) \/
  (exists e, unmarshalIDObject body = Ok e /\ IDObject_ID e <> "" /\
     IDObject_Object e <> "event" /\ IDObject_Object e <> "charge" /\
     r = (respond 200 NoBody, w)) \/
  (exists e msg line, unmarshalIDObject body = Ok e /\ IDObject_ID e <> "" /\
     IDObject_Object e = "event" /\
     onRetrieveEvent (gateway env) (IDObject_ID e) = Err msg /\
     r = (respond 500 NoBody,
          {| db := db w;
             calls := (calls w ++ [operations.OpRetrieveEvent (IDObject_ID e)])%list;
             logs := (logs w ++ [line])%list |})) \/
  (exists e ev, unmarshalIDObject body = Ok e /\ IDObject_ID e <> "" /\
     IDObject_Object e = "event" /\
     onRetrieveEvent (gateway env) (IDObject_ID e) = Ok ev /\
     notChargeShaped (Event.Data ev) = true /\
     r = (respond 200 NoBody, addCalls w [operations.OpRetrieveEvent (IDObject_ID e)])) \/
  (exists e ev d, unmarshalIDObject body = Ok e /\ IDObject_ID e <> "" /\
     IDObject_Object e = "event" /\
     onRetrieveEvent (gateway env) (IDObject_ID e) = Ok ev /\
     unmarshalIDObject (Some (Event.Data ev)) = Ok d /\
     IDObject_Object d = "charge" /\ IDObject_ID d <> "" /\
     r = PaymentHandler.reconcile env (IDObject_ID d)
           (addCalls w [operations.OpRetrieveEvent (IDObject_ID e)])) \/
  (exists e, unmarshalIDObject body = Ok e /\ IDObject_ID e <> "" /\
     IDObject_Object e = "charge" /\
     r = PaymentHandler.reconcile env (IDObject_ID e) w).
Proof.
  unfold PaymentHandler.HandleWebhook.
  destruct (unmarshalIDObject body) as [e|msg] eqn:Hb; [|left; split; [reflexivity | discriminate]].
  destruct (String.eqb (IDObject_ID e) "") eqn:Hid.
  { left. split; [reflexivity|]. intros e' He. injection He as <-.
    now apply String.eqb_eq. }
  apply String.eqb_neq in Hid. right.
  destruct (String.eqb (IDObject_Object e) "event") eqn:Hev.
  - apply String.eqb_eq in Hev. right.
    unfold Client.RetrieveEvent, json.Marshal. cbv zeta. steps.
    destruct (onRetrieveEvent (gateway env) (IDObject_ID e)) as [ev|msg] eqn:Hgw.
    + right. unfold notChargeShaped.
      destruct (unmarshalIDObject (Some (Event.Data ev))) as [d|msg] eqn:Hd.
      * destruct (negb (String.eqb (IDObject_Object d) "charge")
                  || String.eqb (IDObject_ID d) "") eqn:Hc.
        -- left. exists e, ev. rewrite Hd, Hc. repeat split; assumption.
        -- right. left. exists e, ev, d.
           apply orb_false_iff in Hc. destruct Hc as [Hc1 Hc2].
           apply negb_false_iff, String.eqb_eq in Hc1. apply String.eqb_neq in Hc2.
           repeat split; assumption.
      * left. exists e, ev. rewrite Hd. repeat split; assumption.
    + left. steps. eexists e, msg, _. repeat split; assumption.
  - apply String.eqb_neq in Hev.
    destruct (String.eqb (IDObject_Object e) "charge") eqn:Hch.
    + apply String.eqb_eq in Hch. do 4 right. exists e. repeat split; assumption.
    + apply String.eqb_neq in Hch. left. exists e. repeat split; assumption.
Qed.

Lemma reconcile_acknowledged env cid w :
  List.NoDup (chargeIDs (db w)) ->
  StatusCode (fst (PaymentHandler.reconcile env cid w)) = 200 ->
  exists ch,
    onRetrieveCharge (gateway env) cid = Ok ch /\
    createErr env = None /\
    oneRow ch (snd (PaymentHandler.reconcile env cid w)).
Proof.
  intros Hnd Hok. pose proof (reconcile_cases env cid w) as Hc.
  destruct (onRetrieveCharge (gateway env) cid) as [ch|msg].
  - cbv zeta in Hc. destruct Hc as [line Hc]. rewrite Hc in *. clear Hc.
    exists ch. split; [reflexivity|].
    set (w1 := addCalls w [operations.OpRetrieveCharge cid]) in *.
    destruct (createErr env) as [err|] eqn:He.
    + rewrite (upsert_failed env ch None err w1 He) in Hok. discriminate Hok.
    + split; [reflexivity|].
      destruct (upsert_row env ch None w1 Hnd He) as (r & Hr & Hm & _).
      exists r. split; [exact Hr | exact Hm].
  - destruct Hc as [line Hc]. rewrite Hc in Hok. discriminate Hok.
Qed.

Lemma reconcile_storage_failure env cid w err :
  createErr env = Some err ->
  db (snd (PaymentHandler.reconcile env cid w)) = db w /\
  (forall ch, onRetrieveCharge (gateway env) cid = Ok ch ->
              fst (PaymentHandler.reconcile env cid w) = respond 500 NoBody).
Proof.
  intros He. pose proof (reconcile_cases env cid w) as Hc.
  destruct (onRetrieveCharge (gateway env) cid) as [ch|msg].
  - cbv zeta in Hc. destruct Hc as [line Hc]. rewrite Hc.
    rewrite (upsert_failed env ch None err _ He). split; [reflexivity|].
    intros ch' _. reflexivity.
  - destruct Hc as [line Hc]. rewrite Hc. split; [reflexivity | discriminate].
Qed.

Lemma reconcile_issued env cid w pre :
  calls (snd (PaymentHandler.reconcile env cid (addCalls w pre)))
  = (calls w ++ (pre ++ [operations.OpRetrieveCharge cid]))%list.
Proof.
  destruct (reconcile_provenance env cid (addCalls w pre)) as [H _].
  rewrite H. unfold addCalls. simpl. now rewrite <- app_assoc.
Qed.

(** X15. The gateway calls of the webhook follow the envelope. A payload
    that does not decode or has no id is answered 400 and reaches nothing; an
    object type other than event and charge is answered 200 and reaches
    nothing; a charge-shaped envelope makes exactly one call, the retrieval
    of the charge it names; an event-shaped envelope retrieves the event it
    names and then at most one charge. The webhook never sends anything
    else. *)
Theorem webhook_calls_follow_envelope :
  forall (env : Env) (body : option Value) (w : World),
    let r := PaymentHandler.HandleWebhook env body w in
    let sent := issued (PaymentHandler.HandleWebhook env body) w in
    ((forall e, unmarshalIDObject body = Ok e -> IDObject_ID e = "") ->
     r = (respond 400 (ErrorJSON "invalid payload: missing object or id"), w)) /\
    (forall e,
        unmarshalIDObject body = Ok e -> IDObject_ID e <> "" ->
        (IDObject_Object e = "charge" ->
         sent = [operations.OpRetrieveCharge (IDObject_ID e)]) /\
        (IDObject_Object e = "event" ->
         sent = [operations.OpRetrieveEvent (IDObject_ID e)] \/
         exists cid, sent = [operations.OpRetrieveEvent (IDObject_ID e);
                             operations.OpRetrieveCharge cid]) /\
        (IDObject_Object e <> "charge" -> IDObject_Object e <> "event" ->
         r = (respond 200 NoBody, w))).
Proof.
  intros env body w r sent. subst r sent.
  pose proof (HandleWebhook_cases env body w) as Hc. cbv zeta in Hc.
  split.
  - intros Hbad.
    destruct Hc as [[Hr _] | [(e & He & Hid & _) | [(e & m & l & He & Hid & _)
      | [(e & ev & He & Hid & _) | [(e & ev & d & He & Hid & _) | (e & He & Hid & _)]]]]];
      [exact Hr | exfalso; exact (Hid (Hbad e He)) ..].
  - intros e He Hid.
    destruct Hc as [[_ Hbad] | [(e' & He' & _ & Hne & Hnc & Hr)
      | [(e' & m & l & He' & _ & Hev & _ & Hr)
      | [(e' & ev & He' & _ & Hev & _ & _ & Hr)
      | [(e' & ev & d & He' & _ & Hev & _ & _ & _ & _ & Hr)
      | (e' & He' & _ & Hch & Hr)]]]]];
      [exfalso; exact (Hid (Hbad e He)) | ..];
      rewrite He in He'; injection He' as <-.
    + repeat split; [congruence | congruence | intros _ _; exact Hr].
    + split; [intros H; rewrite H in Hev; discriminate|].
      split; [|intros _ H; contradiction].
      intros _. left. apply issued_app. now rewrite Hr.
    + split; [intros H; rewrite H in Hev; discriminate|].
      split; [|intros _ H; contradiction].
      intros _. left. apply issued_app. now rewrite Hr.
    + split; [intros H; rewrite H in Hev; discriminate|].
      split; [|intros _ H; contradiction].
      intros _. right. exists (IDObject_ID d). apply issued_app.
      rewrite Hr. apply reconcile_issued.
    + split; [|split; [intros H; rewrite H in Hch; discriminate | intros H; contradiction]].
      intros _. apply issued_app. rewrite Hr.
      rewrite <- (addCalls_nil w) at 1. apply (reconcile_issued env _ w []).
Qed.

(** X16. The webhook acknowledges a charge only once it is in the ledger:
    when it answers 200 after retrieving a charge, the gateway returned that
    charge, the ledger write succeeded, and the ledger (whose charge ids
    were unique) holds exactly one row for it, equal to the gateway's
    snapshot in the updatable fields. *)
Theorem webhook_acknowledged_means_persisted :
  forall (env : Env) (body : option Value) (w : World) (cid : string),
    List.NoDup (chargeIDs (db w)) ->
    In (operations.OpRetrieveCharge cid)
       (issued (PaymentHandler.HandleWebhook env body) w) ->
    StatusCode (fst (PaymentHandler.HandleWebhook env body w)) = 200 ->
    exists ch,
      onRetrieveCharge (gateway env) cid = Ok ch /\
      createErr env = None /\
      oneRow ch (snd (PaymentHandler.HandleWebhook env body w)).
Proof.
  intros env body w cid Hnd Hin Hok.
  pose proof (HandleWebhook_cases env body w) as Hc. cbv zeta in Hc.
  destruct Hc as [[Hr _] | [(e & _ & _ & _ & _ & Hr)
    | [(e & m & l & _ & _ & _ & _ & Hr)
    | [(e & ev & _ & _ & _ & _ & _ & Hr)
    | [(e & ev & d & _ & _ & _ & _ & _ & _ & _ & Hr)
    | (e & _ & _ & _ & Hr)]]]]].
  - rewrite (issued_nothing _ w) in Hin by now rewrite Hr. destruct Hin.
  - rewrite (issued_nothing _ w) in Hin by now rewrite Hr. destruct Hin.
  - rewrite Hr in Hok. discriminate Hok.
  - rewrite (issued_app _ w [operations.OpRetrieveEvent (IDObject_ID e)]) in Hin
      by now rewrite Hr.
    destruct Hin as [Hin | []]. discriminate Hin.
  - rewrite (issued_app _ w [operations.OpRetrieveEvent (IDObject_ID e);
                             operations.OpRetrieveCharge (IDObject_ID d)]) in Hin
      by (rewrite Hr; apply reconcile_issued).
    destruct Hin as [Hin | [Hin | []]]; [discriminate Hin|].
    injection Hin as <-. rewrite Hr in *.
    apply reconcile_acknowledged; assumption.
  - rewrite (issued_app _ w [operations.OpRetrieveCharge (IDObject_ID e)]) in Hin
      by (rewrite Hr; rewrite <- (addCalls_nil w) at 1;
          apply (reconcile_issued env _ w [])).
    destruct Hin as [Hin | []]. injection Hin as <-. rewrite Hr in *.
    apply reconcile_acknowledged; assumption.
Qed.

(** The settled [chrg_1] is acknowledged, and stored. *)
Lemma webhook_acknowledged_means_persisted_witness :
  let r := PaymentHandler.HandleWebhook Sample.settled Sample.chargeBody Sample.wPending in
  List.NoDup (chargeIDs (db Sample.wPending)) /\
  StatusCode (fst r) = 200 /\
  oneRow (Sample.chrg1 "successful") (snd r).
Proof.
  intros r.
  assert (Hnd : List.NoDup (chargeIDs (db Sample.wPending))).
  { repeat constructor. simpl. tauto. }
  assert (Hin : In (operations.OpRetrieveCharge "chrg_1")
                   (issued (PaymentHandler.HandleWebhook Sample.settled Sample.chargeBody)
                      Sample.wPending)) by (left; reflexivity).
  assert (Hok : StatusCode (fst r) = 200) by reflexivity.
  destruct (webhook_acknowledged_means_persisted Sample.settled Sample.chargeBody
              Sample.wPending "chrg_1" Hnd Hin Hok) as (ch & Hgw & _ & Hrow).
  injection Hgw as <-.
  split; [exact Hnd|]. split; [exact Hok | exact Hrow].
Defined.

(** X17. On the webhook a ledger write that fails is not swallowed: the
    database is left as it was, and a delivery whose charge was retrieved is
    answered 500, so that the sender delivers it again. *)
Theorem webhook_storage_failure_is_retried :
  forall (env : Env) (body : option Value) (w : World) (err : string),
    createErr env = Some err ->
    db (snd (PaymentHandler.HandleWebhook env body w)) = db w /\
    (forall cid ch,
        In (operations.OpRetrieveCharge cid)
           (issued (PaymentHandler.HandleWebhook env body) w) ->
        onRetrieveCharge (gateway env) cid = Ok ch ->
        fst (PaymentHandler.HandleWebhook env body w) = respond 500 NoBody).
Proof.
  intros env body w err He.
  pose proof (HandleWebhook_cases env body w) as Hc. cbv zeta in Hc.
  destruct Hc as [[Hr _] | [(e & _ & _ & _ & _ & Hr)
    | [(e & m & l & _ & _ & _ & _ & Hr)
    | [(e & ev & _ & _ & _ & _ & _ & Hr)
    | [(e & ev & d & _ & _ & _ & _ & _ & _ & _ & Hr)
    | (e & _ & _ & _ & Hr)]]]]].
  - split; [now rewrite Hr|]. intros cid ch Hin.
    rewrite (issued_nothing _ w) in Hin by now rewrite Hr. destruct Hin.
  - split; [now rewrite Hr|]. intros cid ch Hin.
    rewrite (issued_nothing _ w) in Hin by now rewrite Hr. destruct Hin.
  - split; [now rewrite Hr|]. intros cid ch _ _. now rewrite Hr.
  - split; [now rewrite Hr|]. intros cid ch Hin.
    rewrite (issued_app _ w [operations.OpRetrieveEvent (IDObject_ID e)]) in Hin
      by now rewrite Hr.
    destruct Hin as [Hin | []]. discriminate Hin.
  - destruct (reconcile_storage_failure env (IDObject_ID d)
                (addCalls w [operations.OpRetrieveEvent (IDObject_ID e)]) err He)
      as [Hdb H500].
    split; [rewrite Hr; exact Hdb|]. intros cid ch Hin Hgw.
    rewrite (issued_app _ w [operations.OpRetrieveEvent (IDObject_ID e);
                             operations.OpRetrieveCharge (IDObject_ID d)]) in Hin
      by (rewrite Hr; apply reconcile_issued).
    destruct Hin as [Hin | [Hin | []]]; [discriminate Hin|].
    injection Hin as <-. rewrite Hr. exact (H500 ch Hgw).
  - destruct (reconcile_storage_failure env (IDObject_ID e) w err He) as [Hdb H500].
    split; [rewrite Hr; exact Hdb|]. intros cid ch Hin Hgw.
    rewrite (issued_app _ w [operations.OpRetrieveCharge (IDObject_ID e)]) in Hin
      by (rewrite Hr; rewrite <- (addCalls_nil w) at 1;
          apply (reconcile_issued env _ w [])).
    destruct Hin as [Hin | []]. injection Hin as <-. rewrite Hr. exact (H500 ch Hgw).
Qed.

(** The settled [chrg_1] while the storage layer refuses the write. *)
Lemma webhook_storage_failure_is_retried_witness :
  let env := Sample.env (Sample.gw "charge.complete" (Ok (Sample.chrg1 "successful")))
               (Some "connection refused") None in
  let r := PaymentHandler.HandleWebhook env (Sample.eventBody []) Sample.wPending in
  createErr env = Some "connection refused" /\
  fst r = respond 500 NoBody /\
  db (snd r) = db Sample.wPending.
Proof.
  intros env r.
  assert (He : createErr env = Some "connection refused") by reflexivity.
  destruct (webhook_storage_failure_is_retried env (Sample.eventBody [])
              Sample.wPending "connection refused" He) as [Hdb H500].
  split; [exact He|]. split; [|exact Hdb].
  apply (H500 "chrg_1" (Sample.chrg1 "successful")); [right; left; reflexivity | reflexivity].
Defined.

(** ** The other webhooks *)

(** X18. The answer of [WebhookHandler.HandleWebhook] (net/http) does not
    depend on the ledger: whatever the [dbHandler] does with the charge, the
    response is the same, and it is 405, 400 or 200, never a server error.
    A request that is not a POST is answered 405 before anything is read or
    sent. *)
Theorem WebhookHandler_answer_ignores_ledger :
  forall (env : Env) (r : Request) (w : World),
    (exists resp,
        (StatusCode resp = 405 \/ StatusCode resp = 400 \/ resp = respond 200 NoBody) /\
        forall dbHandler : Charge.t -> M (option string),
          fst (WebhookHandler.HandleWebhook env dbHandler r w) = resp) /\
    (Method r <> "POST" ->
     forall dbHandler : Charge.t -> M (option string),
       WebhookHandler.HandleWebhook env dbHandler r w
       = (respond 405 (Text "method not allowed"), w)).
Proof.
  intros env r w. split.
  - unfold WebhookHandler.HandleWebhook, Client.RetrieveEvent, Client.RetrieveCharge,
      json.Marshal.
    destruct (negb (String.eqb (Method r) "POST"));
      [exists (respond 405 (Text "method not allowed"));
       split; [left; reflexivity | reflexivity]|].
    destruct (ReadAll r) as [body|e];
      [|exists (respond 400 (Text "failed to read body"));
        split; [right; left; reflexivity | reflexivity]].
    destruct (unmarshalIDOnly body) as [envelope|e];
      [|exists (respond 400 (Text "invalid payload: missing event id"));
        split; [right; left; reflexivity | reflexivity]].
    destruct (String.eqb (IDOnly_ID envelope) "");
      [exists (respond 400 (Text "invalid payload: missing event id"));
       split; [right; left; reflexivity | reflexivity]|].
    destruct (onRetrieveEvent (gateway env) (IDOnly_ID envelope)) as [ev|e];
      [|exists (respond 400 (Text "event verification failed"));
        split; [right; left; reflexivity | intros h; steps; reflexivity]].
    exists (respond 200 NoBody). split; [right; right; reflexivity|].
    intros dbHandler. steps.
    destruct (WebhookHandler.isChargeEventKey (Event.Key ev)); [|reflexivity].
    destruct (unmarshalIDObject (Some (Event.Data ev))) as [d|e]; [|reflexivity].
    destruct (negb (String.eqb (IDObject_Object d) "charge")
              || String.eqb (IDObject_ID d) ""); [reflexivity|].
    steps.
    destruct (onRetrieveCharge (gateway env) (IDObject_ID d)) as [ch|e];
      [|reflexivity].
    steps. reflexivity.
  - intros Hm dbHandler. apply String.eqb_neq in Hm.
    unfold WebhookHandler.HandleWebhook. now rewrite Hm.
Qed.

(** X19. The webhook of the single-file payment handler answers by the
    envelope and the event verification alone: once the event named by the
    envelope is verified it answers 200, whatever the event key, the charge
    retrieval and the ledger write do; and an event whose key is outside the
    allow-list reaches neither the charge nor the ledger. *)
Theorem SingleFile_webhook_acknowledges_after_verification :
  forall (env : Env) (body : option Value) (e : IDOnly) (ev : Event.t) (w : World),
    unmarshalIDOnly body = Ok e ->
    IDOnly_ID e <> "" ->
    onRetrieveEvent (gateway env) (IDOnly_ID e) = Ok ev ->
    fst (SingleFile.HandleWebhook env body w) = respond 200 NoBody /\
    (WebhookHandler.isChargeEventKey (Event.Key ev) = false ->
     snd (SingleFile.HandleWebhook env body w)
     = addCalls w [operations.OpRetrieveEvent (IDOnly_ID e)]).
Proof.
  intros env body e ev w Hb Hid Hev. apply String.eqb_neq in Hid.
  unfold SingleFile.HandleWebhook, Client.RetrieveEvent, Client.RetrieveCharge,
    json.Marshal.
  rewrite Hb, Hid. steps. rewrite Hev. steps.
  destruct (WebhookHandler.isChargeEventKey (Event.Key ev));
    [|split; [reflexivity | intros _; reflexivity]].
  split; [|discriminate].
  destruct (unmarshalIDObject (Some (Event.Data ev))) as [d|msg]; [|reflexivity].
  destruct (negb (String.eqb (IDObject_Object d) "charge")
            || String.eqb (IDObject_ID d) ""); [reflexivity|].
  steps.
  destruct (onRetrieveCharge (gateway env) (IDObject_ID d)) as [ch|msg];
    [|reflexivity].
  steps. reflexivity.
Qed.

(** The charge of a verified event cannot be stored: still 200. *)
Lemma SingleFile_webhook_acknowledges_after_verification_witness :
  let env := Sample.env (Sample.gw "charge.complete" (Ok (Sample.chrg1 "successful")))
               (Some "connection refused") None in
  let r := SingleFile.HandleWebhook env (Sample.eventBody []) Sample.wPending in
  fst r = respond 200 NoBody /\
  db (snd r) = db Sample.wPending /\
  logs (snd r) = ["Webhook: failed to upsert transaction: connection refused";
                  "Webhook: processed charge chrg_1 status=successful"].
Proof.
  intros env r.
  assert (Hid : IDOnly_ID {| IDOnly_ID := "evt_1" |} <> "") by discriminate.
  pose proof (SingleFile_webhook_acknowledges_after_verification env
                (Sample.eventBody []) {| IDOnly_ID := "evt_1" |}
                {| Event.Key := "charge.complete"; Event.Data := Sample.chargeData |}
                Sample.wPending eq_refl Hid eq_refl) as [H _].
  split; [exact H|]. split; reflexivity.
Defined.

(** X20. The fiber [WebhookHandler] answers a verified event about a charge
    by the outcome of the retrieval and of the upsert, whatever the event key
    is: 500 when the gateway refuses the charge (the [Upserter] is not run),
    500 when the [Upserter] returns an error, 200 only when it returns
    [nil]. *)
Theorem WebhookHandlerFiber_acknowledges_only_stored :
  forall (env : Env) (Upserter : Charge.t -> M (option string))
         (body : option Value) (e : IDOnly) (ev : Event.t) (d : IDObject) (w : World),
    unmarshalIDOnly body = Ok e ->
    IDOnly_ID e <> "" ->
    onRetrieveEvent (gateway env) (IDOnly_ID e) = Ok ev ->
    unmarshalIDObject (Some (Event.Data ev)) = Ok d ->
    IDObject_Object d = "charge" ->
    IDObject_ID d <> "" ->
    let sent := [operations.OpRetrieveEvent (IDOnly_ID e);
                 operations.OpRetrieveCharge (IDObject_ID d)] in
    let r := WebhookHandlerFiber.HandleWebhook env Upserter "POST" body w in
    match onRetrieveCharge (gateway env) (IDObject_ID d) with
    | Err msg =>
        fst r = respond 500 NoBody /\ db (snd r) = db w /\ calls (snd r) = calls (addCalls w sent)
    | Ok ch =>
        let u := Upserter ch (addCalls w sent) in
        fst r = match fst u with
                | Some _ => respond 500 NoBody
                | None => respond 200 NoBody
                end /\
        db (snd r) = db (snd u) /\ calls (snd r) = calls (snd u)
    end.
Proof.
  intros env Upserter body e ev d w Hb Hid Hev Hd Hobj Hcid sent r. subst sent r.
  apply String.eqb_neq in Hid, Hcid. apply String.eqb_eq in Hobj.
  unfold WebhookHandlerFiber.HandleWebhook, Client.RetrieveEvent, Client.RetrieveCharge,
    json.Marshal, addCalls.
  simpl. rewrite Hb, Hid. steps. rewrite Hev. steps. rewrite Hd, Hobj, Hcid. simpl.
  steps.
  destruct (onRetrieveCharge (gateway env) (IDObject_ID d)) as [ch|msg].
  - cbv zeta. steps. cbn [db calls logs]. rewrite <- !app_assoc. cbn [app].
    destruct (Upserter ch _) as [[err|] w2]; steps; repeat split.
  - steps. cbn [db calls logs]. rewrite <- !app_assoc. repeat split.
Qed.

(** The event [evt_1] under the key [charge.create], and an upserter that
    stores or fails. *)
Lemma WebhookHandlerFiber_acknowledges_only_stored_witness :
  let env := Sample.env (Sample.gw "charge.create" (Ok (Sample.chrg1 "pending")))
               None None in
  let failing := Sample.env (Sample.gw "charge.create" (Ok (Sample.chrg1 "pending")))
                   (Some "connection refused") None in
  fst (WebhookHandlerFiber.HandleWebhook env (paymentUpserter env) "POST"
         (Sample.eventBody []) Sample.w0) = respond 200 NoBody /\
  fst (WebhookHandlerFiber.HandleWebhook failing (paymentUpserter failing) "POST"
         (Sample.eventBody []) Sample.w0) = respond 500 NoBody.
Proof.
  intros env failing.
  assert (Hid : IDOnly_ID {| IDOnly_ID := "evt_1" |} <> "") by discriminate.
  assert (Hcid : IDObject_ID {| IDObject_ID := "chrg_1"; IDObject_Object := "charge" |}
                 <> "") by discriminate.
  pose proof (WebhookHandlerFiber_acknowledges_only_stored env (paymentUpserter env)
                (Sample.eventBody []) {| IDOnly_ID := "evt_1" |}
                {| Event.Key := "charge.create"; Event.Data := Sample.chargeData |}
                {| IDObject_ID := "chrg_1"; IDObject_Object := "charge" |}
                Sample.w0 eq_refl Hid eq_refl eq_refl eq_refl Hcid) as H1.
  pose proof (WebhookHandlerFiber_acknowledges_only_stored failing
                (paymentUpserter failing)
                (Sample.eventBody []) {| IDOnly_ID := "evt_1" |}
                {| Event.Key := "charge.create"; Event.Data := Sample.chargeData |}
                {| IDObject_ID := "chrg_1"; IDObject_Object := "charge" |}
                Sample.w0 eq_refl Hid eq_refl eq_refl eq_refl Hcid) as H2.
  split; [exact (proj1 H1) | exact (proj1 H2)].
Defined.

(** ** The ledger queries *)

Lemma parseLimitOffset_bounds limitStr offsetStr :
  let '(lim, off) := PaymentHandlerDB.parseLimitOffset limitStr offsetStr in
  0 < lim /\ 0 <= off.
Proof.
  unfold PaymentHandlerDB.parseLimitOffset. split.
  - destruct (String.eqb limitStr ""); [lia|].
    destruct (strconv.Atoi limitStr) as [l|]; [|lia].
    destruct (0 <? l) eqn:H; [now apply Z.ltb_lt | lia].
  - destruct (String.eqb offsetStr ""); [lia|].
    destruct (strconv.Atoi offsetStr) as [o|]; [|lia].
    destruct (0 <=? o) eqn:H; [now apply Z.leb_le | lia].
Qed.

(** X21. Whatever the query string holds, [ListTransactions] pages with a
    positive limit and a non-negative offset: a limit that is missing, not a
    number, zero or negative becomes 50, an offset that is missing, not a
    number or negative becomes 0, and any other value is taken as given. *)
Theorem page_bounds_are_normalised :
  forall limitStr offsetStr : string,
    let '(lim, off) := PaymentHandlerDB.parseLimitOffset limitStr offsetStr in
    0 < lim /\ 0 <= off /\
    (lim = 50 \/ strconv.Atoi limitStr = Some lim) /\
    (off = 0 \/ strconv.Atoi offsetStr = Some off) /\
    (forall l, strconv.Atoi limitStr = Some l -> 0 < l -> lim = l) /\
    (forall o, strconv.Atoi offsetStr = Some o -> 0 <= o -> off = o).
Proof.
  intros limitStr offsetStr. unfold PaymentHandlerDB.parseLimitOffset.
  assert (Hempty : strconv.Atoi "" = None) by reflexivity.
  repeat split.
  - destruct (String.eqb limitStr ""); [lia|].
    destruct (strconv.Atoi limitStr) as [l|]; [|lia].
    destruct (0 <? l) eqn:H; [now apply Z.ltb_lt | lia].
  - destruct (String.eqb offsetStr ""); [lia|].
    destruct (strconv.Atoi offsetStr) as [o|]; [|lia].
    destruct (0 <=? o) eqn:H; [now apply Z.leb_le | lia].
  - destruct (String.eqb limitStr ""); [now left|].
    destruct (strconv.Atoi limitStr) as [l|]; [|now left].
    destruct (0 <? l); [now right | now left].
  - destruct (String.eqb offsetStr ""); [now left|].
    destruct (strconv.Atoi offsetStr) as [o|]; [|now left].
    destruct (0 <=? o); [now right | now left].
  - intros l Hl Hpos.
    destruct (String.eqb limitStr "") eqn:E.
    + apply String.eqb_eq in E. subst. rewrite Hempty in Hl. discriminate.
    + rewrite Hl. apply Z.ltb_lt in Hpos. now rewrite Hpos.
  - intros o Ho Hpos.
    destruct (String.eqb offsetStr "") eqn:E.
    + apply String.eqb_eq in E. subst. rewrite Hempty in Ho. discriminate.
    + rewrite Ho. apply Z.leb_le in Hpos. now rewrite Hpos.
Qed.

Lemma insertNewest_In r l x :
  In x (PaymentHandlerDB.insertNewest r l) <-> x = r \/ In x l.
Proof.
  induction l as [|y l IH]; simpl.
  - intuition.
  - destruct (Transaction.CreatedAt y <=? Transaction.CreatedAt r); simpl.
    + intuition.
    + rewrite IH. intuition.
Qed.

Lemma insertNewest_length r l :
  length (PaymentHandlerDB.insertNewest r l) = S (length l).
Proof.
  induction l as [|y l IH]; simpl; [reflexivity|].
  destruct (_ <=? _); simpl; [reflexivity | now rewrite IH].
Qed.

Lemma insertNewest_sorted r l :
  StronglySorted newerOrEqual l ->
  StronglySorted newerOrEqual (PaymentHandlerDB.insertNewest r l).
Proof.
  induction l as [|y l IH]; intros Hs; simpl.
  - repeat constructor.
  - inversion Hs as [|? ? Hl Hy]; subst.
    destruct (Transaction.CreatedAt y <=? Transaction.CreatedAt r) eqn:Hc.
    + apply Z.leb_le in Hc. constructor; [exact Hs|].
      constructor; [exact Hc|].
      rewrite List.Forall_forall in *. intros x Hx. specialize (Hy x Hx).
      unfold newerOrEqual in *. lia.
    + apply Z.leb_gt in Hc. constructor; [now apply IH|].
      rewrite List.Forall_forall in *. intros x Hx.
      apply insertNewest_In in Hx. destruct Hx as [-> | Hx].
      * unfold newerOrEqual. lia.
      * now apply Hy.
Qed.

Lemma newestFirst_In l x : In x (PaymentHandlerDB.newestFirst l) <-> In x l.
Proof.
  induction l as [|y l IH]; simpl; [reflexivity|].
  rewrite insertNewest_In, IH. intuition.
Qed.

Lemma newestFirst_length l : length (PaymentHandlerDB.newestFirst l) = length l.
Proof.
  induction l as [|y l IH]; simpl; [reflexivity|].
  now rewrite insertNewest_length, IH.
Qed.

Lemma newestFirst_sorted l : StronglySorted newerOrEqual (PaymentHandlerDB.newestFirst l).
Proof.
  induction l as [|y l IH]; simpl; [constructor | now apply insertNewest_sorted].
Qed.

Lemma StronglySorted_skipn {A} (R : A -> A -> Prop) n l :
  StronglySorted R l -> StronglySorted R (skipn n l).
Proof.
  revert l. induction n as [|n IH]; intros l Hs; simpl; [exact Hs|].
  destruct l as [|x l]; [constructor|].
  inversion Hs; subst. now apply IH.
Qed.

Lemma StronglySorted_firstn {A} (R : A -> A -> Prop) n l :
  StronglySorted R l -> StronglySorted R (firstn n l).
Proof.
  revert l. induction n as [|n IH]; intros l Hs; simpl; [constructor|].
  destruct l as [|x l]; [constructor|].
  inversion Hs as [|? ? Hl Hx]; subst. constructor; [now apply IH|].
  rewrite List.Forall_forall in *. intros y Hy. apply Hx.
  revert Hy. clear. revert l. induction n as [|n IH]; intros l Hy; simpl in Hy.
  - destruct Hy.
  - destruct l as [|z l]; [destruct Hy|].
    destruct Hy as [-> | Hy]; [now left | right; now apply IH].
Qed.

Lemma In_firstn_skipn {A} n m (l : list A) x :
  In x (firstn n (skipn m l)) -> In x l.
Proof.
  intros H.
  assert (H1 : In x (skipn m l)).
  { rewrite <- (firstn_skipn n (skipn m l)). apply in_or_app. now left. }
  rewrite <- (firstn_skipn m l). apply in_or_app. now right.
Qed.

Lemma selects_true user q r :
  PaymentHandlerDB.selects user q r = true ->
  Transaction.DeletedAt r = None /\
  (forall z, user = Some z -> exists u, Transaction.UserID r = Some u /\ Z.of_N u = z) /\
  (PaymentHandlerDB.status q <> "" -> Transaction.Status r = PaymentHandlerDB.status q) /\
  (PaymentHandlerDB.channel q <> "" -> Transaction.Channel r = PaymentHandlerDB.channel q).
Proof.
  unfold PaymentHandlerDB.selects, PaymentHandlerDB.live. intros H.
  apply andb_prop in H. destruct H as [H Hch].
  apply andb_prop in H. destruct H as [H Hst].
  apply andb_prop in H. destruct H as [Hlive Huser].
  split; [destruct (Transaction.DeletedAt r); [discriminate | reflexivity]|].
  split.
  - intros z ->. destruct (Transaction.UserID r) as [u|]; [|discriminate].
    exists u. split; [reflexivity | now apply Z.eqb_eq].
  - split; intros Hne; apply String.eqb_neq in Hne.
    + rewrite Hne in Hst. now apply String.eqb_eq.
    + rewrite Hne in Hch. now apply String.eqb_eq.
Qed.

(** What a successful listing is made of. *)
Lemma ListTransactions_ok st q d rows total lim off :
  PaymentHandlerDB.ListTransactions st q d
  = {| QStatus := 200; QBody := QPage rows total lim off |} ->
  exists user,
    (if String.eqb (PaymentHandlerDB.user_id q) "" then user = None
     else exists z, asInteger st (PaymentHandlerDB.user_id q) = Ok z /\ user = Some z) /\
    (lim, off) = PaymentHandlerDB.parseLimitOffset (PaymentHandlerDB.limit q)
                   (PaymentHandlerDB.offset q) /\
    total = Z.of_nat (length (List.filter (PaymentHandlerDB.selects user q)
                                (transactions d))) /\
    rows = firstn (Z.to_nat lim)
             (skipn (Z.to_nat off)
                (PaymentHandlerDB.newestFirst
                   (List.filter (PaymentHandlerDB.selects user q) (transactions d)))).
Proof.
  unfold PaymentHandlerDB.ListTransactions.
  destruct (PaymentHandlerDB.parseLimitOffset _ _) as [lim' off'].
  destruct (String.eqb (PaymentHandlerDB.user_id q) "").
  - destruct (countErr st); [discriminate|].
    destruct (findErr st); [discriminate|].
    intros H. injection H as <- <- <- <-. exists None. repeat split.
  - destruct (asInteger st (PaymentHandlerDB.user_id q)) as [z|e].
    + destruct (countErr st); [discriminate|].
      destruct (findErr st); [discriminate|].
      intros H. injection H as <- <- <- <-. exists (Some z).
      split; [exists z; now split | repeat split].
    + destruct (countErr st); discriminate.
Qed.

(** X22. A page returned by [ListTransactions] is a slice of the matching
    rows, newest first: it holds exactly min(limit, max(0, total - offset))
    rows, where total counts every matching row whatever the page; its rows
    are in order of decreasing creation time; each of them is a row of the
    ledger that is not deleted and satisfies every filter that was given
    (status, channel, and the user id as the storage layer reads it); and
    total is the number of ledger rows that are not deleted and satisfy
    those filters. *)
Theorem listed_page_is_a_sorted_slice :
  forall (st : Storage) (q : PaymentHandlerDB.ListQuery) (d : DB)
         (rows : list Transaction.t) (total lim off : Z),
    PaymentHandlerDB.ListTransactions st q d
    = {| QStatus := 200; QBody := QPage rows total lim off |} ->
    Z.of_nat (length rows) = Z.min lim (Z.max 0 (total - off)) /\
    StronglySorted newerOrEqual rows /\
    (forall r,
        In r rows ->
        In r (transactions d) /\
        Transaction.DeletedAt r = None /\
        (PaymentHandlerDB.status q <> "" ->
         Transaction.Status r = PaymentHandlerDB.status q) /\
        (PaymentHandlerDB.channel q <> "" ->
         Transaction.Channel r = PaymentHandlerDB.channel q) /\
        (PaymentHandlerDB.user_id q <> "" ->
         exists u, Transaction.UserID r = Some u /\
                   asInteger st (PaymentHandlerDB.user_id q) = Ok (Z.of_N u))) /\
    (exists user,
        (if String.eqb (PaymentHandlerDB.user_id q) "" then user = None
         else exists z, asInteger st (PaymentHandlerDB.user_id q) = Ok z /\
                        user = Some z) /\
        total = Z.of_nat (length (List.filter (PaymentHandlerDB.selects user q)
                                    (transactions d)))).
Proof.
  intros st q d rows total lim off H.
  destruct (ListTransactions_ok st q d rows total lim off H)
    as (user & Huser & Hpage & Htotal & Hrows).
  pose proof (parseLimitOffset_bounds (PaymentHandlerDB.limit q)
                (PaymentHandlerDB.offset q)) as Hb.
  rewrite <- Hpage in Hb. destruct Hb as (Hlim & Hoff).
  split; [|split; [|split; [|exists user; split; [exact Huser | exact Htotal]]]].
  - rewrite Hrows, length_firstn, length_skipn, newestFirst_length, Htotal. lia.
  - rewrite Hrows. apply StronglySorted_firstn, StronglySorted_skipn, newestFirst_sorted.
  - intros r Hin. rewrite Hrows in Hin.
    apply In_firstn_skipn, newestFirst_In, filter_In in Hin.
    destruct Hin as [Hin Hsel].
    destruct (selects_true user q r Hsel) as (Hlive & Hu & Hst & Hch).
    repeat split; try assumption.
    intros Hne. apply String.eqb_neq in Hne. rewrite Hne in Huser.
    destruct Huser as (z & Hz & ->).
    destruct (Hu z eq_refl) as (u & Hr & <-). exists u. now split.
Qed.

(** The newest charge of user 1, one per page. *)
Lemma listed_page_is_a_sorted_slice_witness :
  exists rows,
    PaymentHandlerDB.ListTransactions Examples.storage
      (Examples.query "1" "" "1" "0") Examples.ledger
    = {| QStatus := 200; QBody := QPage rows 3 1 0 |} /\
    map Transaction.ChargeID rows = ["3"] /\
    Z.of_nat (length rows) = Z.min 1 (Z.max 0 (3 - 0)).
Proof.
  destruct (PaymentHandlerDB.ListTransactions Examples.storage
              (Examples.query "1" "" "1" "0") Examples.ledger) as [code payload] eqn:H.
  vm_compute in H. injection H as <- <-.
  eexists. split; [reflexivity|]. split; [reflexivity|].
  refine (proj1 (listed_page_is_a_sorted_slice Examples.storage
                   (Examples.query "1" "" "1" "0") Examples.ledger _ 3 1 0 _)).
  vm_compute. reflexivity.
Defined.

Lemma selects_same_filters user q1 q2 r :
  PaymentHandlerDB.status q1 = PaymentHandlerDB.status q2 ->
  PaymentHandlerDB.channel q1 = PaymentHandlerDB.channel q2 ->
  PaymentHandlerDB.selects user q1 r = PaymentHandlerDB.selects user q2 r.
Proof. intros H1 H2. unfold PaymentHandlerDB.selects. now rewrite H1, H2. Qed.

(** X23. The total that [ListTransactions] reports counts the matching rows
    and does not depend on the page asked for: two listings with the same
    filters report the same total whatever their limit and offset, and a
    listing from offset 0 whose limit is at least the total contains every
    row that any page of the other contains. *)
Theorem listing_total_ignores_paging :
  forall (st : Storage) (q1 q2 : PaymentHandlerDB.ListQuery) (d : DB)
         (rows1 rows2 : list Transaction.t) (total1 lim1 off1 total2 lim2 off2 : Z),
    PaymentHandlerDB.user_id q1 = PaymentHandlerDB.user_id q2 ->
    PaymentHandlerDB.status q1 = PaymentHandlerDB.status q2 ->
    PaymentHandlerDB.channel q1 = PaymentHandlerDB.channel q2 ->
    PaymentHandlerDB.ListTransactions st q1 d
    = {| QStatus := 200; QBody := QPage rows1 total1 lim1 off1 |} ->
    PaymentHandlerDB.ListTransactions st q2 d
    = {| QStatus := 200; QBody := QPage rows2 total2 lim2 off2 |} ->
    total1 = total2 /\
    (off1 = 0 -> total1 <= lim1 -> forall r, In r rows2 -> In r rows1).
Proof.
  intros st q1 q2 d rows1 rows2 total1 lim1 off1 total2 lim2 off2 Hu Hs Hc H1 H2.
  destruct (ListTransactions_ok st q1 d _ _ _ _ H1) as (u1 & Hu1 & _ & Ht1 & Hr1).
  destruct (ListTransactions_ok st q2 d _ _ _ _ H2) as (u2 & Hu2 & _ & Ht2 & Hr2).
  assert (Heq : u1 = u2).
  { rewrite Hu in Hu1.
    destruct (String.eqb (PaymentHandlerDB.user_id q2) ""); [congruence|].
    destruct Hu1 as (z1 & Hz1 & ->), Hu2 as (z2 & Hz2 & ->). congruence. }
  subst u2.
  assert (Hf : List.filter (PaymentHandlerDB.selects u1 q1) (transactions d)
               = List.filter (PaymentHandlerDB.selects u1 q2) (transactions d)).
  { apply filter_ext. intros r. now apply selects_same_filters. }
  rewrite <- Hf in Ht2, Hr2.
  split; [congruence|].
  intros -> Hle r Hin. rewrite Hr2 in Hin. apply In_firstn_skipn in Hin.
  rewrite Hr1. change (Z.to_nat 0) with 0%nat. cbn [skipn].
  rewrite firstn_all2; [exact Hin|].
  rewrite length_skipn, newestFirst_length. lia.
Qed.

(** The second page of one row, and the full listing. *)
Lemma listing_total_ignores_paging_witness :
  exists rows1 rows2,
    PaymentHandlerDB.ListTransactions Examples.storage
      (Examples.query "1" "" "" "") Examples.ledger
    = {| QStatus := 200; QBody := QPage rows1 3 50 0 |} /\
    PaymentHandlerDB.ListTransactions Examples.storage
      (Examples.query "1" "" "1" "1") Examples.ledger
    = {| QStatus := 200; QBody := QPage rows2 3 1 1 |} /\
    map Transaction.ChargeID rows1 = ["3"; "chrg_b"; "chrg_a"] /\
    map Transaction.ChargeID rows2 = ["chrg_b"] /\
    (forall r, In r rows2 -> In r rows1).
Proof.
  destruct (PaymentHandlerDB.ListTransactions Examples.storage
              (Examples.query "1" "" "" "") Examples.ledger) as [c1 p1] eqn:H1.
  destruct (PaymentHandlerDB.ListTransactions Examples.storage
              (Examples.query "1" "" "1" "1") Examples.ledger) as [c2 p2] eqn:H2.
  vm_compute in H1. vm_compute in H2.
  injection H1 as <- <-. injection H2 as <- <-.
  eexists _, _. split; [reflexivity|]. split; [reflexivity|].
  split; [reflexivity|]. split; [reflexivity|].
  refine (proj2 (listing_total_ignores_paging Examples.storage
                   (Examples.query "1" "" "" "") (Examples.query "1" "" "1" "1")
                   Examples.ledger _ _ 3 50 0 3 1 1 eq_refl eq_refl eq_refl _ _)
            eq_refl _); [vm_compute; reflexivity | vm_compute; reflexivity | lia].
Defined.

(** ** Looking one transaction up *)

Lemma firstByID_from a l :
  exists x,
    fold_left
      (fun acc r =>
         match acc with
         | None => Some r
         | Some a => if (Transaction.ID r <? Transaction.ID a)%N then Some r else Some a
         end)
      l (Some a) = Some x /\ (x = a \/ In x l).
Proof.
  revert a. induction l as [|y l IH]; intros a; simpl.
  - exists a. now split; [|left].
  - destruct (Transaction.ID y <? Transaction.ID a)%N.
    + destruct (IH y) as (x & Hx & [Heq|Hin]); exists x; split; auto.
    + destruct (IH a) as (x & Hx & [Heq|Hin]); exists x; split; auto.
Qed.

Lemma firstByID_None l : PaymentHandlerDB.firstByID l = None <-> l = [].
Proof.
  split; [|now intros ->].
  destruct l as [|y l]; [reflexivity|].
  unfold PaymentHandlerDB.firstByID. simpl.
  destruct (firstByID_from y l) as (x & Hx & _). rewrite Hx. discriminate.
Qed.

Lemma firstByID_In l x : PaymentHandlerDB.firstByID l = Some x -> In x l.
Proof.
  destruct l as [|y l]; [discriminate|].
  unfold PaymentHandlerDB.firstByID. simpl.
  destruct (firstByID_from y l) as (x' & Hx & Hin). rewrite Hx.
  intros [= <-]. destruct Hin as [->|Hin]; [now left | now right].
Qed.

Lemma filter_empty {A} (f : A -> bool) l :
  List.filter f l = [] <-> forall x, In x l -> f x = false.
Proof.
  induction l as [|y l IH]; simpl.
  - split; [intros _ x [] | reflexivity].
  - destruct (f y) eqn:E.
    + split; [discriminate|]. intros H. rewrite (H y) in E; [discriminate | now left].
    + rewrite IH. split.
      * intros H x [<-|Hin]; auto.
      * intros H x Hin. apply H. now right.
Qed.

Lemma live_true r : PaymentHandlerDB.live r = true <-> Transaction.DeletedAt r = None.
Proof.
  unfold PaymentHandlerDB.live. destruct (Transaction.DeletedAt r); split; congruence.
Qed.

Lemma ParseUint_empty bits : strconv.ParseUint "" bits = None.
Proof. reflexivity. Qed.

(** X24. A transaction that [GetTransaction] answers is a row of the ledger
    that is not soft-deleted and that the requested id designates: the id is
    the decimal form of the row's primary key, or it is the row's charge
    id. *)
Theorem looked_up_row_matches_id :
  forall (st : Storage) (id : string) (d : DB) (tx : Transaction.t),
    PaymentHandlerDB.GetTransaction st id d
    = {| QStatus := 200; QBody := QTransaction tx |} ->
    In tx (transactions d) /\
    Transaction.DeletedAt tx = None /\
    (strconv.ParseUint id 64 = Some (Transaction.ID tx) \/ Transaction.ChargeID tx = id).
Proof.
  intros st id d tx. unfold PaymentHandlerDB.GetTransaction.
  destruct (String.eqb id ""); [discriminate|].
  assert (Hcharge :
    match firstByChargeErr st with
    | Some e => {| QStatus := 500;
                   QBody := QError ("Failed to retrieve transaction: " ++ e) |}
    | None =>
        match PaymentHandlerDB.firstByID
                (List.filter (fun r => PaymentHandlerDB.live r && hasCharge id r)
                   (transactions d)) with
        | Some tx => {| QStatus := 200; QBody := QTransaction tx |}
        | None => {| QStatus := 404; QBody := QError "Transaction not found" |}
        end
    end = {| QStatus := 200; QBody := QTransaction tx |} ->
    In tx (transactions d) /\ Transaction.DeletedAt tx = None /\
    Transaction.ChargeID tx = id).
  { destruct (firstByChargeErr st); [discriminate|].
    destruct (PaymentHandlerDB.firstByID _) as [x|] eqn:E; [|discriminate].
    intros [= ->]. apply firstByID_In, filter_In in E. destruct E as [Hin Hp].
    apply andb_true_iff in Hp. destruct Hp as [Hl Hc].
    split; [exact Hin|]. split; [now apply live_true|].
    now apply String.eqb_eq in Hc. }
  destruct (strconv.ParseUint id 64) as [n|].
  - destruct (firstByIDErr st); [discriminate|].
    destruct (PaymentHandlerDB.firstByID
                (List.filter (fun r => PaymentHandlerDB.live r && N.eqb (Transaction.ID r) n)
                   (transactions d))) as [x|] eqn:E.
    + intros [= ->]. apply firstByID_In, filter_In in E. destruct E as [Hin Hp].
      apply andb_true_iff in Hp. destruct Hp as [Hl Hn].
      split; [exact Hin|]. split; [now apply live_true|].
      left. apply N.eqb_eq in Hn. now rewrite Hn.
    + intros H. destruct (Hcharge H) as (H1 & H2 & H3). auto.
  - intros H. destruct (Hcharge H) as (H1 & H2 & H3). auto.
Qed.

(** The charge [chrg_b] is found by its charge id. *)
Lemma looked_up_row_matches_id_witness :
  exists tx,
    PaymentHandlerDB.GetTransaction Examples.storage "chrg_b" Examples.ledger
    = {| QStatus := 200; QBody := QTransaction tx |} /\
    Transaction.ID tx = 2%N /\
    In tx (transactions Examples.ledger) /\
    Transaction.DeletedAt tx = None /\
    (strconv.ParseUint "chrg_b" 64 = Some (Transaction.ID tx)
     \/ Transaction.ChargeID tx = "chrg_b").
Proof.
  destruct (PaymentHandlerDB.GetTransaction Examples.storage "chrg_b" Examples.ledger)
    as [code payload] eqn:H.
  vm_compute in H. injection H as <- <-.
  eexists. split; [reflexivity|]. split; [reflexivity|].
  refine (looked_up_row_matches_id Examples.storage "chrg_b" Examples.ledger _ _).
  vm_compute. reflexivity.
Defined.

(** X25. With a storage layer that answers both lookups, [GetTransaction]
    of a non-empty id answers 200 or 404, and it answers 404 exactly when no
    row that is not soft-deleted has the id as its charge id or, for an id
    that is a decimal number, as its primary key. *)
Theorem not_found_iff_no_live_row :
  forall (st : Storage) (id : string) (d : DB),
    id <> "" ->
    firstByIDErr st = None ->
    firstByChargeErr st = None ->
    (QStatus (PaymentHandlerDB.GetTransaction st id d) = 200 \/
     QStatus (PaymentHandlerDB.GetTransaction st id d) = 404) /\
    (QStatus (PaymentHandlerDB.GetTransaction st id d) = 404 <->
     forall r, In r (transactions d) -> Transaction.DeletedAt r = None ->
               Transaction.ChargeID r <> id /\
               strconv.ParseUint id 64 <> Some (Transaction.ID r)).
Proof.
  intros st id d Hid Hpk Hcid. unfold PaymentHandlerDB.GetTransaction.
  apply String.eqb_neq in Hid. rewrite Hid, Hpk, Hcid.
  set (byC := List.filter (fun r => PaymentHandlerDB.live r && hasCharge id r)
                (transactions d)).
  assert (HC : PaymentHandlerDB.firstByID byC = None <->
               forall r, In r (transactions d) -> Transaction.DeletedAt r = None ->
                         Transaction.ChargeID r <> id).
  { rewrite firstByID_None. unfold byC. rewrite filter_empty. split.
    - intros H r Hin Hl Hc. specialize (H r Hin).
      apply live_true in Hl. rewrite Hl in H. simpl in H.
      unfold hasCharge in H. apply String.eqb_neq in H. contradiction.
    - intros H r Hin. destruct (PaymentHandlerDB.live r) eqn:Hl; [|reflexivity].
      simpl. apply String.eqb_neq. apply H; [exact Hin | now apply live_true]. }
  destruct (strconv.ParseUint id 64) as [n|].
  - set (byP := List.filter (fun r => PaymentHandlerDB.live r && N.eqb (Transaction.ID r) n)
                  (transactions d)).
    assert (HP : PaymentHandlerDB.firstByID byP = None <->
                 forall r, In r (transactions d) -> Transaction.DeletedAt r = None ->
                           Some n <> Some (Transaction.ID r)).
    { rewrite firstByID_None. unfold byP. rewrite filter_empty. split.
      - intros H r Hin Hl [= Hn]. specialize (H r Hin).
        apply live_true in Hl. rewrite Hl in H. simpl in H.
        apply N.eqb_neq in H. congruence.
      - intros H r Hin. destruct (PaymentHandlerDB.live r) eqn:Hl; [|reflexivity].
        simpl. apply N.eqb_neq. intros Hn. apply (H r Hin); [now apply live_true|].
        now rewrite Hn. }
    destruct (PaymentHandlerDB.firstByID byP) as [x|].
    + split; [now left|]. split; [discriminate|].
      intros H. assert (Hnone : @None Transaction.t = None) by reflexivity.
      exfalso. assert (Hx : Some x = None) by (apply HP; intros r Hin Hl; now apply H).
      discriminate.
    + destruct (PaymentHandlerDB.firstByID byC) as [y|].
      * split; [now left|]. split; [discriminate|].
        intros H. exfalso.
        assert (Hy : Some y = None) by (apply HC; intros r Hin Hl; now apply H).
        discriminate.
      * split; [now right|]. split; [|reflexivity].
        intros _ r Hin Hl. split.
        -- now apply (proj1 HC eq_refl r).
        -- now apply (proj1 HP eq_refl r).
  - destruct (PaymentHandlerDB.firstByID byC) as [y|].
    + split; [now left|]. split; [discriminate|].
      intros H. exfalso.
      assert (Hy : Some y = None) by (apply HC; intros r Hin Hl; now apply H).
      discriminate.
    + split; [now right|]. split; [|reflexivity].
      intros _ r Hin Hl. split; [now apply (proj1 HC eq_refl r) | discriminate].
Qed.

(** No row of the sample ledger is designated by [chrg_z]. *)
Lemma not_found_iff_no_live_row_witness :
  QStatus (PaymentHandlerDB.GetTransaction Examples.storage "chrg_z" Examples.ledger) = 404 /\
  (QStatus (PaymentHandlerDB.GetTransaction Examples.storage "chrg_z" Examples.ledger) = 404 <->
   forall r, In r (transactions Examples.ledger) -> Transaction.DeletedAt r = None ->
             Transaction.ChargeID r <> "chrg_z" /\
             strconv.ParseUint "chrg_z" 64 <> Some (Transaction.ID r)).
Proof.
  assert (Hid : "chrg_z" <> "") by discriminate.
  pose proof (not_found_iff_no_live_row Examples.storage "chrg_z" Examples.ledger
                Hid eq_refl eq_refl) as H.
  split; [vm_compute; reflexivity | exact (proj2 H)].
Defined.

(** X26. An id that is a decimal number is looked up as a primary key first:
    when a row that is not soft-deleted has that key, the answer is a
    not-deleted row with that key, whether or not another row carries the
    same text as its charge id and whatever the charge-id lookup would do. *)
Theorem numeric_id_is_a_primary_key :
  forall (st : Storage) (id : string) (n : N) (d : DB) (r : Transaction.t),
    strconv.ParseUint id 64 = Some n ->
    firstByIDErr st = None ->
    In r (transactions d) ->
    Transaction.DeletedAt r = None ->
    Transaction.ID r = n ->
    exists tx,
      PaymentHandlerDB.GetTransaction st id d
      = {| QStatus := 200; QBody := QTransaction tx |} /\
      Transaction.ID tx = n /\ In tx (transactions d) /\
      Transaction.DeletedAt tx = None.
Proof.
  intros st id n d r Hn Hpk Hin Hl Hr. unfold PaymentHandlerDB.GetTransaction.
  destruct (String.eqb id "") eqn:E.
  { apply String.eqb_eq in E. subst id. rewrite ParseUint_empty in Hn. discriminate. }
  rewrite Hn, Hpk.
  destruct (PaymentHandlerDB.firstByID
              (List.filter (fun r => PaymentHandlerDB.live r && N.eqb (Transaction.ID r) n)
                 (transactions d))) as [x|] eqn:Ex.
  - exists x. split; [reflexivity|].
    apply firstByID_In, filter_In in Ex. destruct Ex as [Hx Hp].
    apply andb_true_iff in Hp. destruct Hp as [Hlx Hnx].
    split; [now apply N.eqb_eq|]. split; [exact Hx | now apply live_true].
  - exfalso. apply firstByID_None in Ex.
    pose proof (proj1 (filter_empty _ _) Ex r Hin) as H. cbn beta in H.
    apply live_true in Hl. rewrite Hl in H. simpl in H.
    apply N.eqb_neq in H. contradiction.
Qed.

(** The id 3 designates the third row, not the charge whose id is the
    text 3. *)
Lemma numeric_id_is_a_primary_key_witness :
  exists r tx,
    nth_error (transactions Examples.ledger) 2 = Some r /\
    Transaction.ChargeID r = "chrg_c" /\
    PaymentHandlerDB.GetTransaction Examples.storage "3" Examples.ledger
    = {| QStatus := 200; QBody := QTransaction tx |} /\
    Transaction.ID tx = 3%N /\ In tx (transactions Examples.ledger) /\
    Transaction.DeletedAt tx = None.
Proof.
  destruct (nth_error (transactions Examples.ledger) 2) as [r|] eqn:Hr;
    [|vm_compute in Hr; discriminate].
  assert (Hin : In r (transactions Examples.ledger)) by (eapply nth_error_In; exact Hr).
  assert (Hc : Transaction.ChargeID r = "chrg_c")
    by (vm_compute in Hr; injection Hr as <-; reflexivity).
  assert (Hl : Transaction.DeletedAt r = None)
    by (vm_compute in Hr; injection Hr as <-; reflexivity).
  assert (Hid : Transaction.ID r = 3%N)
    by (vm_compute in Hr; injection Hr as <-; reflexivity).
  assert (Hn : strconv.ParseUint "3" 64 = Some 3%N) by (vm_compute; reflexivity).
  destruct (numeric_id_is_a_primary_key Examples.storage "3" 3%N Examples.ledger r
              Hn eq_refl Hin Hl Hid) as (tx & H).
  exists r, tx. split; [reflexivity|]. split; [exact Hc | exact H].
Defined.

(** ** The ledger only grows *)

Lemma insertOnConflict_identity now t d :
  Transaction.DeletedAt t = None ->
  exists added,
    map identityOf (transactions (insertOnConflict now t d))
    = (map identityOf (transactions d) ++ added)%list /\
    (forall k, In k added -> snd k = None).
Proof.
  intros Ht. unfold insertOnConflict.
  destruct (existsb (hasCharge (Transaction.ChargeID t)) (transactions d)).
  - exists []. split; [|intros k []].
    cbn [transactions]. rewrite app_nil_r, map_map. apply map_ext.
    intros r. destruct (hasCharge (Transaction.ChargeID t) r); reflexivity.
  - exists [identityOf (stamp now (next_id d) t)]. split.
    + cbn [transactions]. now rewrite map_app.
    + intros k [<-|[]]. exact Ht.
Qed.

Lemma upsert_identity env ch userID w :
  exists added,
    map identityOf (transactions (db (snd
      (PaymentHandler.upsertTransactionFromCharge env (Some ch) userID w))))
    = (map identityOf (transactions (db w)) ++ added)%list /\
    (forall k, In k added -> snd k = None).
Proof.
  destruct (createErr env) as [err|] eqn:E.
  - rewrite (upsert_failed env ch userID err w E). exists [].
    split; [now rewrite app_nil_r | intros k []].
  - destruct (upsert_written env ch userID w E) as [_ ->].
    now apply insertOnConflict_identity.
Qed.

Lemma upsert_live env ch userID w :
  (forall r, In r (transactions (db w)) -> Transaction.DeletedAt r = None) ->
  forall r,
    In r (transactions (db (snd
      (PaymentHandler.upsertTransactionFromCharge env (Some ch) userID w)))) ->
    Transaction.DeletedAt r = None.
Proof.
  intros Hlive r Hin.
  destruct (upsert_identity env ch userID w) as (added & Hmap & Hadded).
  apply (in_map identityOf) in Hin. rewrite Hmap in Hin.
  apply in_app_or in Hin. destruct Hin as [Hold|Hnew].
  - apply in_map_iff in Hold. destruct Hold as (r0 & Heq & Hr0).
    apply Hlive in Hr0. unfold identityOf in Heq. congruence.
  - exact (Hadded _ Hnew).
Qed.

(** X27. No sequence of upserts removes or reorders a row of the ledger, or
    changes a row's primary key, charge id, creation time or deletion mark:
    these columns of the ledger after the upserts are those before, followed
    by the columns of the rows added, none of which is soft-deleted. *)
Theorem upserts_only_append :
  forall (os : list Observation) (w : World),
    exists added,
      map identityOf (transactions (db (upsertAll os w)))
      = (map identityOf (transactions (db w)) ++ added)%list /\
      (forall k, In k added -> snd k = None).
Proof.
  induction os as [|o os IH]; intros w.
  - exists []. split; [simpl; now rewrite app_nil_r | intros k []].
  - unfold upsertAll. cbn [fold_left]. fold (upsertAll os (observe o w)).
    destruct (IH (observe o w)) as (added2 & H2 & Hk2).
    destruct (upsert_identity (obsEnv o) (obsCharge o) (obsUser o) w)
      as (added1 & H1 & Hk1).
    exists (added1 ++ added2)%list. split.
    + rewrite H2. unfold observe. rewrite H1. now rewrite app_assoc.
    + intros k Hin. apply in_app_or in Hin. destruct Hin; auto.
Qed.

(** X28. What the upsert writes, the lookup reads back. In a ledger that
    keeps charge ids unique and has no soft-deleted row, after a written
    upsert of a charge whose id is not empty and not a decimal number,
    [GetTransaction] of that id answers 200 with a row that mirrors the
    charge and references the user the upsert resolved, provided the storage
    layer answers the charge-id lookup. *)
Theorem stored_charge_is_found_by_charge_id :
  forall (env : Env) (st : Storage) (ch : Charge.t) (userID : option N) (w : World),
    List.NoDup (chargeIDs (db w)) ->
    (forall r, In r (transactions (db w)) -> Transaction.DeletedAt r = None) ->
    createErr env = None ->
    Charge.ID ch <> "" ->
    strconv.ParseUint (Charge.ID ch) 64 = None ->
    firstByChargeErr st = None ->
    exists tx,
      PaymentHandlerDB.GetTransaction st (Charge.ID ch)
        (db (snd (PaymentHandler.upsertTransactionFromCharge env (Some ch) userID w)))
      = {| QStatus := 200; QBody := QTransaction tx |} /\
      mirrors ch tx /\
      Transaction.ChargeID tx = Charge.ID ch /\
      Transaction.UserID tx = extractUserIDFromCharge (Some ch) userID.
Proof.
  intros env st ch userID w Hnd Hlive Hc Hid Hnum Hst.
  destruct (upsert_row env ch userID w Hnd Hc) as (r & Hrows & Hm & Hu).
  pose proof (upsert_live env ch userID w Hlive) as Hlive'.
  set (d' := db (snd (PaymentHandler.upsertTransactionFromCharge env (Some ch) userID w)))
    in *.
  exists r. split; [|split; [exact Hm | split; [|exact Hu]]].
  - unfold PaymentHandlerDB.GetTransaction.
    apply String.eqb_neq in Hid. rewrite Hid, Hnum, Hst.
    assert (Hf : List.filter
                   (fun r => PaymentHandlerDB.live r && hasCharge (Charge.ID ch) r)
                   (transactions d')
                 = rowsOf (Charge.ID ch) d').
    { unfold rowsOf. apply filter_ext_in. intros x Hx.
      apply Hlive', live_true in Hx. now rewrite Hx. }
    rewrite Hf, Hrows. reflexivity.
  - assert (Hin : In r (rowsOf (Charge.ID ch) d')) by (rewrite Hrows; now left).
    apply filter_In in Hin. destruct Hin as [_ Hh].
    now apply String.eqb_eq in Hh.
Qed.

(** The settled charge [chrg_1], written over its pending row and read
    back. *)
Lemma stored_charge_is_found_by_charge_id_witness :
  exists tx,
    PaymentHandlerDB.GetTransaction Examples.storage "chrg_1"
      (db (snd (PaymentHandler.upsertTransactionFromCharge Sample.settled
                  (Some (Sample.chrg1 "successful")) None Sample.wPending)))
    = {| QStatus := 200; QBody := QTransaction tx |} /\
    Transaction.Status tx = "successful" /\
    Transaction.ID tx = 1%N.
Proof.
  assert (Hnd : List.NoDup (chargeIDs (db Sample.wPending))).
  { vm_compute. constructor; [intros [] | constructor]. }
  assert (Hlive : forall r, In r (transactions (db Sample.wPending)) ->
                            Transaction.DeletedAt r = None).
  { intros r Hin. vm_compute in Hin. destruct Hin as [<-|[]]. reflexivity. }
  assert (Hc : createErr Sample.settled = None) by reflexivity.
  assert (Hid : Charge.ID (Sample.chrg1 "successful") <> "") by discriminate.
  assert (Hnum : strconv.ParseUint (Charge.ID (Sample.chrg1 "successful")) 64 = None)
    by (vm_compute; reflexivity).
  assert (Hst : firstByChargeErr Examples.storage = None) by reflexivity.
  destruct (stored_charge_is_found_by_charge_id Sample.settled Examples.storage
              (Sample.chrg1 "successful") None Sample.wPending
              Hnd Hlive Hc Hid Hnum Hst) as (tx & Hget & Hm & Hcid & Hu).
  exists tx. split; [exact Hget|]. split; [exact (proj1 Hm)|].
  vm_compute in Hget. injection Hget as <-. reflexivity.
Defined.

(** ** The user of a charge request *)

Lemma ParseUint_bound s bits n :
  strconv.ParseUint s bits = Some n -> (n < 2 ^ bits)%N.
Proof.
  unfold strconv.ParseUint. destruct (strconv.digits s) as [m|]; [|discriminate].
  destruct (m <? 2 ^ bits)%N eqn:E; [|discriminate].
  intros [= <-]. now apply N.ltb_lt.
Qed.

Lemma ParseUint_nonempty s bits :
  (if String.eqb s "" then None else strconv.ParseUint s bits)
  = strconv.ParseUint s bits.
Proof.
  destruct (String.eqb s "") eqn:E; [|reflexivity].
  apply String.eqb_eq in E. now subst s.
Qed.

(** X29. The user of a charge request is resolved in a fixed order. A user id
    in the body wins over everything. Without one, an [X-User-ID] header that
    reads as a 32-bit decimal number wins over the query string; a header that
    is missing or does not read as one falls through to the [user_id] query
    parameter, and an unreadable parameter leaves the request without a user.
    An id taken from the header or the query string is below 2^32, and every
    id below 2^32 sent in the header in decimal is read back as itself. *)
Theorem request_user_resolution_order :
  forall (c : Ctx) (req : PaymentRequest.t),
    (forall u, PaymentRequest.UserID req = Some u ->
               getUserIDFromRequest c req = Some u) /\
    (PaymentRequest.UserID req = None ->
     (forall u, strconv.ParseUint (HeaderXUserID c) 32 = Some u ->
                getUserIDFromRequest c req = Some u) /\
     (strconv.ParseUint (HeaderXUserID c) 32 = None ->
      getUserIDFromRequest c req = strconv.ParseUint (QueryUserID c) 32) /\
     (forall u, getUserIDFromRequest c req = Some u -> (u < 2 ^ 32)%N) /\
     (forall n, (n < 2 ^ 32)%N -> HeaderXUserID c = strconv.FormatUint n ->
                getUserIDFromRequest c req = Some n)).
Proof.
  intros c req. unfold getUserIDFromRequest.
  rewrite !ParseUint_nonempty. split.
  - intros u ->. reflexivity.
  - intros ->.
    assert (Hhead : forall u, strconv.ParseUint (HeaderXUserID c) 32 = Some u ->
              match strconv.ParseUint (HeaderXUserID c) 32 with
              | Some u => Some u
              | None => strconv.ParseUint (QueryUserID c) 32
              end = Some u) by (intros u ->; reflexivity).
    split; [exact Hhead|]. split; [intros ->; reflexivity|]. split.
    + intros u.
      destruct (strconv.ParseUint (HeaderXUserID c) 32) as [h|] eqn:E.
      * intros [= <-]. exact (ParseUint_bound _ _ _ E).
      * apply ParseUint_bound.
    + intros n Hn Hh. apply Hhead. rewrite Hh. now apply ParseUint_FormatUint.
Qed.
